(** * Hermes DICOM router: routing and dispatch engine

    A shallow embedding of the filesystem-as-queue engine of the Hermes
    router (src/dispatch/send.py, src/dispatcher.py,
    src/routing/process_series.py, src/routing/route_series.py,
    src/common/monitor.py, src/common/events.py).

    Python functions become functions in a state-and-exception monad over an
    explicit world: the directory tree, the clock, the job queue, and a
    chronological log of every externally visible action (bookkeeper events,
    webhooks, filesystem mutations, queue submissions).  Python exceptions are
    the [Raise] outcome; what was done before the exception stays done. *)

From stdpp Require Import base strings list gmap pretty.
From Stdlib Require Import ZArith Lia.

Set Warnings "-register-all".

Open Scope Z_scope.

(** ** Python values *)

(** pathlib.Path objects are lists of components, all relative to the one
    root of the directory tree. *)
Definition Path := list string.

(** The dynamically typed values that flow through dictionaries, JSON
    documents and event payloads.  Numbers are integers: counters, ports, and
    clock readings and timestamps in one fixed unit of time. *)
Inductive pyval :=
| VNone
| VBool (b : bool)
| VInt (z : Z)
| VStr (s : string)
| VPath (p : Path).

#[global] Instance pyval_eq_dec : EqDecision pyval.
Proof. solve_decision. Defined.

(** A Python dict used as a record (JSON objects, rule and target entries). *)
Abbreviation dict := (gmap string pyval).

(** [d.get(k, default)] *)
Definition dict_get (d : dict) (k : string) (default : pyval) : pyval :=
  match d !! k with
  | Some v => v
  | None => default
  end.

(** Truth value of an object in a condition. *)
Definition py_truthy (v : pyval) : bool :=
  match v with
  | VNone => false
  | VBool b => b
  | VInt z => negb (z =? 0)
  | VStr s => negb (String.eqb s "")
  | VPath _ => true
  end.

(** ** Exceptions and outcomes *)

Inductive exn :=
| IndexError
| TypeError
| KeyError
| AttributeError
| UnboundLocalError
| FileNotFoundError
| FileExistsError
| NotADirectoryError
| IsADirectoryError
| JSONDecodeError
| ShutilError
| ConfigError
| RuleError
| CalledProcessError (returncode : Z).

Inductive outcome (A : Type) :=
| Ret (a : A)
| Raise (e : exn).
Arguments Ret {A} a.
Arguments Raise {A} e.

(** ** Strings and paths *)

Definition endswith (s suffix : string) : bool :=
  let n := String.length s in
  let m := String.length suffix in
  (m <=? n)%nat && String.eqb (String.substring (n - m)%nat m s) suffix.

Definition startswith (s pre : string) : bool := String.prefix pre s.

(** [s[:-k]] for a string of length at least [k] (shorter strings give the
    empty string, as in Python). *)
Definition drop_last (k : nat) (s : string) : string :=
  String.substring 0 (String.length s - k)%nat s.

Fixpoint split_slash (s : string) : list string :=
  match s with
  | EmptyString => [EmptyString]
  | String c s' =>
      if Ascii.eqb c (Ascii.ascii_of_nat 47) then EmptyString :: split_slash s'
      else match split_slash s' with
           | x :: xs => String c x :: xs
           | [] => [String c EmptyString]
           end
  end.

(** [Path(s)]: the components of a path string; empty components are dropped
    (pathlib collapses repeated and trailing separators). *)
Definition PathOf (s : string) : Path :=
  filter (λ x, x ≠ "") (split_slash s).

(** [str(p)] *)
Definition path_str (p : Path) : string :=
  foldr (λ c acc, "/" +:+ c +:+ acc) "" p.

(** [p.name] *)
Definition path_name (p : Path) : string := List.last p "".

(** [p.parent] *)
Definition path_parent (p : Path) : Path := removelast p.

(** [str(v)], as used by f-strings. *)
Definition py_str (v : pyval) : string :=
  match v with
  | VNone => "None"
  | VBool true => "True"
  | VBool false => "False"
  | VInt z => pretty z
  | VStr s => s
  | VPath p => path_str p
  end.

(** ** Insertion-ordered dictionaries

    Python dicts iterate in insertion order; assigning to an existing key keeps
    its position and replaces its value. *)
Section odict.
Context {K A : Type} `{EqDecision K}.

Fixpoint assoc (k : K) (l : list (K * A)) : option A :=
    match l with
    | [] => None
    | (k', v) :: l' => if bool_decide (k = k') then Some v else assoc k l'
    end.

Fixpoint assoc_set (k : K) (v : A) (l : list (K * A)) : list (K * A) :=
    match l with
    | [] => [(k, v)]
    | (k', v') :: l' =>
        if bool_decide (k = k') then (k', v) :: l' else (k', v') :: assoc_set k v l'
    end.

Fixpoint assoc_del (k : K) (l : list (K * A)) : list (K * A) :=
    match l with
    | [] => []
    | (k', v') :: l' =>
        if bool_decide (k = k') then l' else (k', v') :: assoc_del k l'
    end.

Definition keys (l : list (K * A)) : list K := map fst l.
End odict.

(** ** The directory tree *)

Inductive content :=
| CEmpty
| CJson (d : dict)
| CData (s : string).

Inductive node :=
| File (c : content)
| Dir (entries : list (string * node)).

Fixpoint lookup_path (p : Path) (n : node) : option node :=
  match p with
  | [] => Some n
  | x :: p' =>
      match n with
      | Dir es =>
          match assoc x es with
          | Some c => lookup_path p' c
          | None => None
          end
      | File _ => None
      end
  end.

(** [put p (Some c) n] binds the last component of [p] to [c] in its parent
    directory, [put p None n] removes it; [None] when the parent is not an
    existing directory. *)
Fixpoint put (p : Path) (v : option node) (n : node) : option node :=
  match p with
  | [] => None
  | x :: p' =>
      match n with
      | File _ => None
      | Dir es =>
          match p' with
          | [] =>
              Some (Dir (match v with
                         | Some c => assoc_set x c es
                         | None => assoc_del x es
                         end))
          | _ :: _ =>
              match assoc x es with
              | Some c =>
                  match put p' v c with
                  | Some c' => Some (Dir (assoc_set x c' es))
                  | None => None
                  end
              | None => None
              end
          end
      end
  end.

Definition is_dir_node (n : node) : bool :=
  match n with Dir _ => true | File _ => false end.

(** ** Events (src/common/events.py) *)

Inductive Hermes_Event :=
| HE_UNKNOWN | BOOT | SHUTDOWN | SHUTDOWN_REQUEST | CONFIG_UPDATE | PROCESSING.

Inductive Series_Event :=
| SE_UNKNOWN | REGISTERED | ROUTE | DISCARD | DISPATCH | CLEAN | ERROR | MOVE | SUSPEND.

Inductive Severity := INFO | WARNING | SEV_ERROR | CRITICAL.

(** ** The world *)

(** The monitor object of src/common/monitor.py. *)
Record Monitor := configure {
  module_name : string;
  instance : string;
  address : string
}.

Definition sender_name (m : Monitor) : string :=
  module_name m +:+ "." +:+ instance m.
Definition bookkeeper_address (m : Monitor) : string :=
  "http://" +:+ address m.

(** A transfer job as handed to the queue: the arguments of [execute]. *)
Record job := Job {
  job_target_info : dict;
  job_folder : Path;
  job_success_folder : Path;
  job_error_folder : Path;
  job_retry_max : Z;
  job_retry_delay : Z;
  job_monitor : Monitor
}.

(** Externally visible actions, logged in the order they happen. *)
Inductive action :=
| AEvent (e : Hermes_Event) (sev : Severity) (description : string)
| ASeries (e : Series_Event) (series_uid : pyval) (file_count : Z)
          (target : pyval) (info : pyval)
| ARegister (tags : dict)
| AWebhook (url payload : pyval) (event : string)
| ATouch (p : Path)
| AUnlink (p : Path)
| AMkdir (p : Path)
| AMove (src dst : Path)
| ACopy (src dst : Path)
| AWrite (p : Path) (c : content)
| AEnqueue (j : job).

Record world := World {
  fs : node;
  log : list action;
  now : Z;
  queue : list job;
  uuid_ctr : nat;
  terminated : bool
}.

Definition set_fs (n : node) (w : world) : world :=
  World n (log w) (now w) (queue w) (uuid_ctr w) (terminated w).

Definition add_log (a : action) (w : world) : world :=
  World (fs w) (log w ++ [a]) (now w) (queue w) (uuid_ctr w) (terminated w).

(** ** The monad *)

Definition M (A : Type) : Type := world → outcome A * world.

Definition ret {A} (a : A) : M A := λ w, (Ret a, w).
Definition raise {A} (e : exn) : M A := λ w, (Raise e, w).

Definition bind {A B} (c : M A) (k : A → M B) : M B :=
  λ w, match c w with
       | (Ret a, w') => k a w'
       | (Raise e, w') => (Raise e, w')
       end.

(** [try: c  except Exception as e: h e] *)
Definition try_except {A} (c : M A) (h : exn → M A) : M A :=
  λ w, match c w with
       | (Ret a, w') => (Ret a, w')
       | (Raise e, w') => h e w'
       end.

Definition lift {A} (o : outcome A) : M A := λ w, (o, w).

Declare Scope py_scope.
Delimit Scope py_scope with py.
Notation "'let*' x ':=' c 'in' k" := (bind c (λ x, k))
  (at level 10, x name, c at level 100, k at level 200, only parsing) : py_scope.
Notation "c ';;' k" := (bind c (λ _, k))
  (at level 100, k at level 200, right associativity, only parsing) : py_scope.
Open Scope py_scope.

Definition get_fs : M node := λ w, (Ret (fs w), w).
Definition emit (a : action) : M unit := λ w, (Ret tt, add_log a w).
Definition update_fs (n : node) (a : action) : M unit :=
  λ w, (Ret tt, add_log a (set_fs n w)).

(** [for x in l: body s x] with loop-carried variables [s]; the body either
    continues, breaks the loop, or returns from the enclosing function. *)
Inductive flow := Continue | Break | Return.

Fixpoint for_loop {A S} (l : list A) (s : S) (body : S → A → M (flow * S))
    : M (flow * S) :=
  match l with
  | [] => ret (Continue, s)
  | x :: l' =>
      let* r := body s x in
      match r with
      | (Continue, s') => for_loop l' s' body
      | (Break, s') => ret (Continue, s')
      | (Return, s') => ret (Return, s')
      end
  end.

(** ** Filesystem primitives *)

(** [p.exists()] / [os.path.exists(p)] *)
Definition path_exists (p : Path) : M bool :=
  let* t := get_fs in
  ret (match lookup_path p t with Some _ => true | None => false end).

(** [os.path.isdir(p)] *)
Definition path_isdir (p : Path) : M bool :=
  let* t := get_fs in
  ret (match lookup_path p t with Some (Dir _) => true | _ => false end).

(** [p.touch()], with pathlib's default [exist_ok=True]: an existing entry is
    left alone (only its times change), a missing one is created empty; the
    parent directory has to exist. *)
Definition touch (p : Path) : M unit :=
  let* t := get_fs in
  match lookup_path p t with
  | Some _ => emit (ATouch p)
  | None =>
      match put p (Some (File CEmpty)) t with
      | Some t' => update_fs t' (ATouch p)
      | None => raise FileNotFoundError
      end
  end.

(** [p.unlink()] / [os.remove(p)] *)
Definition unlink (p : Path) : M unit :=
  let* t := get_fs in
  match lookup_path p t with
  | Some (File _) =>
      match put p None t with
      | Some t' => update_fs t' (AUnlink p)
      | None => raise FileNotFoundError
      end
  | Some (Dir _) => raise IsADirectoryError
  | None => raise FileNotFoundError
  end.

(** [os.mkdir(p)] *)
Definition mkdir (p : Path) : M unit :=
  let* t := get_fs in
  match lookup_path p t with
  | Some _ => raise FileExistsError
  | None =>
      match put p (Some (Dir [])) t with
      | Some t' => update_fs t' (AMkdir p)
      | None => raise FileNotFoundError
      end
  end.

(** A directory entry as produced by [os.scandir]. *)
Record DirEntry := Entry {
  entry_name : string;
  entry_path : string;
  entry_is_dir : bool
}.

(** [os.scandir(folder)]: the entries of the directory at the time of the
    call, in directory order. *)
Definition scandir (folder : string) : M (list DirEntry) :=
  let* t := get_fs in
  match lookup_path (PathOf folder) t with
  | Some (Dir es) =>
      ret (map (λ '(name, n), Entry name (folder +:+ "/" +:+ name) (is_dir_node n)) es)
  | Some (File _) => raise NotADirectoryError
  | None => raise FileNotFoundError
  end.

(** [list(p.glob("*.dcm"))]: the names in directory [p] that end in ".dcm";
    empty when [p] is not a directory. *)
Definition glob_dcm (p : Path) : M (list string) :=
  let* t := get_fs in
  ret (match lookup_path p t with
       | Some (Dir es) => filter (λ n, endswith n ".dcm" = true) (keys es)
       | _ => []
       end).

(** [with open(p, "r") as f: json.load(f)] *)
Definition read_json (p : Path) : M dict :=
  let* t := get_fs in
  match lookup_path p t with
  | Some (File (CJson d)) => ret d
  | Some (File _) => raise JSONDecodeError
  | Some (Dir _) => raise IsADirectoryError
  | None => raise FileNotFoundError
  end.

(** [with open(p, "w") as f: json.dump(d, f)] *)
Definition write_json (p : Path) (d : dict) : M unit :=
  let* t := get_fs in
  match lookup_path p t with
  | Some (Dir _) => raise IsADirectoryError
  | _ =>
      match put p (Some (File (CJson d))) t with
      | Some t' => update_fs t' (AWrite p (CJson d))
      | None => raise FileNotFoundError
      end
  end.

(** [os.rename(src, dst)] on one filesystem: a file replaces an existing
    file; a directory is never renamed over an existing entry here. *)
Definition rename (src dst : Path) : M unit :=
  let* t := get_fs in
  match lookup_path src t with
  | None => raise FileNotFoundError
  | Some n =>
      match lookup_path dst t, n with
      | Some (Dir _), _ => raise IsADirectoryError
      | Some (File _), Dir _ => raise NotADirectoryError
      | _, _ =>
          match put src None t with
          | None => raise FileNotFoundError
          | Some t1 =>
              match put dst (Some n) t1 with
              | Some t2 => update_fs t2 (AMove src dst)
              | None => raise FileNotFoundError
              end
          end
      end
  end.

(** [shutil.move(src, dst)]: into [dst] when it is a directory (refusing to
    overwrite an entry of the same name there), onto [dst] otherwise. *)
Definition shutil_move (src dst : Path) : M unit :=
  let* t := get_fs in
  match lookup_path dst t with
  | Some (Dir _) =>
      let real_dst := dst ++ [path_name src] in
      match lookup_path real_dst t with
      | Some _ => raise ShutilError
      | None => rename src real_dst
      end
  | _ => rename src dst
  end.

(** [shutil.copy(src, dst)]: copies a regular file, onto [dst] or into it when
    it is a directory. *)
Definition shutil_copy (src dst : Path) : M unit :=
  let* t := get_fs in
  match lookup_path src t with
  | None => raise FileNotFoundError
  | Some (Dir _) => raise IsADirectoryError
  | Some (File c) =>
      let real_dst :=
        match lookup_path dst t with
        | Some (Dir _) => dst ++ [path_name src]
        | _ => dst
        end in
      match lookup_path real_dst t with
      | Some (Dir _) => raise IsADirectoryError
      | _ =>
          match put real_dst (Some (File c)) t with
          | Some t' => update_fs t' (ACopy src real_dst)
          | None => raise FileNotFoundError
          end
      end
  end.

(** [time.time()] *)
Definition time_time : M Z := λ w, (Ret (now w), w).

(** ** The event sink (src/common/monitor.py)

    A [Monitor] posts to the bookkeeper; failed requests are logged and
    swallowed, so a send never raises.  The log records the payload without
    the constant sender name. *)

Definition send_event (m : Monitor) (event : Hermes_Event) (severity : Severity)
    (description : string) : M unit :=
  if String.eqb (bookkeeper_address m) "" then ret tt
  else emit (AEvent event severity description).

Definition send_series_event (m : Monitor) (event : Series_Event)
    (series_uid : pyval) (file_count : Z) (target info : pyval) : M unit :=
  if String.eqb (bookkeeper_address m) "" then ret tt
  else emit (ASeries event series_uid file_count target info).

(** The class spells this method [send_register_seriese]. *)
Definition send_register_seriese (m : Monitor) (tags : dict) : M unit :=
  if String.eqb (bookkeeper_address m) "" then ret tt
  else emit (ARegister tags).

(** ** The transfer worker (src/dispatch/send.py) *)

Definition DCMSEND_ERROR_CODES : gmap Z string :=
  <[1 := "EXITCODE_COMMANDLINE_SYNTAX_ERROR"]>
  (<[21 := "EXITCODE_NO_INPUT_FILES"]>
  (<[22 := "EXITCODE_INVALID_INPUT_FILE"]>
  (<[23 := "EXITCODE_NO_VALID_INPUT_FILES"]>
  (<[43 := "EXITCODE_CANNOT_WRITE_REPORT_FILE"]>
  (<[60 := "EXITCODE_CANNOT_INITIALIZE_NETWORK"]>
  (<[61 := "EXITCODE_CANNOT_NEGOTIATE_ASSOCIATION"]>
  (<[62 := "EXITCODE_CANNOT_SEND_REQUEST"]>
  (<[65 := "EXITCODE_CANNOT_ADD_PRESENTATION_CONTEXT"]> ∅)))))))).

(** [d[k]] *)
Definition dict_item (d : dict) (k : string) : outcome pyval :=
  match d !! k with
  | Some v => Ret v
  | None => Raise KeyError
  end.

(** [v + k] for an integer [k]. *)
Definition py_add_int (v : pyval) (k : Z) : outcome Z :=
  match v with
  | VInt z => Ret (z + k)
  | VBool b => Ret ((if b then 1 else 0) + k)
  | _ => Raise TypeError
  end.

Definition newline : string := String (Ascii.ascii_of_nat 10) "".

Definition _create_command (target_info : dict) (folder : Path) : outcome string :=
  match dict_item target_info "target_ip" with
  | Raise e => Raise e
  | Ret target_ip =>
  match dict_item target_info "target_port" with
  | Raise e => Raise e
  | Ret target_port =>
  match dict_item target_info "target_aet_target" with
  | Raise e => Raise e
  | Ret target_aet_target =>
      let target_aet_source := dict_get target_info "target_aet_source" (VStr "") in
      let dcmsend_status_file := folder ++ ["sent.txt"] in
      Ret ("dcmsend " +:+ py_str target_ip +:+ " " +:+ py_str target_port
           +:+ " +sd " +:+ path_str folder +:+ newline
           +:+ "            -aet " +:+ py_str target_aet_source
           +:+ " -aec " +:+ py_str target_aet_target +:+ " -nuc" +:+ newline
           +:+ "            +sp '*.dcm' -to 60 +crf " +:+ path_str dcmsend_status_file)
  end end end.

Section send.
  (** The external transfer tool: given the command line and the world it
      runs in, its exit code and the world it leaves behind. *)
Variable run_process : string → world → Z * world.

  (** [datetime.now().isoformat()] as a function of the clock. *)
Variable isoformat : Z → string.

  (** [subprocess.run(split(command), check=True)] *)
Definition run (command : string) : M unit :=
    λ w, let '(returncode, w') := run_process command w in
         if returncode =? 0 then (Ret tt, w')
         else (Raise (CalledProcessError returncode), w').

Definition _move_sent_directory (source_folder destination_folder : Path)
      (monitor : Monitor) : M unit :=
    try_except
      (let* taken := path_exists (destination_folder ++ [path_name source_folder]) in
       if taken then
         let* t := time_time in
         let target_folder :=
           destination_folder ++ [path_name source_folder +:+ "_" +:+ isoformat t] in
         shutil_move source_folder target_folder;;
         unlink (target_folder ++ [".sending"])
       else
         shutil_move source_folder (destination_folder ++ [path_name source_folder]);;
         unlink (destination_folder ++ [path_name source_folder] ++ [".sending"]))
      (λ _, send_event monitor PROCESSING SEV_ERROR
              ("Error moving " +:+ path_str source_folder +:+ " to "
               +:+ path_str destination_folder)).

Definition _increase_retry (source_folder : Path) (retry_max retry_delay : Z)
      : M bool :=
    let target_json_path := source_folder ++ ["target.json"] in
    let* target_json := read_json target_json_path in
    let* retries := lift (py_add_int (dict_get target_json "retries" (VInt 0)) 1) in
    let target_json := <["retries" := VInt retries]> target_json in
    let* t := time_time in
    let target_json := <["next_retry_at" := VInt (t + retry_delay)]> target_json in
    if retry_max <=? retries then ret false
    else (write_json target_json_path target_json;; ret true).

Definition execute (target_info : dict)
      (source_folder success_folder error_folder : Path)
      (retry_max retry_delay : Z) (monitor : Monitor) : M unit :=
    let* command := lift (_create_command target_info source_folder) in
    let series_uid := dict_get target_info "series_uid" (VStr "series_uid-missing") in
    let target_name := dict_get target_info "target_name" (VStr "target_name-missing") in
    try_except
      (run command;;
       let* files := glob_dcm source_folder in
       send_series_event monitor DISPATCH series_uid (Z.of_nat (length files))
         target_name (VStr ""))
      (λ e,
         match e with
         | CalledProcessError returncode =>
             let dcmsend_error_message :=
               match DCMSEND_ERROR_CODES !! returncode with
               | Some reason => VStr reason
               | None => VNone
               end in
             send_event monitor PROCESSING SEV_ERROR
               ("Error sending " +:+ py_str series_uid +:+ " to " +:+ py_str target_name);;
             send_series_event monitor ERROR series_uid 0 target_name
               dcmsend_error_message;;
             let* retry_increased := _increase_retry source_folder retry_max retry_delay in
             if retry_increased : bool then
               unlink (source_folder ++ [".sending"])
             else
               (send_series_event monitor SUSPEND series_uid 0 target_name
                  (VStr "Max retries reached");;
                _move_sent_directory source_folder error_folder monitor;;
                send_series_event monitor MOVE series_uid 0 (VPath error_folder) (VStr "");;
                send_event monitor PROCESSING SEV_ERROR
                  "Series suspended after reaching max retries")
         | _ => raise e
         end).
End send.

(** ** Configuration

    The configuration dictionary as the engine reads it.  Rules and targets
    are dictionaries of dictionaries, iterated in insertion order. *)
Record Config := {
  cfg_incoming_folder : string;
  cfg_outgoing_folder : string;
  cfg_success_folder : string;
  cfg_error_folder : string;
  cfg_discard_folder : string;
  cfg_processing_folder : string;
  cfg_retry_max : Z;
  cfg_retry_delay : Z;
  cfg_rules : list (string * dict);
  cfg_targets : list (string * dict)
}.

(** ** The dispatcher loop (src/dispatcher.py) *)

(** [helper.isTerminated()] *)
Definition isTerminated : M bool := λ w, (Ret (terminated w), w).

(** [_q.enqueue(execute, ...)]: the job is appended to the queue and the call
    returns; nothing of the job runs here. *)
Definition enqueue (j : job) : M unit :=
  λ w, (Ret tt,
        World (fs w) (log w ++ [AEnqueue j]) (now w) (queue w ++ [j])
              (uuid_ctr w) (terminated w)).

(** [t >= v] for a clock reading [t]. *)
Definition py_time_ge (t : Z) (v : pyval) : outcome bool :=
  match v with
  | VInt z => Ret (z <=? t)
  | VBool b => Ret ((if b then 1 else 0) <=? t)
  | _ => Raise TypeError
  end.

(** Truth value of what the readiness check returns: a non-empty descriptor,
    or something false. *)
Definition info_truthy (o : option dict) : bool :=
  match o with
  | Some d => negb (bool_decide (d = ∅))
  | None => false
  end.

(** [entry.is_dir] without a call denotes the bound method itself, an object
    that is true in a condition whatever the entry is. *)
Definition is_dir_method (entry : DirEntry) : bool := true.

Section dispatcher.
Variable isoformat : Z → string.

  (** [config.read_config()] followed by reading [config.hermes]. *)
Variable read_config : outcome Config.

  (** The status checks of dispatch/status.py, as functions of the directory
      tree and the folder path. *)
Variable is_ready_for_sending : node → string → option dict.
Variable has_been_send : node → string → bool.
Variable is_target_json_valid : node → string → option dict.

Variable _monitor : Monitor.

  (** The body of the scan loop for one directory entry. *)
Definition dispatch_entry (success_folder error_folder : Path)
      (retry_max retry_delay : Z) (entry : DirEntry) : M flow :=
    let* t := get_fs in
    let target_info := is_ready_for_sending t (entry_path entry) in
    (if entry_is_dir entry
        && negb (has_been_send t (entry_path entry))
        && info_truthy target_info
     then
       match target_info with
       | Some target_info =>
           let delay := dict_get target_info "next_retry_at" (VInt 0) in
           let* clock := time_time in
           let* due := lift (py_time_ge clock delay) in
           if due : bool then
             let series_uid :=
               dict_get target_info "series_uid" (VStr "series_uid-missing") in
             let target_name :=
               dict_get target_info "target_name" (VStr "target_name-missing") in
             (if bool_decide (series_uid = VStr "series_uid-missing")
                 || bool_decide (target_name = VStr "target_name-missing")
              then send_event _monitor PROCESSING WARNING
                     ("Missing information for folder " +:+ entry_path entry)
              else ret tt);;
             let lock_file := PathOf (entry_path entry) ++ [".sending"] in
             touch lock_file;;
             enqueue (Job target_info (PathOf (entry_path entry)) success_folder
                        error_folder retry_max retry_delay _monitor)
           else ret tt
       | None => ret tt
       end
     else if is_dir_method entry && has_been_send t (entry_path entry) then
       let* target_json :=
         match is_target_json_valid t (entry_path entry) with
         | Some d => ret d
         | None => raise AttributeError
         end in
       let series_uid := dict_get target_json "series_uid" (VStr "series_uid-missing") in
       _move_sent_directory isoformat (PathOf (entry_path entry)) success_folder _monitor;;
       send_series_event _monitor MOVE series_uid 0 (VPath success_folder) (VStr "")
     else ret tt);;
    let* stop := isTerminated in
    if stop : bool then ret Break else ret Continue.

(** [dispatch(args)].  The calls to [helper.g_log] feed the metrics sink, an
    external collaborator that leaves no trace in the world, and are left
    out. *)
Definition dispatch : M unit :=
    let* stop := isTerminated in
    if stop : bool then ret tt
    else
      match read_config with
      | Raise _ =>
          send_event _monitor CONFIG_UPDATE WARNING
            "Unable to read configuration (possibly locked)"
      | Ret config =>
          let success_folder := PathOf (cfg_success_folder config) in
          let error_folder := PathOf (cfg_error_folder config) in
          let retry_max := cfg_retry_max config in
          let retry_delay := cfg_retry_delay config in
          let* it := scandir (cfg_outgoing_folder config) in
          let* _ := for_loop it tt
                      (λ _ entry,
                         let* f := dispatch_entry success_folder error_folder
                                     retry_max retry_delay entry in
                         ret (f, tt)) in
          ret tt
      end.
End dispatcher.

(** ** Shutdown request (src/dispatcher.py) *)

(** Modelled from the spec: [helper.triggerTerminate()] of common/helper.py,
    which is not among the sources.  Section 5 (cancellation / shutdown): it
    raises the process-wide termination flag that [helper.isTerminated()]
    polls. *)
Definition triggerTerminate : M unit :=
  λ w, (Ret tt, World (fs w) (log w) (now w) (queue w) (uuid_ctr w) true).

(** [terminateProcess(signalNumber, frame)].  The event is sent with the
    default empty description.  Stopping the repeated timer [main_loop] and
    the metrics call belong to the service shell and leave no trace in the
    world. *)
Definition terminateProcess (_monitor : Monitor) : M unit :=
  send_event _monitor SHUTDOWN_REQUEST INFO "";;
  triggerTerminate.

(** ** Lock primitive (class FileLock, src/routing/process_series.py) *)

Record FileLock := {
  lockCreated : bool;
  lockfile : Path
}.

(** [FileLock(path_for_lockfile)] *)
Definition FileLock_init (path_for_lockfile : Path) : M FileLock :=
  touch path_for_lockfile;;
  ret {| lockCreated := true; lockfile := path_for_lockfile |}.

(** [lock.free()]; the result is the object after the call. *)
Definition free (self : FileLock) : M FileLock :=
  if lockCreated self then
    unlink (lockfile self);;
    ret {| lockCreated := false; lockfile := lockfile self |}
  else ret self.

(** [__del__], run when the last reference to the lock goes away: on rebinding
    the variable that holds it and on leaving the function normally.  What a
    destructor raises is ignored by the interpreter.  When a function is left
    by an exception the traceback keeps the object alive, so that case releases
    nothing here. *)
Definition FileLock_del (self : option FileLock) : M unit :=
  match self with
  | Some l => try_except (let* _ := free l in ret tt) (λ _, ret tt)
  | None => ret tt
  end.

(** [uuid.uuid1()]: a fresh name per call. *)
Definition uuid1 (uuid_of : nat → string) : M string :=
  λ w, (Ret (uuid_of (uuid_ctr w)),
        World (fs w) (log w) (now w) (queue w) (S (uuid_ctr w)) (terminated w)).

(** [repr] of a directory entry, which is what reaches an event payload when
    the entry object itself is passed. *)
Definition DirEntry_repr (e : DirEntry) : string :=
  "<DirEntry '" +:+ entry_name e +:+ "'>".

(** [monitor.send_register_series]: the class [Monitor] has no attribute of
    this name (its method is spelled [send_register_seriese]), so the
    attribute lookup raises. *)
Definition Monitor_send_register_series (m : Monitor) (tags : dict) : M unit :=
  raise AttributeError.

(** ** The series router of src/routing/process_series.py *)

Module ProcessSeries.
Section process_series.
Variable config : Config.
Variable uuid_of : nat → string.

  (** [rule_evaluation.parse_rule(rule, tags)] *)
Variable parse_rule : pyval → dict → outcome bool.

Local Abbreviation incoming := (cfg_incoming_folder config).

Definition get_routing_targets (monitor : Monitor) (tagList : dict)
      : M (list (pyval * string)) :=
    let* r :=
      for_loop (keys (cfg_rules config)) []
        (λ selected_targets current_rule,
           try_except
             (match assoc current_rule (cfg_rules config) with
              | None => raise KeyError
              | Some rule =>
                  if bool_decide (dict_get rule "disabled" (VStr "False") = VStr "True")
                  then ret (Continue, selected_targets)
                  else if bool_decide (is_Some (assoc (VStr current_rule) selected_targets))
                  then ret (Continue, selected_targets)
                  else
                    let* hit := lift (parse_rule (dict_get rule "rule" (VStr "False")) tagList) in
                    if hit : bool then
                      let target := dict_get rule "target" (VStr "") in
                      if py_truthy target
                      then ret (Continue, assoc_set target current_rule selected_targets)
                      else ret (Continue, selected_targets)
                    else ret (Continue, selected_targets)
              end)
             (λ _,
                send_event monitor PROCESSING SEV_ERROR ("Invalid rule: " +:+ current_rule);;
                ret (Continue, selected_targets))) in
    ret (snd r).

  (** Moves (or copies) the payload and the tags file of every stem; a failure
      on one stem is reported and the loop goes on. *)
Definition transfer_files (monitor : Monitor) (operation : Path → Path → M unit)
      (source_folder target_folder : string) (fileList : list string)
      (complaint : string) : M unit :=
    let* _ :=
      for_loop fileList tt
        (λ _ entry,
           try_except
             (operation (PathOf (source_folder +:+ entry +:+ ".dcm"))
                        (PathOf (target_folder +:+ entry +:+ ".dcm"));;
              operation (PathOf (source_folder +:+ entry +:+ ".tags"))
                        (PathOf (target_folder +:+ entry +:+ ".tags")))
             (λ _, send_event monitor PROCESSING SEV_ERROR (complaint +:+ entry));;
           ret (Continue, tt)) in
    ret tt.

Definition push_series_discard (monitor : Monitor) (fileList : list string)
      (series_UID : string) : M unit :=
    let* uuid := uuid1 uuid_of in
    let discard_path := cfg_discard_folder config +:+ "/" +:+ uuid in
    let discard_folder := discard_path +:+ "/" in
    let source_folder := incoming +:+ "/" in
    let* made :=
      try_except (mkdir (PathOf discard_path);; ret true)
        (λ _, send_event monitor PROCESSING SEV_ERROR
                ("Unable to create discard folder " +:+ discard_path);;
              ret false) in
    if negb made then ret tt
    else
      let* there := path_exists (PathOf discard_path) in
      if negb there then
        send_event monitor PROCESSING SEV_ERROR
          ("Creating discard folder not possible " +:+ discard_path)
      else
        let lock_file := PathOf (discard_path +:+ "/.lock") in
        let* lock :=
          try_except (let* l := FileLock_init lock_file in ret (Some l))
            (λ _, send_event monitor PROCESSING SEV_ERROR
                    ("Unable to create lock file in discard folder "
                     +:+ path_str lock_file);;
                  ret None) in
        match lock with
        | None => ret tt
        | Some lock =>
            send_series_event monitor DISCARD (VStr series_UID)
              (Z.of_nat (length fileList)) (VStr "") (VStr "");;
            transfer_files monitor shutil_move source_folder discard_folder fileList
              "Problem during discarding file ";;
            send_series_event monitor MOVE (VStr series_UID)
              (Z.of_nat (length fileList)) (VStr discard_path) (VStr "");;
            let* lock :=
              try_except (free lock)
                (λ _, send_event monitor PROCESSING SEV_ERROR
                        ("Unable to remove lock file " +:+ path_str lock_file);;
                      ret lock) in
            FileLock_del (Some lock)
        end.

Definition push_series_outgoing (monitor : Monitor) (fileList : list string)
      (series_UID : string) (transfer_targets : list (pyval * string)) : M unit :=
    let source_folder := incoming +:+ "/" in
    let total_targets := length transfer_targets in
    let* r :=
      for_loop (keys transfer_targets) (O, None)
        (λ '(current_target, lock) target,
           let current_target := S current_target in
           let target_entry :=
             match target with
             | VStr name => assoc name (cfg_targets config)
             | _ => None
             end in
           match target_entry with
           | None =>
               send_event monitor PROCESSING SEV_ERROR
                 ("Invalid target selected " +:+ py_str target);;
               ret (Continue, (current_target, lock))
           | Some target_cfg =>
               let move_operation := bool_decide (current_target = total_targets) in
               let* uuid := uuid1 uuid_of in
               let folder_name := cfg_outgoing_folder config +:+ "/" +:+ uuid in
               let target_folder := folder_name +:+ "/" in
               let* made :=
                 try_except (mkdir (PathOf folder_name);; ret true)
                   (λ _, send_event monitor PROCESSING SEV_ERROR
                           ("Unable to create outgoing folder " +:+ folder_name);;
                         ret false) in
               if negb made then ret (Return, (current_target, lock))
               else
                 let* there := path_exists (PathOf folder_name) in
                 if negb there then
                   send_event monitor PROCESSING SEV_ERROR
                     ("Creating folder not possible " +:+ folder_name);;
                   ret (Return, (current_target, lock))
                 else
                   let lock_file := PathOf (folder_name +:+ "/.lock") in
                   let* fresh :=
                     try_except (let* l := FileLock_init lock_file in ret (Some l))
                       (λ _, send_event monitor PROCESSING SEV_ERROR
                               ("Unable to create lock file " +:+ path_str lock_file);;
                             ret None) in
                   match fresh with
                   | None => ret (Return, (current_target, lock))
                   | Some new_lock =>
                       FileLock_del lock;;
                       let lock := new_lock in
                       let target_filename := target_folder +:+ "target.json" in
                       let* ip := lift (dict_item target_cfg "ip") in
                       let* port := lift (dict_item target_cfg "port") in
                       let* applied_rule :=
                         match assoc target transfer_targets with
                         | Some rule => ret (VStr rule)
                         | None => raise KeyError
                         end in
                       let target_json : dict :=
                         <["series_uid" := VStr series_UID]>
                         (<["applied_rule" := applied_rule]>
                         (<["target_name" := target]>
                         (<["target_aet_source" :=
                              dict_get target_cfg "aet_source" (VStr "HERMES")]>
                         (<["target_aet_target" :=
                              dict_get target_cfg "aet_target" (VStr "ANY-SCP")]>
                         (<["target_port" := port]>
                         (<["target_ip" := ip]> ∅)))))) in
                       let* written :=
                         try_except
                           (write_json (PathOf target_filename) target_json;; ret true)
                           (λ _, send_event monitor PROCESSING SEV_ERROR
                                   ("Unable to create target file " +:+ target_filename);;
                                 ret false) in
                       if negb written then ret (Continue, (current_target, Some lock))
                       else
                         send_series_event monitor ROUTE (VStr series_UID)
                           (Z.of_nat (length fileList)) target applied_rule;;
                         transfer_files monitor
                           (if move_operation then shutil_move else shutil_copy)
                           source_folder target_folder fileList
                           "Problem while pushing file to outgoing ";;
                         send_series_event monitor MOVE (VStr series_UID)
                           (Z.of_nat (length fileList)) (VStr folder_name) (VStr "");;
                         let* released :=
                           try_except (let* l := free lock in ret (Some l))
                             (λ _, send_event monitor PROCESSING SEV_ERROR
                                     ("Unable to remove lock file " +:+ path_str lock_file);;
                                   ret None) in
                         match released with
                         | Some l => ret (Continue, (current_target, Some l))
                         | None => ret (Return, (current_target, Some lock))
                         end
                   end
           end) in
    FileLock_del (snd (snd r)).

  (** The stems of the tags files of a series among scanned entries. *)
Definition series_stems (series_UID : string) (entries : list DirEntry)
      : list string :=
    let seriesPrefix := series_UID +:+ "#" in
    map (λ entry, drop_last 5 (entry_name entry))
      (filter (λ entry,
                 endswith (entry_name entry) ".tags"
                 && startswith (entry_name entry) seriesPrefix
                 && negb (entry_is_dir entry) = true)
         entries).

  (** [process_series] from the point where the series lock is held; the
      result is the lock object as the function leaves it. *)
Definition process_series_locked (monitor : Monitor) (series_UID : string)
      (lock : FileLock) : M FileLock :=
    let* entries := scandir incoming in
    let fileList := series_stems series_UID entries in
    match fileList with
    | [] => raise IndexError
    | first :: _ =>
        let tagsMasterFile := PathOf (incoming +:+ "/" +:+ first +:+ ".tags") in
        let* there := path_exists tagsMasterFile in
        if negb there then
          send_event monitor PROCESSING SEV_ERROR
            ("Missing file " +:+ path_name tagsMasterFile);;
          ret lock
        else
          let* tags :=
            try_except (let* d := read_json tagsMasterFile in ret (Some d))
              (λ _,
                 let entry := List.last entries (Entry "" "" false) in
                 send_series_event monitor ERROR (VStr (DirEntry_repr entry)) 0
                   (VStr "") (VStr "Invalid tag information");;
                 send_event monitor PROCESSING SEV_ERROR
                   ("Invalid tag for series " +:+ series_UID);;
                 ret None) in
          match tags with
          | None => ret lock
          | Some tagsList =>
              Monitor_send_register_series monitor tagsList;;
              send_series_event monitor REGISTERED (VStr series_UID)
                (Z.of_nat (length fileList)) (VStr "") (VStr "");;
              let* transfer_targets := get_routing_targets monitor tagsList in
              (if bool_decide (length transfer_targets = O)
               then push_series_discard monitor fileList series_UID
               else push_series_outgoing monitor fileList series_UID transfer_targets);;
              try_except (free lock)
                (λ _,
                   send_event monitor PROCESSING SEV_ERROR
                     ("Unable to remove lock file "
                      +:+ path_str (lockfile lock));;
                   ret lock)
          end
    end.

Definition process_series (monitor : Monitor) (series_UID : string) : M unit :=
    let lock_file := PathOf (incoming +:+ "/" +:+ series_UID +:+ ".lock") in
    let* locked := path_exists lock_file in
    if locked : bool then ret tt
    else
      let* lock :=
        try_except (let* l := FileLock_init lock_file in ret (Some l))
          (λ _,
             send_event monitor PROCESSING SEV_ERROR
               ("Unable to create lock file " +:+ path_str lock_file);;
             ret None) in
      match lock with
      | None => ret tt
      | Some lock =>
          let* lock := process_series_locked monitor series_UID lock in
          FileLock_del (Some lock)
      end.

  (** The body of the scan loop of [process_error_files] for one entry, with
      the loop-carried counter and lock variable. *)
Definition process_error_files_entry (state : Z * option FileLock)
      (entry : DirEntry) : M (flow * (Z * option FileLock)) :=
    let '(error_files_found, lock) := state in
    if endswith (entry_name entry) ".error" && negb (entry_is_dir entry) then
      let lock_file := PathOf (incoming +:+ "/" +:+ entry_name entry +:+ ".lock") in
      let* locked := path_exists lock_file in
      if locked : bool then ret (Continue, (error_files_found, lock))
      else
        let* fresh :=
          try_except (let* l := FileLock_init lock_file in ret (Some l))
            (λ _, ret None) in
        match fresh with
        | None => ret (Continue, (error_files_found, lock))
        | Some new_lock =>
            FileLock_del lock;;
            let error_files_found := error_files_found + 1 in
            shutil_move
              (PathOf (incoming +:+ "/" +:+ entry_name entry))
              (PathOf (cfg_error_folder config +:+ "/" +:+ entry_name entry));;
            let dicom_filename := drop_last 6 (entry_name entry) in
            let dicom_file := PathOf (incoming +:+ "/" +:+ dicom_filename) in
            let* paired := path_exists dicom_file in
            (if paired : bool then
               shutil_move
                 (PathOf (incoming +:+ "/" +:+ dicom_filename))
                 (PathOf (cfg_error_folder config +:+ "/" +:+ dicom_filename))
             else ret tt);;
            let* l := free new_lock in
            ret (Continue, (error_files_found, Some l))
        end
    else ret (Continue, (error_files_found, lock)).

Definition process_error_files (monitor : Monitor) : M unit :=
    let* entries := scandir incoming in
    let* r := for_loop entries (0, None) process_error_files_entry in
    let error_files_found := fst (snd r) in
    (if 0 <? error_files_found then
       send_event monitor PROCESSING SEV_ERROR
         ("Error parsing " +:+ pretty error_files_found +:+ " incoming files")
     else ret tt);;
    FileLock_del (snd (snd r)).
End process_series.
End ProcessSeries.

(** ** The series router of src/routing/route_series.py *)

(** The symbolic constants of common/constants.py, which the router only names.
    Dictionary keys and file-name parts are strings; action and trigger values
    are compared with configuration values. *)
Record Constants := {
  names_LOCK : string;
  names_TAGS : string;
  names_DCM : string;
  names_TASKFILE : string;
  rule_DISABLED : string;
  rule_RULE : string;
  rule_ACTION : string;
  rule_ACTION_TRIGGER : string;
  rule_TARGET : string;
  rule_NOTIFICATION_WEBHOOK : string;
  rule_NOTIFICATION_PAYLOAD : string;
  actions_DISCARD : pyval;
  actions_ROUTE : pyval;
  actions_PROCESS : pyval;
  actions_BOTH : pyval;
  actions_NOTIFICATION : pyval;
  options_SERIES : pyval;
  options_STUDY : pyval;
  defs_SEPARATOR : string;
  events_RECEPTION : string
}.

(** [a / b] *)
Definition py_truediv (a b : pyval) : outcome pyval :=
  match a, b with
  | VPath p, VStr s => Ret (VPath (p ++ PathOf s))
  | VPath p, VPath q => Ret (VPath (p ++ q))
  | VStr s, VPath q => Ret (VPath (PathOf s ++ q))
  | _, _ => Raise TypeError
  end.

(** [a + b] *)
Definition py_add (a b : pyval) : outcome pyval :=
  match a, b with
  | VStr s, VStr s' => Ret (VStr (s +:+ s'))
  | VInt z, VInt z' => Ret (VInt (z + z'))
  | _, _ => Raise TypeError
  end.

(** [Path(v)] *)
Definition Path_of (v : pyval) : outcome Path :=
  match v with
  | VStr s => Ret (PathOf s)
  | VPath p => Ret p
  | _ => Raise TypeError
  end.

(** [len(v)] *)
Definition py_len (v : pyval) : outcome Z :=
  match v with
  | VStr s => Ret (Z.of_nat (String.length s))
  | _ => Raise TypeError
  end.

Module RouteSeries.
Section route_series.
Variable config : Config.
Variable C : Constants.
Variable uuid_of : nat → string.
Variable parse_rule : pyval → dict → outcome bool.

  (** [generate_taskfile_route] and [generate_taskfile_process] of
      routing/generate_taskfile.py: pure builders of the task descriptor. *)
Variable generate_taskfile_route : string → pyval → string → dict → pyval → dict.
Variable generate_taskfile_process : string → pyval → string → dict → dict.

Local Abbreviation incoming := (cfg_incoming_folder config).

  (** Modelled from the spec: the module-level senders [monitor.send_event],
      [monitor.send_series_event] and [monitor.send_register_series] that this
      file calls are not among the sources (src/common/monitor.py has the
      class only).  Section 6: best-effort posts to the event sink; failures
      are logged and swallowed. *)
Definition monitor_send_event (event : Hermes_Event) (severity : Severity)
      (description : string) : M unit :=
    emit (AEvent event severity description).
Definition monitor_send_series_event (event : Series_Event) (series_uid : pyval)
      (file_count : Z) (target info : pyval) : M unit :=
    emit (ASeries event series_uid file_count target info).
Definition monitor_send_register_series (tags : dict) : M unit :=
    emit (ARegister tags).

  (** Modelled from the spec: [notification.send_webhook(url, payload, event)]
      of common/notification.py, which is not among the sources.  The webhook
      notifier is an external collaborator; firing it is recorded and does not
      raise. *)
Definition send_webhook (url payload : pyval) (event : string) : M unit :=
    emit (AWebhook url payload event).

  (** [config.mercure["rules"][current_rule]] *)
Definition rule_of (current_rule : string) : M dict :=
    match assoc current_rule (cfg_rules config) with
    | Some rule => ret rule
    | None => raise KeyError
    end.

Definition get_triggered_rules (tagList : dict) : M (list (string * string) * string) :=
    let* r :=
      for_loop (keys (cfg_rules config)) ([], "")
        (λ '(triggered_rules, discard_rule) current_rule,
           try_except
             (let* rule := rule_of current_rule in
              if bool_decide (dict_get rule (rule_DISABLED C) (VStr "False") = VStr "True")
              then ret (Continue, (triggered_rules, discard_rule))
              else
                let* hit :=
                  lift (parse_rule (dict_get rule (rule_RULE C) (VStr "False")) tagList) in
                if hit : bool then
                  let triggered_rules := assoc_set current_rule current_rule triggered_rules in
                  if bool_decide (dict_get rule (rule_ACTION C) (VStr "") = actions_DISCARD C)
                  then ret (Break, (triggered_rules, current_rule))
                  else ret (Continue, (triggered_rules, discard_rule))
                else ret (Continue, (triggered_rules, discard_rule)))
             (λ _,
                monitor_send_event PROCESSING SEV_ERROR ("Invalid rule: " +:+ current_rule);;
                ret (Continue, (triggered_rules, discard_rule)))) in
    ret (snd r).

  (** The two statements [lock_file=Path(folder / LOCK)] and
      [lock=helper.FileLock(lock_file)] under one bare [except]: when the first
      one raises, the handler's message formats [lock_file], which is not bound
      yet, and the handler itself raises; when the second one raises, the
      handler reports and the function returns ([None] here).  common/helper.py
      is not among the sources; its lock class is taken to be the [FileLock] of
      process_series.py. *)
Definition lock_in_folder (folder : pyval) (complaint : string)
      : M (option FileLock) :=
    λ w,
      match py_truediv folder (VStr (names_LOCK C)) with
      | Raise _ => (Raise UnboundLocalError, w)
      | Ret v =>
          match Path_of v with
          | Raise _ => (Raise UnboundLocalError, w)
          | Ret lock_file =>
              try_except (let* l := FileLock_init lock_file in ret (Some l))
                (λ _,
                   monitor_send_event PROCESSING SEV_ERROR
                     (complaint +:+ path_str lock_file);;
                   ret None) w
          end
      end.

Definition push_series_discard (fileList : list string) (series_UID : string)
      (discard_series : string) : M unit :=
    let* uuid := uuid1 uuid_of in
    let discard_path := cfg_discard_folder config +:+ "/" +:+ uuid in
    let discard_folder := discard_path +:+ "/" in
    let source_folder := incoming +:+ "/" in
    let* made :=
      try_except (mkdir (PathOf discard_path);; ret true)
        (λ _, monitor_send_event PROCESSING SEV_ERROR
                ("Unable to create discard folder " +:+ discard_path);;
              ret false) in
    if negb made then ret tt
    else
      let* there := path_exists (PathOf discard_path) in
      if negb there then
        monitor_send_event PROCESSING SEV_ERROR
          ("Creating discard folder not possible " +:+ discard_path)
      else
        let* lock :=
          lock_in_folder (VStr discard_path)
            "Unable to create lock file in discard folder " in
        match lock with
        | None => ret tt
        | Some lock =>
            let info_text :=
              if negb (String.eqb discard_series "")
              then "Discard by rule " +:+ discard_series else "" in
            monitor_send_series_event DISCARD (VStr series_UID)
              (Z.of_nat (length fileList)) (VStr "") (VStr info_text);;
            let* _ :=
              for_loop fileList tt
                (λ _ entry,
                   try_except
                     (shutil_move (PathOf (source_folder +:+ entry +:+ names_DCM C))
                                  (PathOf (discard_folder +:+ entry +:+ names_DCM C));;
                      shutil_move (PathOf (source_folder +:+ entry +:+ names_TAGS C))
                                  (PathOf (discard_folder +:+ entry +:+ names_TAGS C)))
                     (λ _, monitor_send_event PROCESSING SEV_ERROR
                             ("Problem during discarding file " +:+ entry));;
                   ret (Continue, tt)) in
            monitor_send_series_event MOVE (VStr series_UID)
              (Z.of_nat (length fileList)) (VStr discard_path) (VStr "");;
            let* lock :=
              try_except (free lock)
                (λ _, monitor_send_event PROCESSING SEV_ERROR
                        ("Unable to remove lock file " +:+ path_str (lockfile lock));;
                      ret lock) in
            FileLock_del (Some lock)
        end.

Definition push_files (file_list : list string) (target_path : string)
      (copy_files : bool) : M bool :=
    let operation := if negb copy_files then shutil_move else shutil_copy in
    let source_folder := incoming +:+ "/" in
    let target_folder := target_path +:+ "/" in
    let* r :=
      for_loop file_list true
        (λ _ entry,
           try_except
             (operation (PathOf (source_folder +:+ entry +:+ names_DCM C))
                        (PathOf (target_folder +:+ entry +:+ names_DCM C));;
              operation (PathOf (source_folder +:+ entry +:+ names_TAGS C))
                        (PathOf (target_folder +:+ entry +:+ names_TAGS C));;
              ret (Continue, true))
             (λ _,
                monitor_send_event PROCESSING SEV_ERROR
                  ("Problem while pushing file to outgoing " +:+ entry);;
                ret (Return, false))) in
    ret (snd r).

Definition remove_series (file_list : list string) : M unit :=
    let source_folder := incoming +:+ "/" in
    let* _ :=
      for_loop file_list tt
        (λ _ entry,
           try_except
             (unlink (PathOf (source_folder +:+ entry +:+ names_TAGS C));;
              unlink (PathOf (source_folder +:+ entry +:+ names_DCM C)))
             (λ _, monitor_send_event PROCESSING SEV_ERROR
                     ("Error while removing file " +:+ entry));;
           ret (Continue, tt)) in
    ret tt.

Definition trigger_serieslevel_notification_reception (current_rule : string)
      (tags_list : dict) : M unit :=
    let* rule := rule_of current_rule in
    send_webhook (dict_get rule (rule_NOTIFICATION_WEBHOOK C) (VStr ""))
                 (dict_get rule (rule_NOTIFICATION_PAYLOAD C) (VStr ""))
                 (events_RECEPTION C).

Definition rule_trigger (rule : dict) : pyval :=
    dict_get rule (rule_ACTION_TRIGGER C) (options_SERIES C).
Definition rule_action (rule : dict) : pyval :=
    dict_get rule (rule_ACTION C) (VStr "").

Definition push_series_studylevel (triggered_rules : list (string * string))
      (file_list : list string) (series_UID : string) (tags_list : dict) : M unit :=
    let* r :=
      for_loop (keys triggered_rules) None
        (λ lock current_rule,
           let* rule := rule_of current_rule in
           if bool_decide (rule_trigger rule = options_STUDY C) then
             let folder_name := series_UID +:+ defs_SEPARATOR C +:+ current_rule in
             let* there := path_exists (PathOf folder_name) in
             let* made :=
               if negb there then
                 try_except (mkdir (PathOf folder_name);; ret true)
                   (λ _, monitor_send_event PROCESSING SEV_ERROR
                           ("Unable to create folder " +:+ folder_name);;
                         ret false)
               else ret true in
             if negb made then ret (Continue, lock)
             else
               let* fresh :=
                 lock_in_folder (VStr folder_name) "Unable to create lock file " in
               match fresh with
               | None => ret (Return, lock)
               | Some new_lock =>
                   FileLock_del lock;;
                   push_files file_list folder_name
                     (bool_decide (1 < length triggered_rules)%nat);;
                   let* l := free new_lock in
                   ret (Continue, Some l)
               end
           else ret (Continue, lock)) in
    FileLock_del (snd r).

Definition push_serieslevel_outgoing (triggered_rules : list (string * string))
      (file_list : list string) (series_UID : string) (tags_list : dict)
      (selected_targets : list (pyval * string)) : M unit :=
    let source_folder := incoming +:+ "/" in
    let move_operation := bool_decide (length triggered_rules = 1%nat) in
    let* r :=
      for_loop (keys selected_targets) None
        (λ lock target,
           let known :=
             match target with
             | VStr name => bool_decide (is_Some (assoc name (cfg_targets config)))
             | _ => false
             end in
           if negb known then
             monitor_send_event PROCESSING SEV_ERROR
               ("Invalid target selected " +:+ py_str target);;
             ret (Continue, lock)
           else
             let* uuid := uuid1 uuid_of in
             let folder_name := cfg_outgoing_folder config +:+ "/" +:+ uuid in
             let target_folder := folder_name +:+ "/" in
             let* made :=
               try_except (mkdir (PathOf folder_name);; ret true)
                 (λ _, monitor_send_event PROCESSING SEV_ERROR
                         ("Unable to create outgoing folder " +:+ folder_name);;
                       ret false) in
             if negb made then ret (Return, lock)
             else
               let* there := path_exists (PathOf folder_name) in
               if negb there then
                 monitor_send_event PROCESSING SEV_ERROR
                   ("Creating folder not possible " +:+ folder_name);;
                 ret (Return, lock)
               else
                 let lock_file := PathOf (folder_name +:+ "/" +:+ names_LOCK C) in
                 let* fresh :=
                   try_except (let* l := FileLock_init lock_file in ret (Some l))
                     (λ _, monitor_send_event PROCESSING SEV_ERROR
                             ("Unable to create lock file " +:+ path_str lock_file);;
                           ret None) in
                 match fresh with
                 | None => ret (Return, lock)
                 | Some new_lock =>
                     FileLock_del lock;;
                     let lock := new_lock in
                     let task_filename := target_folder +:+ names_TASKFILE C in
                     let* applied_rule :=
                       match assoc target selected_targets with
                       | Some rule => ret rule
                       | None => raise KeyError
                       end in
                     let task_json :=
                       generate_taskfile_route series_UID (options_SERIES C)
                         applied_rule tags_list target in
                     let* written :=
                       try_except
                         (write_json (PathOf task_filename) task_json;; ret true)
                         (λ _, monitor_send_event PROCESSING SEV_ERROR
                                 ("Unable to create task file " +:+ task_filename);;
                               ret false) in
                     if negb written then ret (Continue, Some lock)
                     else
                       monitor_send_series_event ROUTE (VStr series_UID)
                         (Z.of_nat (length file_list)) target (VStr applied_rule);;
                       let operation := if move_operation then shutil_move else shutil_copy in
                       let* _ :=
                         for_loop file_list tt
                           (λ _ entry,
                              try_except
                                (operation
                                   (PathOf (source_folder +:+ entry +:+ names_DCM C))
                                   (PathOf (target_folder +:+ entry +:+ names_DCM C));;
                                 operation
                                   (PathOf (source_folder +:+ entry +:+ names_TAGS C))
                                   (PathOf (target_folder +:+ entry +:+ names_TAGS C)))
                                (λ _, monitor_send_event PROCESSING SEV_ERROR
                                        ("Problem while pushing file to outgoing "
                                         +:+ entry));;
                              ret (Continue, tt)) in
                       monitor_send_series_event MOVE (VStr series_UID)
                         (Z.of_nat (length file_list)) (VStr folder_name) (VStr "");;
                       let* released :=
                         try_except (let* l := free lock in ret (Some l))
                           (λ _, monitor_send_event PROCESSING SEV_ERROR
                                   ("Unable to remove lock file " +:+ path_str lock_file);;
                                 ret None) in
                       match released with
                       | Some l => ret (Continue, Some l)
                       | None => ret (Return, Some lock)
                       end
                 end) in
    FileLock_del (snd r).

  (** The mapping [target -> rule] that the routing pass collects, with the
      reception webhook fired for every series-level ROUTE rule on the way. *)
Definition collect_selected_targets (triggered_rules : list (string * string))
      (tags_list : dict) : M (list (pyval * string)) :=
    let* r :=
      for_loop (keys triggered_rules) []
        (λ selected_targets current_rule,
           let* rule := rule_of current_rule in
           if bool_decide (rule_trigger rule = options_SERIES C) then
             if bool_decide (rule_action rule = actions_ROUTE C) then
               let target := dict_get rule (rule_TARGET C) (VStr "") in
               let selected_targets :=
                 if py_truthy target
                 then assoc_set target current_rule selected_targets
                 else selected_targets in
               trigger_serieslevel_notification_reception current_rule tags_list;;
               ret (Continue, selected_targets)
             else ret (Continue, selected_targets)
           else ret (Continue, selected_targets)) in
    ret (snd r).

Definition push_serieslevel_routing (triggered_rules : list (string * string))
      (file_list : list string) (series_UID : string) (tags_list : dict) : M unit :=
    let* selected_targets := collect_selected_targets triggered_rules tags_list in
    push_serieslevel_outgoing triggered_rules file_list series_UID tags_list
      selected_targets.

Definition push_serieslevel_processing (triggered_rules : list (string * string))
      (file_list : list string) (series_UID : string) (tags_list : dict) : M unit :=
    let* r :=
      for_loop (keys triggered_rules) None
        (λ lock current_rule,
           let* rule := rule_of current_rule in
           if bool_decide (rule_trigger rule = options_SERIES C)
              && (bool_decide (rule_action rule = actions_PROCESS C)
                  || bool_decide (rule_action rule = actions_BOTH C))
           then
             let copy_files := negb (bool_decide (length triggered_rules = 1%nat)) in
             let* uuid := uuid1 uuid_of in
             let folder_name := cfg_processing_folder config +:+ "/" +:+ uuid in
             let target_folder := folder_name +:+ "/" in
             let* made :=
               try_except (mkdir (PathOf folder_name);; ret true)
                 (λ _, monitor_send_event PROCESSING SEV_ERROR
                         ("Unable to create processing folder " +:+ folder_name);;
                       ret false) in
             if negb made then ret (Return, lock)
             else
               let* there := path_exists (PathOf folder_name) in
               if negb there then
                 monitor_send_event PROCESSING SEV_ERROR
                   ("Creating folder not possible " +:+ folder_name);;
                 ret (Return, lock)
               else
                 let* fresh :=
                   lock_in_folder (VStr folder_name) "Unable to create lock file " in
                 match fresh with
                 | None => ret (Return, lock)
                 | Some new_lock =>
                     FileLock_del lock;;
                     let lock := new_lock in
                     let task_filename := target_folder +:+ names_TASKFILE C in
                     let task_json :=
                       generate_taskfile_process series_UID (options_SERIES C)
                         current_rule tags_list in
                     let* written :=
                       try_except
                         (write_json (PathOf task_filename) task_json;; ret true)
                         (λ _, monitor_send_event PROCESSING SEV_ERROR
                                 ("Unable to create task file " +:+ task_filename);;
                               ret false) in
                     if negb written then ret (Continue, Some lock)
                     else
                       let* pushed := push_files file_list target_folder copy_files in
                       if negb pushed then
                         monitor_send_event PROCESSING SEV_ERROR
                           ("Unable to push files into processing folder "
                            +:+ target_folder);;
                         ret (Return, Some lock)
                       else
                         let* released :=
                           try_except (let* l := free lock in ret (Some l))
                             (λ _, monitor_send_event PROCESSING SEV_ERROR
                                     ("Unable to remove lock file "
                                      +:+ path_str (lockfile lock));;
                                   ret None) in
                         match released with
                         | None => ret (Return, Some lock)
                         | Some l =>
                             trigger_serieslevel_notification_reception current_rule
                               tags_list;;
                             ret (Continue, Some l)
                         end
                 end
           else ret (Continue, lock)) in
    FileLock_del (snd r).

Definition push_serieslevel_notification (triggered_rules : list (string * string))
      (file_list : list string) (series_UID : string) (tags_list : dict) : M unit :=
    let* _ :=
      for_loop (keys triggered_rules) tt
        (λ _ current_rule,
           let* rule := rule_of current_rule in
           if bool_decide (rule_trigger rule = options_SERIES C) then
             if bool_decide (rule_action rule = actions_NOTIFICATION C) then
               trigger_serieslevel_notification_reception current_rule tags_list;;
               (* [len(triggered_rules==1)]: the comparison of the dictionary
                  with 1 is False, and [len] is then applied to that boolean *)
               let* n := lift (py_len (VBool false)) in
               (if negb (n =? 0) then remove_series file_list else ret tt);;
               ret (Continue, tt)
             else ret (Continue, tt)
           else ret (Continue, tt)) in
    ret tt.

Definition push_series_serieslevel (triggered_rules : list (string * string))
      (file_list : list string) (series_UID : string) (tags_list : dict) : M unit :=
    push_serieslevel_routing triggered_rules file_list series_UID tags_list;;
    push_serieslevel_processing triggered_rules file_list series_UID tags_list;;
    push_serieslevel_notification triggered_rules file_list series_UID tags_list.

Definition series_stems (series_UID : string) (entries : list DirEntry)
      : list string :=
    let seriesPrefix := series_UID +:+ "#" in
    map (λ entry, drop_last 5 (entry_name entry))
      (filter (λ entry,
                 endswith (entry_name entry) (names_TAGS C)
                 && startswith (entry_name entry) seriesPrefix
                 && negb (entry_is_dir entry) = true)
         entries).

  (** [route_series] from the point where the series lock is held; the result
      is the lock object as the function leaves it. *)
Definition route_series_locked (series_UID : string) (lock : FileLock)
      : M FileLock :=
    let* entries := scandir incoming in
    let fileList := series_stems series_UID entries in
    match fileList with
    | [] => raise IndexError
    | first :: _ =>
        let tagsMasterFile :=
          PathOf (incoming +:+ "/" +:+ first +:+ names_TAGS C) in
        let* there := path_exists tagsMasterFile in
        if negb there then
          monitor_send_event PROCESSING SEV_ERROR
            ("Missing file " +:+ path_name tagsMasterFile);;
          ret lock
        else
          let* tags :=
            try_except (let* d := read_json tagsMasterFile in ret (Some d))
              (λ _,
                 let entry := List.last entries (Entry "" "" false) in
                 monitor_send_series_event ERROR (VStr (DirEntry_repr entry)) 0
                   (VStr "") (VStr "Invalid tag information");;
                 monitor_send_event PROCESSING SEV_ERROR
                   ("Invalid tag for series " +:+ series_UID);;
                 ret None) in
          match tags with
          | None => ret lock
          | Some tagsList =>
              monitor_send_register_series tagsList;;
              monitor_send_series_event REGISTERED (VStr series_UID)
                (Z.of_nat (length fileList)) (VStr "") (VStr "");;
              let* tr := get_triggered_rules tagsList in
              let triggered_rules := fst tr in
              let discard_series := snd tr in
              (if bool_decide (length triggered_rules = O)
                  || negb (String.eqb discard_series "")
               then push_series_discard fileList series_UID discard_series
               else
                 push_series_studylevel triggered_rules fileList series_UID tagsList;;
                 push_series_serieslevel triggered_rules fileList series_UID tagsList;;
                 if bool_decide (1 < length triggered_rules)%nat
                 then remove_series fileList else ret tt);;
              try_except (free lock)
                (λ _,
                   monitor_send_event PROCESSING SEV_ERROR
                     ("Unable to remove lock file " +:+ path_str (lockfile lock));;
                   ret lock)
          end
    end.

Definition route_series (series_UID : string) : M unit :=
    let lock_file :=
      PathOf (incoming +:+ "/" +:+ series_UID +:+ names_LOCK C) in
    let* locked := path_exists lock_file in
    if locked : bool then ret tt
    else
      let* lock :=
        try_except (let* l := FileLock_init lock_file in ret (Some l))
          (λ _,
             monitor_send_event PROCESSING SEV_ERROR
               ("Unable to create lock file " +:+ path_str lock_file);;
             ret None) in
      match lock with
      | None => ret tt
      | Some lock =>
          let* lock := route_series_locked series_UID lock in
          FileLock_del (Some lock)
      end.

  (** The body of the scan loop of [route_error_files] for one entry, with the
      loop-carried counter and lock variable. *)
Definition route_error_files_entry (state : Z * option FileLock)
      (entry : DirEntry) : M (flow * (Z * option FileLock)) :=
    let '(error_files_found, lock) := state in
    if endswith (entry_name entry) ".error" && negb (entry_is_dir entry) then
      let* joined := lift (py_truediv (VStr incoming) (VStr (entry_name entry))) in
      let* spelled := lift (py_add joined (VStr (names_LOCK C))) in
      let* lock_file := lift (Path_of spelled) in
      let* locked := path_exists lock_file in
      if locked : bool then ret (Continue, (error_files_found, lock))
      else
        let* fresh :=
          try_except (let* l := FileLock_init lock_file in ret (Some l))
            (λ _, ret None) in
        match fresh with
        | None => ret (Continue, (error_files_found, lock))
        | Some new_lock =>
            FileLock_del lock;;
            let error_files_found := error_files_found + 1 in
            shutil_move
              (PathOf (incoming +:+ "/" +:+ entry_name entry))
              (PathOf (cfg_error_folder config +:+ "/" +:+ entry_name entry));;
            let dicom_filename := drop_last 6 (entry_name entry) in
            let dicom_file := PathOf (incoming +:+ "/" +:+ dicom_filename) in
            let* paired := path_exists dicom_file in
            (if paired : bool then
               shutil_move
                 (PathOf (incoming +:+ "/" +:+ dicom_filename))
                 (PathOf (cfg_error_folder config +:+ "/" +:+ dicom_filename))
             else ret tt);;
            let* l := free new_lock in
            ret (Continue, (error_files_found, Some l))
        end
    else ret (Continue, (error_files_found, lock)).

Definition route_error_files : M unit :=
    let* entries := scandir incoming in
    let* r := for_loop entries (0, None) route_error_files_entry in
    let error_files_found := fst (snd r) in
    (if 0 <? error_files_found then
       monitor_send_event PROCESSING SEV_ERROR
         ("Error parsing " +:+ pretty error_files_found +:+ " incoming files")
     else ret tt);;
    FileLock_del (snd (snd r)).
End route_series.
End RouteSeries.

(** * Vocabulary of the properties *)

(** ** What a computation adds to the log *)

(** The jobs submitted in a stretch of the log. *)
Definition submitted (l : list action) : list job :=
  omap (λ a, match a with AEnqueue j => Some j | _ => None end) l.

(** [emits_at c Q w]: run from [w], [c] leaves the clock alone, extends the
    log by some [l] with [Q (now w) l], and extends the queue by exactly the
    jobs submitted in [l].  [emits c Q] says so for every world. *)
Definition emits_at {A} (c : M A) (Q : Z → list action → Prop) (w : world) : Prop :=
  now (snd (c w)) = now w ∧
  ∃ l, log (snd (c w)) = log w ++ l ∧
       queue (snd (c w)) = queue w ++ submitted l ∧
       Q (now w) l.

Definition emits {A} (c : M A) (Q : Z → list action → Prop) : Prop :=
  ∀ w, emits_at c Q w.

(** Actions that are neither a queue submission nor a ROUTE event. *)
Definition benign (a : action) : bool :=
  match a with
  | AEnqueue _ => false
  | ASeries ROUTE _ _ _ _ => false
  | _ => true
  end.

(** Log properties that hold of the empty log, are closed under
    concatenation, and hold of every single benign action. *)
Class Tolerant (Q : Z → list action → Prop) := {
  tolerant_nil t : Q t [];
  tolerant_app t l1 l2 : Q t l1 → Q t l2 → Q t (l1 ++ l2);
  tolerant_benign t a : benign a = true → Q t [a]
}.

(** ** The transfer worker *)

(** What [execute] does once the tool has exited with a non-zero code: the
    tail of the [except CalledProcessError] handler after the two reports. *)
Definition after_failure_reports (isoformat : Z → string) (target_info : dict)
    (source_folder error_folder : Path) (retry_max retry_delay : Z)
    (monitor : Monitor) : M unit :=
  let series_uid := dict_get target_info "series_uid" (VStr "series_uid-missing") in
  let target_name := dict_get target_info "target_name" (VStr "target_name-missing") in
  let* retry_increased := _increase_retry source_folder retry_max retry_delay in
  if retry_increased : bool then unlink (source_folder ++ [".sending"])
  else
    (send_series_event monitor SUSPEND series_uid 0 target_name
       (VStr "Max retries reached");;
     _move_sent_directory isoformat source_folder error_folder monitor;;
     send_series_event monitor MOVE series_uid 0 (VPath error_folder) (VStr "");;
     send_event monitor PROCESSING SEV_ERROR
       "Series suspended after reaching max retries").

Definition exit_reason (returncode : Z) : pyval :=
  match DCMSEND_ERROR_CODES !! returncode with
  | Some reason => VStr reason
  | None => VNone
  end.

(** The number of payload files directly inside a folder. *)
Definition dcm_count (t : node) (p : Path) : Z :=
  Z.of_nat (length (match lookup_path p t with
                    | Some (Dir es) => filter (λ n, endswith n ".dcm" = true) (keys es)
                    | _ => []
                    end)).

(** The fixed table of failure reasons, written out code by code; an exit
    code outside the table has no reason. *)
Definition reason_per_table (returncode : Z) : pyval :=
  if returncode =? 1 then VStr "EXITCODE_COMMANDLINE_SYNTAX_ERROR"
  else if returncode =? 21 then VStr "EXITCODE_NO_INPUT_FILES"
  else if returncode =? 22 then VStr "EXITCODE_INVALID_INPUT_FILE"
  else if returncode =? 23 then VStr "EXITCODE_NO_VALID_INPUT_FILES"
  else if returncode =? 43 then VStr "EXITCODE_CANNOT_WRITE_REPORT_FILE"
  else if returncode =? 60 then VStr "EXITCODE_CANNOT_INITIALIZE_NETWORK"
  else if returncode =? 61 then VStr "EXITCODE_CANNOT_NEGOTIATE_ASSOCIATION"
  else if returncode =? 62 then VStr "EXITCODE_CANNOT_SEND_REQUEST"
  else if returncode =? 65 then VStr "EXITCODE_CANNOT_ADD_PRESENTATION_CONTEXT"
  else VNone.

(** The reasons carried by the ERROR series events of a log. *)
Definition error_reasons (l : list action) : list pyval :=
  omap (λ a, match a with ASeries ERROR _ _ _ info => Some info | _ => None end) l.

(** The task descriptor persisted in a folder, when it is readable. *)
Definition persisted_descriptor (t : node) (folder : Path) : option dict :=
  match lookup_path (folder ++ ["target.json"]) t with
  | Some (File (CJson d)) => Some d
  | _ => None
  end.

(** ** The dispatcher loop *)

(** Every submission in a stretch of the log comes right after the creation
    of the sentinel of the submitted folder, and the descriptor's
    [next_retry_at] (0 when absent) is not later than the clock reading [t]. *)
Definition sentinel_then_job (t : Z) (l : list action) : Prop :=
  ∀ pre j post, l = pre ++ AEnqueue j :: post →
    (∃ pre', pre = pre' ++ [ATouch (job_folder j ++ [".sending"])])
    ∧ py_time_ge t (dict_get (job_target_info j) "next_retry_at" (VInt 0)) = Ret true.

(** What the scan does with an entry once it has decided to move it to the
    success folder. *)
Definition move_to_success (isoformat : Z → string) (_monitor : Monitor)
    (success_folder : Path) (path : string) (d : dict) : M flow :=
  _move_sent_directory isoformat (PathOf path) success_folder _monitor;;
  send_series_event _monitor MOVE
    (dict_get d "series_uid" (VStr "series_uid-missing")) 0
    (VPath success_folder) (VStr "");;
  let* stop := isTerminated in
  if stop : bool then ret Break else ret Continue.

(** ** Staging of outgoing folders *)

(** What a run added to the log. *)
Definition new_log (w w' : world) : list action := drop (length (log w)) (log w').

(** The targets of the ROUTE events of a log: one per staged outgoing folder. *)
Definition staged_targets (l : list action) : list pyval :=
  omap (λ a, match a with ASeries ROUTE _ _ target _ => Some target | _ => None end) l.

Definition unrouted (t : Z) (l : list action) : Prop := staged_targets l = [].

(** Modelled from the spec: dispatch/status.py is not among the sources.
    Section 4.5 and 4.6 of the specification: a folder has succeeded when its
    [.SENT] sentinel is present; it is eligible when it is a directory without
    [.LOCK], [.SENDING], [.SENT] or [.ERROR] that holds a readable task
    descriptor, which the readiness check hands back.  Sentinel names are
    spelled in lower case, as the sources spell [.sending] and [.lock]. *)
Module Status.
Definition has (t : node) (folder : string) (name : string) : bool :=
    bool_decide (is_Some (lookup_path (PathOf folder ++ [name]) t)).

Definition is_target_json_valid (t : node) (folder : string) : option dict :=
    match lookup_path (PathOf folder ++ ["target.json"]) t with
    | Some (File (CJson d)) => Some d
    | _ => None
    end.

Definition has_been_send (t : node) (folder : string) : bool :=
    has t folder ".sent".

Definition is_ready_for_sending (t : node) (folder : string) : option dict :=
    match lookup_path (PathOf folder) t with
    | Some (Dir _) =>
        if has t folder ".lock" || has t folder ".sending"
           || has t folder ".sent" || has t folder ".error"
        then None
        else is_target_json_valid t folder
    | _ => None
    end.
End Status.

(** ** Filing of folders and failed transfers *)

(** The name under which [_move_sent_directory] files a folder in the
    destination: its own name when that is free there, and its name with the
    timestamp of the move appended otherwise. *)
Definition landing_name (isoformat : Z → string) (source_folder destination_folder : Path)
    (w : world) : string :=
  match lookup_path (destination_folder ++ [path_name source_folder]) (fs w) with
  | Some _ => path_name source_folder +:+ "_" +:+ isoformat (now w)
  | None => path_name source_folder
  end.

(** The two reports that [execute] sends first when the transfer tool has
    failed with [returncode]. *)
Definition failure_reports (target_info : dict) (returncode : Z) : list action :=
  [AEvent PROCESSING SEV_ERROR
     ("Error sending "
      +:+ py_str (dict_get target_info "series_uid" (VStr "series_uid-missing"))
      +:+ " to "
      +:+ py_str (dict_get target_info "target_name" (VStr "target_name-missing")));
   ASeries ERROR
     (dict_get target_info "series_uid" (VStr "series_uid-missing")) 0
     (dict_get target_info "target_name" (VStr "target_name-missing"))
     (exit_reason returncode)].

(** What [_move_sent_directory] may add to the log: the move, the removal of
    the sentinel, and the report of a failure. *)
Definition move_step (source_folder destination_folder : Path) (a : action) : Prop :=
  match a with
  | AMove src _ => src = source_folder
  | AUnlink p => path_name p = ".sending"
  | AEvent PROCESSING SEV_ERROR description =>
      description = "Error moving " +:+ path_str source_folder +:+ " to "
                    +:+ path_str destination_folder
  | _ => False
  end.

(** ** Entries of the outgoing folder *)

(** The warning that the scan sends before it claims a folder whose descriptor
    lacks the series or the target name. *)
Definition missing_information_warning (target_info : dict) (path : string)
    : list action :=
  if bool_decide (dict_get target_info "series_uid" (VStr "series_uid-missing")
                  = VStr "series_uid-missing")
     || bool_decide (dict_get target_info "target_name" (VStr "target_name-missing")
                     = VStr "target_name-missing")
  then [AEvent PROCESSING WARNING ("Missing information for folder " +:+ path)]
  else [].

(** What the scan loop does after an entry: go on, or stop when termination
    has been requested. *)
Definition next_step (w : world) : flow := if terminated w then Break else Continue.


(** ** Rules, tags files and error files of the routers *)

(** The reports of a problem: a PROCESSING/ERROR event or an ERROR series
    event. *)
Definition is_complaint (a : action) : Prop :=
  match a with
  | AEvent PROCESSING SEV_ERROR _ => True
  | ASeries ERROR _ _ _ _ => True
  | _ => False
  end.

(** What [get_routing_targets] requires of a rule before it selects the rule's
    target: the rule is configured and not disabled, its expression holds of
    the tags, and its target is a non-empty value. *)
Definition selects (cfg : Config) (parse_rule : pyval → dict → outcome bool)
    (tagList : dict) (target : pyval) (rule_name : string) : Prop :=
  ∃ rule,
    assoc rule_name (cfg_rules cfg) = Some rule
    ∧ dict_get rule "disabled" (VStr "False") ≠ VStr "True"
    ∧ parse_rule (dict_get rule "rule" (VStr "False")) tagList = Ret true
    ∧ dict_get rule "target" (VStr "") = target
    ∧ py_truthy target = true.



(** An entry of the incoming folder that the error scan takes up. *)
Definition is_error_file (name : string) (n : node) : bool :=
  endswith name ".error" && negb (is_dir_node n).

(** An entry that the collection loop of the routers accepts as a tags file of
    the series, with the stem that the loop derives from it. *)
Definition tags_file_of (series_UID tags_suffix stem : string) (entry : DirEntry)
    : Prop :=
  entry_name entry = stem +:+ tags_suffix
  ∧ startswith (entry_name entry) (series_UID +:+ "#") = true
  ∧ entry_is_dir entry = false.

(** A string that is the name of one directory entry: not empty and without a
    separator, so that as a path it is that one component. *)
Definition simple_name (s : string) : Prop := PathOf s = [s].

(** ** Bounds on what a computation does *)

(** [logs_only P c]: whatever world [c] is run from, everything it adds to the
    log satisfies [P].  Every change of the directory tree and of the queue is
    logged, so this bounds what [c] can do. *)
Definition logs_only {A} (P : action → Prop) (c : M A) : Prop :=
  ∀ w, ∃ l, log (snd (c w)) = log w ++ l ∧ Forall P l.




(** A task descriptor that the transfer worker can turn into a command and
    that names its series and its target. *)
Definition dispatchable (c : content) : Prop :=
  match c with
  | CJson d =>
      (∀ folder, ∃ command, _create_command d folder = Ret command)
      ∧ is_Some (d !! "series_uid") ∧ is_Some (d !! "target_name")
  | _ => False
  end.

(** What the staging of outgoing folders may write: dispatchable task
    descriptors only; it submits no job, registers no series and calls no
    webhook. *)
Definition staging_step (a : action) : Prop :=
  match a with
  | AWrite _ c => dispatchable c
  | AEnqueue _ | ARegister _ | AWebhook _ _ _ => False
  | _ => True
  end.

(** * Sample worlds *)

Module Sample.
Definition task : dict :=
    <["target_ip" := VStr "127.0.0.1"]>
    (<["target_port" := VInt 11112]>
    (<["target_aet_target" := VStr "RCV"]>
    (<["target_aet_source" := VStr "SND"]>
    (<["target_name" := VStr "t1"]>
    (<["series_uid" := VStr "ABC"]>
    (<["retries" := VInt 1]> ∅)))))).

  (** An outgoing folder that the dispatcher has claimed. *)
Definition claimed_folder : node :=
    Dir [("ABC#1.dcm", File (CData "pixels"));
         ("ABC#1.tags", File (CJson ∅));
         ("target.json", File (CJson task));
         (".sending", File CEmpty)].

Definition tree : node :=
    Dir [("incoming", Dir []);
         ("outgoing", Dir [("f1", claimed_folder)]);
         ("success", Dir []);
         ("error", Dir [])].

Definition w0 : world := World tree [] 1000 [] 0 false.

Definition monitor : Monitor := configure "dispatcher" "main" "localhost:8080".

  (** A transfer tool that exits with the given code and touches nothing. *)
Definition tool (returncode : Z) : string → world → Z * world :=
    λ _ w, (returncode, w).

Definition isoformat (t : Z) : string := pretty t.

Definition folder : Path := ["outgoing"; "f1"].

(** The command line composed for the sample task. *)
Definition command : string :=
  Eval vm_compute in
    match _create_command task folder with
    | Ret c => c
    | Raise _ => EmptyString
    end.
End Sample.

Module SampleLock.
  (** An incoming folder in which the series ABC is already locked. *)
Definition tree : node :=
    Dir [("incoming", Dir [("ABC#1.dcm", File (CData "pixels"));
                           ("ABC#1.tags", File (CJson ∅));
                           ("ABC.lock", File CEmpty)])].
Definition w0 : world := World tree [] 1000 [] 0 false.
Definition sentinel : Path := ["incoming"; "ABC.lock"].
End SampleLock.

Module SampleRouter.
Definition constants : Constants := {|
    names_LOCK := ".lock";
    names_TAGS := ".tags";
    names_DCM := ".dcm";
    names_TASKFILE := "task.json";
    rule_DISABLED := "disabled";
    rule_RULE := "rule";
    rule_ACTION := "action";
    rule_ACTION_TRIGGER := "action_trigger";
    rule_TARGET := "target";
    rule_NOTIFICATION_WEBHOOK := "notification_webhook";
    rule_NOTIFICATION_PAYLOAD := "notification_payload";
    actions_DISCARD := VStr "discard";
    actions_ROUTE := VStr "route";
    actions_PROCESS := VStr "process";
    actions_BOTH := VStr "both";
    actions_NOTIFICATION := VStr "notification";
    options_SERIES := VStr "series";
    options_STUDY := VStr "study";
    defs_SEPARATOR := "#";
    events_RECEPTION := "RECEPTION"
  |}.

Definition notify_rule : dict :=
    <["rule" := VStr "True"]>
    (<["action" := VStr "notification"]>
    (<["notification_webhook" := VStr "http://hook"]> ∅)).

Definition route_rule (target : string) : dict :=
    <["rule" := VStr "True"]>
    (<["action" := VStr "route"]>
    (<["target" := VStr target]> ∅)).

Definition target_t1 : dict :=
    <["ip" := VStr "127.0.0.1"]> (<["port" := VInt 11112]> ∅).

Definition config (rules : list (string * dict)) : Config := {|
    cfg_incoming_folder := "incoming";
    cfg_outgoing_folder := "outgoing";
    cfg_success_folder := "success";
    cfg_error_folder := "error";
    cfg_discard_folder := "discard";
    cfg_processing_folder := "processing";
    cfg_retry_max := 3;
    cfg_retry_delay := 60;
    cfg_rules := rules;
    cfg_targets := [("t1", target_t1)]
  |}.

Definition tree (incoming : list (string * node)) : node :=
    Dir [("incoming", Dir incoming); ("outgoing", Dir []); ("success", Dir []);
         ("error", Dir []); ("discard", Dir []); ("processing", Dir [])].

Definition world_of (incoming : list (string * node)) : world :=
    World (tree incoming) [] 1000 [] 0 false.

Definition series_ABC : list (string * node) :=
    [("ABC#1.dcm", File (CData "pixels")); ("ABC#1.tags", File (CJson ∅))].

Definition uuid_of (n : nat) : string := "uuid-" +:+ pretty n.
Definition parse_rule (rule : pyval) (tags : dict) : outcome bool :=
    Ret (bool_decide (rule = VStr "True")).
Definition generate_taskfile_route (series_UID : string) (trigger : pyval)
      (rule : string) (tags : dict) (target : pyval) : dict :=
    <["series_uid" := VStr series_UID]>
    (<["applied_rule" := VStr rule]> (<["target_name" := target]> ∅)).
Definition generate_taskfile_process (series_UID : string) (trigger : pyval)
      (rule : string) (tags : dict) : dict :=
    <["series_uid" := VStr series_UID]> (<["applied_rule" := VStr rule]> ∅).
Definition monitor : Monitor := configure "router" "main" "localhost:8080".
End SampleRouter.

Module SampleDispatch.
  (** A staged folder that nobody has claimed yet. *)
Definition ready_folder : node :=
    Dir [("ABC#1.dcm", File (CData "pixels"));
         ("ABC#1.tags", File (CJson ∅));
         ("target.json", File (CJson Sample.task))].

Definition w_ready : world :=
    World (Dir [("outgoing", Dir [("f1", ready_folder)]);
                ("success", Dir []); ("error", Dir [])])
          [] 1000 [] 0 false.

Definition the_job : job :=
    Job Sample.task ["outgoing"; "f1"] ["success"] ["error"] 3 60 Sample.monitor.

  (** A regular file lying in the outgoing folder. *)
Definition w_stray : world :=
    World (Dir [("outgoing", Dir [("stray", File (CData "x"))]);
                ("success", Dir []); ("error", Dir [])])
          [] 1000 [] 0 false.
End SampleDispatch.

Import SampleRouter.

Module SampleErrors.
  (** An incoming folder with one error-marked payload. *)
Definition incoming : list (string * node) :=
    [("ABC#1.dcm", File (CData "pixels"));
     ("ABC#1.dcm.error", File (CData "unreadable header"))].
Definition w0 : world := world_of incoming.
End SampleErrors.

Definition sample_dispatch : M unit :=
  dispatch Sample.isoformat (Ret (config [])) Status.is_ready_for_sending
    Status.has_been_send Status.is_target_json_valid Sample.monitor.

Module SampleCollision.
  (** The claimed folder f1 is to be filed in a success folder that already
      holds a folder of the same name. *)
Definition earlier_folder : node := Dir [("OLD#1.dcm", File (CData "older pixels"))].

Definition tree : node :=
    Dir [("incoming", Dir []);
         ("outgoing", Dir [("f1", Sample.claimed_folder)]);
         ("success", Dir [("f1", earlier_folder)]);
         ("error", Dir [])].

Definition w0 : world := World tree [] 1000 [] 0 false.
End SampleCollision.

Module SampleOrphan.
  (** A claimed folder whose task descriptor has disappeared. *)
Definition tree : node :=
    Dir [("outgoing", Dir [("f1", Dir [("ABC#1.dcm", File (CData "pixels"));
                                       (".sending", File CEmpty)])]);
         ("success", Dir []);
         ("error", Dir [])].
Definition w0 : world := World tree [] 1000 [] 0 false.
End SampleOrphan.

Module SampleWaiting.
  (** A staged folder whose next attempt is due at 2000, seen at 1000; and one
      whose descriptor carries no usable time. *)
Definition task_due_later : dict := <["next_retry_at" := VInt 2000]> Sample.task.

Definition world_with (task : dict) : world :=
    World (Dir [("outgoing",
                 Dir [("f1", Dir [("ABC#1.dcm", File (CData "pixels"));
                                  ("target.json", File (CJson task))])]);
                ("success", Dir []); ("error", Dir [])])
          [] 1000 [] 0 false.

Definition entry : DirEntry := Entry "f1" "outgoing/f1" true.
End SampleWaiting.

(** * Properties *)

(** ** Ordered dictionaries and the directory tree *)

Section odict_facts.
Context {K A : Type} `{EqDecision K}.
Implicit Types (k : K) (v : A) (l : list (K * A)).

Lemma assoc_set_eq k v l : assoc k (assoc_set k v l) = Some v.
  Proof.
    induction l as [|[k' v'] l IH]; simpl.
    - by rewrite bool_decide_eq_true_2.
    - destruct (bool_decide (k = k')) eqn:E; simpl; rewrite E; done.
  Qed.

Lemma assoc_set_ne k k' v l : k ≠ k' → assoc k' (assoc_set k v l) = assoc k' l.
  Proof.
    intros Hne. induction l as [|[k0 v0] l IH]; simpl.
    - rewrite bool_decide_eq_false_2; [done | congruence].
    - destruct (bool_decide (k = k0)) eqn:E; simpl; [|by rewrite IH].
      apply bool_decide_eq_true_1 in E. subst k0.
      by rewrite !bool_decide_eq_false_2 by congruence.
  Qed.

Lemma assoc_del_ne k k' l : k ≠ k' → assoc k' (assoc_del k l) = assoc k' l.
  Proof.
    intros Hne. induction l as [|[k0 v0] l IH]; simpl; [done|].
    destruct (bool_decide (k = k0)) eqn:E; simpl; [|by rewrite IH].
    apply bool_decide_eq_true_1 in E. subst k0.
    rewrite bool_decide_eq_false_2; [done | congruence].
  Qed.

Lemma assoc_Some_keys k v l : assoc k l = Some v → k ∈ keys l.
  Proof.
    induction l as [|[k0 v0] l IH]; simpl; [done|].
    destruct (bool_decide (k = k0)) eqn:E.
    - apply bool_decide_eq_true_1 in E. subst. intros _. apply list_elem_of_here.
    - intros Hl. apply list_elem_of_further. by apply IH.
  Qed.



End odict_facts.

Lemma lookup_put_eq p c n n' :
  put p (Some c) n = Some n' → lookup_path p n' = Some c.
Proof.
  revert n n'. induction p as [|x p IH]; intros n n'; simpl; [done|].
  destruct n as [?|es]; [done|].
  destruct p as [|y p].
  - intros [= <-]. simpl. by rewrite assoc_set_eq.
  - destruct (assoc x es) as [child|] eqn:E; [|done].
    destruct (put (y :: p) (Some c) child) as [child'|] eqn:E'; [|done].
    intros [= <-]. cbn [lookup_path]. rewrite assoc_set_eq. by apply IH in E'.
Qed.

Lemma lookup_put_del p n n' :
  put p None n = Some n' → lookup_path (removelast p) n' ≠ None.
Proof.
  revert n n'. induction p as [|x p IH]; intros n n'; simpl; [done|].
  destruct n as [?|es]; [done|].
  destruct p as [|y p].
  - by intros [= <-].
  - destruct (assoc x es) as [child|] eqn:E; [|done].
    destruct (put (y :: p) None child) as [child'|] eqn:E'; [|done].
    intros [= <-]. cbn [lookup_path]. rewrite assoc_set_eq. by apply IH in E'.
Qed.

Lemma put_cons2 x y p v es :
  put (x :: y :: p) v (Dir es) =
  match assoc x es with
  | Some c =>
      match put (y :: p) v c with
      | Some c' => Some (Dir (assoc_set x c' es))
      | None => None
      end
  | None => None
  end.
Proof. reflexivity. Qed.

(** A binding can be written exactly where the parent is a directory. *)
Lemma put_is_Some p v n :
  is_Some (put p v n) ↔
  p ≠ [] ∧ ∃ es, lookup_path (removelast p) n = Some (Dir es).
Proof.
  revert n. induction p as [|x p IH]; intros n.
  - simpl. split; [by intros [? ?] | by intros [? _]].
  - destruct n as [c|es].
    + simpl. split; [by intros [? ?]|].
      intros [_ [es Hes]]. destruct p; simpl in Hes; done.
    + destruct p as [|y p].
      * simpl. split; [intros _; split; [done | eexists; reflexivity] | intros _; eexists; reflexivity].
      * rewrite put_cons2.
        change (removelast (x :: y :: p)) with (x :: removelast (y :: p)).
        cbn [lookup_path].
        destruct (assoc x es) as [child|] eqn:E.
        -- specialize (IH child). destruct (put (y :: p) v child) eqn:E'.
           ++ split; [intros _; split; [done|] | intros _; eexists; reflexivity].
              destruct IH as [IH1 _]. destruct IH1 as [_ H]; [eexists; reflexivity | exact H].
           ++ split; [by intros [? ?]|]. intros [_ Hes].
              destruct IH as [_ IH2]. destruct IH2 as [? ?]; [split; [done | exact Hes] | done].
        -- split; [by intros [? ?] | by intros [_ [? ?]]].
Qed.

(** Writing at [q] does not disturb any path that neither lies under [q] nor
    leads to it. *)
Lemma lookup_put_other q v n n' p :
  put q v n = Some n' →
  ¬ q `prefix_of` p → ¬ p `prefix_of` q →
  lookup_path p n' = lookup_path p n.
Proof.
  revert n n' p. induction q as [|x q IH]; intros n n' p; simpl; [done|].
  destruct n as [?|es]; [done|].
  intros Hput Hqp Hpq.
  destruct p as [|y p]; [exfalso; apply Hpq, prefix_nil|].
  destruct q as [|z q].
  - injection Hput as <-. cbn [lookup_path].
    assert (x ≠ y) as Hxy.
    { intros ->. apply Hqp. by apply prefix_cons, prefix_nil. }
    destruct v; by rewrite ?assoc_set_ne, ?assoc_del_ne.
  - destruct (assoc x es) as [child|] eqn:E; [|done].
    destruct (put (z :: q) v child) as [child'|] eqn:E'; [|done].
    injection Hput as <-. cbn [lookup_path].
    destruct (decide (x = y)) as [->|Hxy].
    + rewrite assoc_set_eq, E. eapply IH; [done | |].
      * intros Hpre. apply Hqp. by apply prefix_cons.
      * intros Hpre. apply Hpq. by apply prefix_cons.
    + by rewrite assoc_set_ne.
Qed.


(** ** What a computation adds to the log *)

Lemma submitted_app l1 l2 : submitted (l1 ++ l2) = submitted l1 ++ submitted l2.
Proof. apply omap_app. Qed.

Lemma submitted_benign a : benign a = true → submitted [a] = [].
Proof. by destruct a. Qed.


(** Sequencing, from a given world: the continuation is only run from the
    world and with the value that the first part produced there. *)
Lemma emits_at_bind_gen {A B} (c : M A) (k : A → M B)
    (Q1 Q2 Q : Z → list action → Prop) w :
  emits_at c Q1 w →
  (∀ a w1, c w = (Ret a, w1) → now w1 = now w → emits_at (k a) Q2 w1) →
  (∀ t l1 l2, Q1 t l1 → Q2 t l2 → Q t (l1 ++ l2)) →
  (∀ t l1, Q1 t l1 → Q t l1) →
  emits_at (bind c k) Q w.
Proof.
  intros (Hn & l1 & Hl & Hq & HQ1) Hk Happ Hstop. unfold emits_at, bind.
  destruct (c w) as [[a|e] w1]; simpl in *.
  - destruct (Hk a w1 eq_refl Hn) as (Hn' & l2 & Hl' & Hq' & HQ2).
    split; [congruence|]. exists (l1 ++ l2).
    rewrite Hl', Hl, Hq', Hq, submitted_app, <- !app_assoc.
    split_and!; [done | done |]. apply Happ; [done|]. by rewrite <- Hn.
  - split; [done|]. exists l1. auto.
Qed.

Lemma emits_at_try_gen {A} (c : M A) (h : exn → M A)
    (Q1 Q2 Q : Z → list action → Prop) w :
  emits_at c Q1 w →
  (∀ e w1, c w = (Raise e, w1) → emits_at (h e) Q2 w1) →
  (∀ t l1 l2, Q1 t l1 → Q2 t l2 → Q t (l1 ++ l2)) →
  (∀ t l1, Q1 t l1 → Q t l1) →
  emits_at (try_except c h) Q w.
Proof.
  intros (Hn & l1 & Hl & Hq & HQ1) Hh Happ Hstop. unfold emits_at, try_except.
  destruct (c w) as [[a|e] w1]; simpl in *.
  - split; [done|]. exists l1. auto.
  - destruct (Hh e w1 eq_refl) as (Hn' & l2 & Hl' & Hq' & HQ2).
    split; [congruence|]. exists (l1 ++ l2).
    rewrite Hl', Hl, Hq', Hq, submitted_app, <- !app_assoc.
    split_and!; [done | done |]. apply Happ; [done|]. by rewrite <- Hn.
Qed.

Lemma emits_bind_gen {A B} (c : M A) (k : A → M B) (Q1 Q2 Q : Z → list action → Prop) :
  emits c Q1 → (∀ a, emits (k a) Q2) →
  (∀ t l1 l2, Q1 t l1 → Q2 t l2 → Q t (l1 ++ l2)) →
  (∀ t l1, Q1 t l1 → Q t l1) →
  emits (bind c k) Q.
Proof.
  intros Hc Hk Happ Hstop w.
  eapply emits_at_bind_gen; [apply Hc | intros; apply Hk | done | done].
Qed.

Lemma emits_try_gen {A} (c : M A) (h : exn → M A) (Q1 Q2 Q : Z → list action → Prop) :
  emits c Q1 → (∀ e, emits (h e) Q2) →
  (∀ t l1 l2, Q1 t l1 → Q2 t l2 → Q t (l1 ++ l2)) →
  (∀ t l1, Q1 t l1 → Q t l1) →
  emits (try_except c h) Q.
Proof.
  intros Hc Hh Happ Hstop w.
  eapply emits_at_try_gen; [apply Hc | intros; apply Hh | done | done].
Qed.

Section tolerant.
Context (Q : Z → list action → Prop) `{!Tolerant Q}.

Lemma emits_silent {A} (c : M A) :
    (∀ w, now (snd (c w)) = now w ∧ log (snd (c w)) = log w
          ∧ queue (snd (c w)) = queue w) →
    emits c Q.
  Proof.
    intros Hc w. destruct (Hc w) as (Hn & Hl & Hq). split; [done|].
    exists []. rewrite Hl, Hq, !app_nil_r. split_and!; [done..|]. apply tolerant_nil.
  Qed.

Lemma emits_ret {A} (a : A) : emits (ret a) Q.
  Proof. by apply emits_silent. Qed.

Lemma emits_raise {A} e : emits (raise e : M A) Q.
  Proof. by apply emits_silent. Qed.

Lemma emits_lift {A} (o : outcome A) : emits (lift o) Q.
  Proof. by apply emits_silent. Qed.

Lemma emits_get_fs : emits get_fs Q.
  Proof. by apply emits_silent. Qed.

Lemma emits_time_time : emits time_time Q.
  Proof. by apply emits_silent. Qed.

Lemma emits_isTerminated : emits isTerminated Q.
  Proof. by apply emits_silent. Qed.

Lemma emits_uuid1 uuid_of : emits (uuid1 uuid_of) Q.
  Proof. by apply emits_silent. Qed.

Lemma emits_emit a : benign a = true → emits (emit a) Q.
  Proof.
    intros Ha w. split; [done|]. exists [a].
    split_and!; [done | | by apply tolerant_benign].
    by rewrite (submitted_benign a Ha), app_nil_r.
  Qed.

Lemma emits_update_fs n a : benign a = true → emits (update_fs n a) Q.
  Proof.
    intros Ha w. split; [done|]. exists [a].
    split_and!; [done | | by apply tolerant_benign].
    by rewrite (submitted_benign a Ha), app_nil_r.
  Qed.

Lemma emits_bind {A B} (c : M A) (k : A → M B) :
    emits c Q → (∀ a, emits (k a) Q) → emits (bind c k) Q.
  Proof.
    intros Hc Hk. eapply emits_bind_gen; [exact Hc | exact Hk | | done].
    intros. by apply tolerant_app.
  Qed.

Lemma emits_try {A} (c : M A) (h : exn → M A) :
    emits c Q → (∀ e, emits (h e) Q) → emits (try_except c h) Q.
  Proof.
    intros Hc Hh. eapply emits_try_gen; [exact Hc | exact Hh | | done].
    intros. by apply tolerant_app.
  Qed.

Lemma emits_for_loop {A S} (l : list A) (s : S) (body : S → A → M (flow * S)) :
    (∀ s x, emits (body s x) Q) → emits (for_loop l s body) Q.
  Proof.
    intros Hbody. revert s. induction l as [|x l IH]; intros s; simpl.
    - apply emits_ret.
    - apply emits_bind; [apply Hbody|].
      intros [[| |] s']; [apply IH | apply emits_ret | apply emits_ret].
  Qed.

End tolerant.

(** One step of a proof that a computation only extends the log tolerably. *)
Ltac emits_step :=
  first
    [ apply emits_ret | apply emits_raise | apply emits_lift
    | apply emits_get_fs | apply emits_time_time | apply emits_isTerminated
    | apply emits_uuid1
    | apply emits_emit; [|reflexivity]
    | apply emits_update_fs; [|reflexivity]
    | apply emits_bind; [| |intros ?]
    | apply emits_try; [| |intros ?]
    | apply emits_for_loop; [|intros ? ?]
    | exact _
    | case_match ].

Section tolerant_primitives.
Context (Q : Z → list action → Prop) `{!Tolerant Q}.

Lemma emits_path_exists p : emits (path_exists p) Q.
  Proof. unfold path_exists. repeat emits_step. Qed.


Lemma emits_unlink p : emits (unlink p) Q.
  Proof. unfold unlink. repeat emits_step. Qed.




Lemma emits_read_json p : emits (read_json p) Q.
  Proof. unfold read_json. repeat emits_step. Qed.

Lemma emits_write_json p d : emits (write_json p d) Q.
  Proof. unfold write_json. repeat emits_step. Qed.

Lemma emits_rename src dst : emits (rename src dst) Q.
  Proof. unfold rename. repeat emits_step. Qed.

Lemma emits_shutil_move src dst : emits (shutil_move src dst) Q.
  Proof. unfold shutil_move. repeat first [apply emits_rename | emits_step]. Qed.


Lemma emits_send_event m e sev d : emits (send_event m e sev d) Q.
  Proof. unfold send_event. repeat emits_step. Qed.

Lemma emits_send_series_event m e uid n target info :
    e ≠ ROUTE → emits (send_series_event m e uid n target info) Q.
  Proof.
    intros He. unfold send_series_event. case_match; [by apply emits_ret|].
    apply emits_emit; [done|]. by destruct e.
  Qed.




Lemma emits__increase_retry folder retry_max retry_delay :
    emits (_increase_retry folder retry_max retry_delay) Q.
  Proof.
    unfold _increase_retry.
    repeat first [apply emits_read_json | apply emits_write_json | emits_step].
  Qed.

Lemma emits__move_sent_directory isoformat src dst m :
    emits (_move_sent_directory isoformat src dst m) Q.
  Proof.
    unfold _move_sent_directory.
    repeat first [apply emits_path_exists | apply emits_shutil_move
                 | apply emits_unlink | apply emits_send_event | emits_step].
  Qed.
End tolerant_primitives.

#[global] Instance tolerant_True : Tolerant (λ _ _, True).
Proof. by split. Qed.

(** Whatever a computation does, the log it leaves extends the log it found. *)
Lemma emits_extends {A} (c : M A) w :
  emits c (λ _ _, True) → ∃ l, log (snd (c w)) = log w ++ l.
Proof. intros Hc. destruct (Hc w) as (_ & l & Hl & _). by exists l. Qed.

(** ** The transfer worker *)

Lemma send_event_run m e sev d w :
  send_event m e sev d w = (Ret tt, add_log (AEvent e sev d) w).
Proof. reflexivity. Qed.

Lemma send_series_event_run m e uid n target info w :
  send_series_event m e uid n target info w
  = (Ret tt, add_log (ASeries e uid n target info) w).
Proof. reflexivity. Qed.

Section send_facts.
Variable run_process : string → world → Z * world.
Variable isoformat : Z → string.

(** C1, amended: when the transfer command exits with code 0, [execute]
    counts the payload files of the folder, emits
    DISPATCH(series_uid, file_count, target_name) and returns; it changes
    nothing else, so the folder and its [.sending] sentinel stay where the
    transfer tool left them.  Moving the folder to the success folder and
    removing the sentinel is the work of the dispatcher scan. *)
Theorem successful_transfer_is_reported_and_left_in_place target_info folder
    success_folder error_folder
      retry_max retry_delay monitor w command w1 :
    _create_command target_info folder = Ret command →
    run_process command w = (0, w1) →
    execute run_process isoformat target_info folder success_folder error_folder
      retry_max retry_delay monitor w
    = (Ret tt,
       add_log (ASeries DISPATCH
                  (dict_get target_info "series_uid" (VStr "series_uid-missing"))
                  (dcm_count (fs w1) folder)
                  (dict_get target_info "target_name" (VStr "target_name-missing"))
                  (VStr "")) w1).
  Proof.
    intros Hcmd Hrun. unfold execute, bind, lift, try_except, run.
    rewrite Hcmd, Hrun. reflexivity.
  Qed.

Lemma execute_failure target_info folder success_folder error_folder
      retry_max retry_delay monitor w command returncode w1 :
    _create_command target_info folder = Ret command →
    run_process command w = (returncode, w1) →
    returncode ≠ 0 →
    execute run_process isoformat target_info folder success_folder error_folder
      retry_max retry_delay monitor w
    = after_failure_reports isoformat target_info folder error_folder
        retry_max retry_delay monitor
        (add_log (ASeries ERROR
                    (dict_get target_info "series_uid" (VStr "series_uid-missing")) 0
                    (dict_get target_info "target_name" (VStr "target_name-missing"))
                    (exit_reason returncode))
           (add_log (AEvent PROCESSING SEV_ERROR
                       ("Error sending "
                        +:+ py_str (dict_get target_info "series_uid"
                                      (VStr "series_uid-missing"))
                        +:+ " to "
                        +:+ py_str (dict_get target_info "target_name"
                                      (VStr "target_name-missing"))))
              w1)).
  Proof.
    intros Hcmd Hrun Hrc. unfold execute, bind, lift, try_except, run.
    rewrite Hcmd, Hrun. apply Z.eqb_neq in Hrc. rewrite Hrc. reflexivity.
  Qed.
End send_facts.

Lemma exit_reason_table returncode : exit_reason returncode = reason_per_table returncode.
Proof.
  unfold exit_reason, reason_per_table, DCMSEND_ERROR_CODES.
  repeat match goal with
         | |- context [?a =? ?b] =>
             destruct (Z.eqb_spec a b) as [->|?]; [reflexivity|]
         end.
  by rewrite !lookup_insert_ne, lookup_empty by done.
Qed.

(** C1, witness: exit code 0 on the sample folder. *)
Lemma successful_transfer_is_reported_and_left_in_place_witness :
  _create_command Sample.task Sample.folder = Ret Sample.command
  ∧ Sample.tool 0 Sample.command Sample.w0 = (0, Sample.w0)
  ∧ execute (Sample.tool 0) Sample.isoformat Sample.task Sample.folder
      ["success"] ["error"] 3 60 Sample.monitor Sample.w0
    = (Ret tt,
       add_log (ASeries DISPATCH (VStr "ABC") (dcm_count (fs Sample.w0) Sample.folder)
                  (VStr "t1") (VStr "")) Sample.w0).
Proof.
  assert (_create_command Sample.task Sample.folder = Ret Sample.command) as Hcmd
    by reflexivity.
  assert (Sample.tool 0 Sample.command Sample.w0 = (0, Sample.w0)) as Hrun
    by reflexivity.
  split_and!; [exact Hcmd | exact Hrun |].
  exact (successful_transfer_is_reported_and_left_in_place (Sample.tool 0)
           Sample.isoformat Sample.task Sample.folder ["success"] ["error"] 3 60
           Sample.monitor Sample.w0 Sample.command Sample.w0 Hcmd Hrun).
Defined.

(** C1, counterexample: the transfer command exits with code 0 on a claimed
    folder holding one payload file.  After [execute] the log holds the
    DISPATCH event and the directory tree is as before: the folder is still in
    the outgoing folder with its [.sending] sentinel, and nothing has arrived
    in the success folder. *)
Lemma execute_success_does_not_move_folder :
  let w' := snd (execute (Sample.tool 0) Sample.isoformat Sample.task Sample.folder
                   ["success"] ["error"] 3 60 Sample.monitor Sample.w0) in
  log w' = [ASeries DISPATCH (VStr "ABC") 1 (VStr "t1") (VStr "")]
  ∧ fs w' = fs Sample.w0
  ∧ lookup_path ["outgoing"; "f1"; ".sending"] (fs w') = Some (File CEmpty)
  ∧ lookup_path ["success"; "f1"] (fs w') = None.
Proof. vm_compute. done. Qed.

(** C5, amended: when the transfer command exits with a non-zero code, the
    log receives the PROCESSING/ERROR report followed by the ERROR series event
    whose reason is the one the fixed table gives for the codes 1, 21, 22, 23,
    43, 60, 61, 62 and 65, and no reason at all (Python's [None]) for every
    other code. *)
Theorem execute_failure_reason_event run_process isoformat target_info folder
    success_folder error_folder retry_max retry_delay monitor w command
    returncode w1 :
  _create_command target_info folder = Ret command →
  run_process command w = (returncode, w1) →
  returncode ≠ 0 →
  ∃ rest,
    log (snd (execute run_process isoformat target_info folder success_folder
                error_folder retry_max retry_delay monitor w))
    = log w1
      ++ [AEvent PROCESSING SEV_ERROR
            ("Error sending "
             +:+ py_str (dict_get target_info "series_uid" (VStr "series_uid-missing"))
             +:+ " to "
             +:+ py_str (dict_get target_info "target_name" (VStr "target_name-missing")));
          ASeries ERROR
            (dict_get target_info "series_uid" (VStr "series_uid-missing")) 0
            (dict_get target_info "target_name" (VStr "target_name-missing"))
            (reason_per_table returncode)]
      ++ rest.
Proof.
  intros Hcmd Hrun Hrc.
  rewrite (execute_failure _ _ _ _ _ _ _ _ _ _ _ _ _ Hcmd Hrun Hrc).
  rewrite exit_reason_table.
  match goal with |- ∃ _, log (snd (?c ?w0)) = _ =>
    destruct (emits_extends c w0) as [rest Hrest] end.
  { unfold after_failure_reports.
    repeat first [ apply emits__increase_retry | apply emits_unlink
                 | apply emits_send_series_event; [|done]
                 | apply emits__move_sent_directory
                 | apply emits_send_event | emits_step ]. }
  exists rest. rewrite Hrest. simpl. by rewrite <- !app_assoc.
Qed.

(** C5, witness: exit code 62 on the sample folder. *)
Lemma execute_failure_reason_event_witness :
  _create_command Sample.task Sample.folder = Ret Sample.command
  ∧ Sample.tool 62 Sample.command Sample.w0 = (62, Sample.w0)
  ∧ 62 ≠ 0
  ∧ ∃ rest,
      log (snd (execute (Sample.tool 62) Sample.isoformat Sample.task Sample.folder
                  ["success"] ["error"] 3 60 Sample.monitor Sample.w0))
      = log Sample.w0
        ++ [AEvent PROCESSING SEV_ERROR "Error sending ABC to t1";
            ASeries ERROR (VStr "ABC") 0 (VStr "t1")
              (VStr "EXITCODE_CANNOT_SEND_REQUEST")]
        ++ rest.
Proof.
  assert (_create_command Sample.task Sample.folder = Ret Sample.command) as Hcmd
    by reflexivity.
  assert (Sample.tool 62 Sample.command Sample.w0 = (62, Sample.w0)) as Hrun
    by reflexivity.
  assert (62 ≠ 0) as Hrc by lia.
  split_and!; [exact Hcmd | exact Hrun | exact Hrc |].
  exact (execute_failure_reason_event (Sample.tool 62) Sample.isoformat Sample.task
           Sample.folder ["success"] ["error"] 3 60 Sample.monitor Sample.w0
           Sample.command 62 Sample.w0 Hcmd Hrun Hrc).
Defined.

(** C5, counterexample: exit code 2 is not in the table; the one ERROR series
    event that [execute] emits carries [None], not the reason UNKNOWN. *)
Lemma unknown_exit_code_has_no_reason :
  DCMSEND_ERROR_CODES !! 2 = None
  ∧ error_reasons
      (log (snd (execute (Sample.tool 2) Sample.isoformat Sample.task Sample.folder
                   ["success"] ["error"] 3 60 Sample.monitor Sample.w0)))
    = [VNone]
  ∧ error_reasons
      (log (snd (execute (Sample.tool 2) Sample.isoformat Sample.task Sample.folder
                   ["success"] ["error"] 3 60 Sample.monitor Sample.w0)))
    ≠ [VStr "UNKNOWN"].
Proof. split_and!; [by vm_compute | by vm_compute | by vm_compute]. Qed.

Lemma lookup_child f a t x :
  lookup_path (f ++ [a]) t = Some x → ∃ es, lookup_path f t = Some (Dir es).
Proof.
  revert t. induction f as [|y f IH]; intros t; simpl.
  - destruct t as [?|es]; [done|]. intros _. by eexists.
  - destruct t as [?|es]; [done|]. destruct (assoc y es); [apply IH | done].
Qed.

Lemma put_over_existing f a v t x :
  lookup_path (f ++ [a]) t = Some x → is_Some (put (f ++ [a]) v t).
Proof.
  intros Hx. apply put_is_Some. split; [by destruct f|].
  rewrite removelast_last. by eapply lookup_child.
Qed.



Lemma _increase_retry_at_max folder retry_max retry_delay w d r :
  persisted_descriptor (fs w) folder = Some d →
  dict_get d "retries" (VInt 0) = VInt r →
  retry_max ≤ r + 1 →
  _increase_retry folder retry_max retry_delay w = (Ret false, w).
Proof.
  unfold persisted_descriptor. intros Hd Hr Hle.
  destruct (lookup_path (folder ++ ["target.json"]) (fs w)) as [[[]|]|] eqn:Hfile;
    try done.
  injection Hd as ->.
  apply Z.leb_le in Hle.
  cbv [_increase_retry bind read_json get_fs lift time_time ret raise].
  rewrite Hfile, Hr. cbn [py_add_int]. by rewrite Hle.
Qed.




(** C6, amended: constructing the file lock succeeds exactly when the sentinel
    already exists or can be created (its parent is an existing directory);
    on an existing sentinel the construction succeeds and leaves the tree as
    it is, and after every successful construction the sentinel exists.
    Exclusion between workers rests on the callers' earlier [exists()] test,
    not on the construction. *)
Theorem FileLock_init_succeeds_iff_creatable p w :
  ((∃ lock, fst (FileLock_init p w) = Ret lock)
   ↔ is_Some (lookup_path p (fs w))
     ∨ (p ≠ [] ∧ ∃ es, lookup_path (removelast p) (fs w) = Some (Dir es)))
  ∧ (is_Some (lookup_path p (fs w)) →
     FileLock_init p w
     = (Ret {| lockCreated := true; lockfile := p |}, add_log (ATouch p) w))
  ∧ ((∃ lock, fst (FileLock_init p w) = Ret lock) →
     is_Some (lookup_path p (fs (snd (FileLock_init p w))))).
Proof.
  cbv [FileLock_init touch bind get_fs emit update_fs raise ret].
  destruct (lookup_path p (fs w)) as [n|] eqn:Hp.
  - split_and!; [|done|by eauto].
    split; [intros _; left; by eexists | intros _; by eexists].
  - destruct (put p (Some (File CEmpty)) (fs w)) as [t'|] eqn:Hput.
    + split_and!.
      * split; [intros _; right|intros _; by eexists].
        apply (put_is_Some p (Some (File CEmpty)) (fs w)). by rewrite Hput.
      * by intros [? ?].
      * intros _. cbn. rewrite (lookup_put_eq _ _ _ _ Hput). by eexists.
    + split_and!.
      * split; [by intros [? ?]|]. intros [[? ?]|Hparent]; [done|].
        apply (put_is_Some p (Some (File CEmpty)) (fs w)) in Hparent.
        rewrite Hput in Hparent. by destruct Hparent.
      * by intros [? ?].
      * by intros [? ?].
Qed.

(** C6, witness: a sentinel that does not exist yet in an existing folder. *)
Lemma FileLock_init_succeeds_iff_creatable_witness :
  lookup_path ["incoming"; "XYZ.lock"] (fs SampleLock.w0) = None
  ∧ (∃ lock, fst (FileLock_init ["incoming"; "XYZ.lock"] SampleLock.w0) = Ret lock)
  ∧ is_Some (lookup_path ["incoming"; "XYZ.lock"]
               (fs (snd (FileLock_init ["incoming"; "XYZ.lock"] SampleLock.w0)))).
Proof.
  destruct (FileLock_init_succeeds_iff_creatable ["incoming"; "XYZ.lock"]
              SampleLock.w0) as (Hiff & _ & Hafter).
  assert (∃ lock, fst (FileLock_init ["incoming"; "XYZ.lock"] SampleLock.w0)
                  = Ret lock) as Hok.
  { apply Hiff. right. split; [done|]. by eexists. }
  split_and!; [reflexivity | exact Hok | exact (Hafter Hok)].
Defined.

(** C6, counterexample: the sentinel of series ABC is already there, and the
    construction on its path succeeds all the same. *)
Lemma FileLock_init_on_existing_sentinel :
  is_Some (lookup_path SampleLock.sentinel (fs SampleLock.w0))
  ∧ FileLock_init SampleLock.sentinel SampleLock.w0
    = (Ret {| lockCreated := true; lockfile := SampleLock.sentinel |},
       add_log (ATouch SampleLock.sentinel) SampleLock.w0).
Proof. split; [by eexists | reflexivity]. Qed.

(** ** The dispatcher loop *)

#[global] Instance tolerant_sentinel_then_job : Tolerant sentinel_then_job.
Proof.
  split.
  - intros t pre j post Hl. by destruct pre.
  - intros t l1 l2 H1 H2 pre j post Hl.
    apply app_eq_inv in Hl as [(k & Hl1 & Hk)|(k & Hpre & Hl2)].
    + destruct k as [|a k]; simpl in Hk.
      * subst l2. destruct (H2 [] j post eq_refl) as [[pre' Hpre'] _].
        by destruct pre'.
      * injection Hk as <- ->. by apply (H1 pre j k).
    + subst l2. destruct (H2 k j post eq_refl) as [[pre' ->] Hg].
      split; [|done]. exists (l1 ++ pre'). by rewrite Hpre, app_assoc.
  - intros t a Ha pre j post Hl.
    destruct pre as [|b pre]; simpl in Hl.
    + injection Hl as -> _. done.
    + injection Hl as _ Hl. by destruct pre.
Qed.







Section dispatcher_facts.
Variable isoformat : Z → string.
Variable read_config : outcome Config.
Variable is_ready_for_sending : node → string → option dict.
Variable has_been_send : node → string → bool.
Variable is_target_json_valid : node → string → option dict.
Variable _monitor : Monitor.



End dispatcher_facts.


(** Writing at [q] leaves every directory that is not under [q] a directory. *)
Lemma put_keeps_dirs q v t t1 p es :
  put q v t = Some t1 →
  lookup_path p t = Some (Dir es) →
  ¬ q `prefix_of` p →
  ∃ es', lookup_path p t1 = Some (Dir es').
Proof.
  revert t t1 p es. induction q as [|x q IH]; intros t t1 p es; simpl; [done|].
  destruct t as [?|es0]; [done|].
  intros Hput Hp Hqp.
  destruct p as [|y p].
  { destruct q; [injection Hput as <-|]; simpl.
    - by eexists.
    - destruct (assoc x es0); [|done].
      destruct (put _ _ _); [|done]. injection Hput as <-. by eexists. }
  cbn [lookup_path] in Hp.
  destruct q as [|z q].
  - injection Hput as <-. cbn [lookup_path].
    assert (x ≠ y) as Hxy.
    { intros ->. apply Hqp. by apply prefix_cons, prefix_nil. }
    exists es. destruct v; by rewrite ?assoc_set_ne, ?assoc_del_ne.
  - destruct (assoc x es0) as [child|] eqn:E; [|done].
    destruct (put (z :: q) v child) as [child'|] eqn:E'; [|done].
    injection Hput as <-. cbn [lookup_path].
    destruct (decide (x = y)) as [->|Hxy].
    + rewrite assoc_set_eq. rewrite E in Hp.
      eapply IH; [done | done |].
      intros Hpre. apply Hqp. by apply prefix_cons.
    + rewrite assoc_set_ne by done. by exists es.
Qed.

Lemma lookup_path_app p q t :
  lookup_path (p ++ q) t
  = match lookup_path p t with
    | Some n => lookup_path q n
    | None => None
    end.
Proof.
  revert t. induction p as [|x p IH]; intros t; simpl; [done|].
  destruct t as [?|es]; [done|]. destruct (assoc x es); [apply IH | done].
Qed.

(** Writing an entry of a directory changes that directory's listing and
    nothing else of it. *)
Lemma lookup_put_parent p a v t t' es :
  put (p ++ [a]) v t = Some t' →
  lookup_path p t = Some (Dir es) →
  lookup_path p t'
  = Some (Dir (match v with
               | Some c => assoc_set a c es
               | None => assoc_del a es
               end)).
Proof.
  revert t t'. induction p as [|x p IH]; intros t t'.
  - simpl. destruct t as [?|es0]; [done|]. by intros [= <-] [= ->].
  - change ((x :: p) ++ [a]) with (x :: (p ++ [a])).
    destruct t as [?|es0]; [done|].
    destruct (p ++ [a]) as [|y r] eqn:Hpa; [destruct p; simpl in Hpa; discriminate|].
    rewrite put_cons2. cbn [lookup_path].
    destruct (assoc x es0) as [child|] eqn:E; [|done].
    destruct (put (y :: r) v child) as [child'|] eqn:E'; [|done].
    intros [= <-] Hp. cbn [lookup_path]. rewrite assoc_set_eq.
    by eapply IH.
Qed.

Section sent_branch.
Variable isoformat : Z → string.
Variable is_ready_for_sending : node → string → option dict.
Variable has_been_send : node → string → bool.
Variable is_target_json_valid : node → string → option dict.
Variable _monitor : Monitor.

Lemma sent_entry_takes_move_branch success_folder error_folder retry_max
      retry_delay name path is_dir w d :
    has_been_send (fs w) path = true →
    is_target_json_valid (fs w) path = Some d →
    dispatch_entry isoformat is_ready_for_sending has_been_send
      is_target_json_valid _monitor success_folder error_folder retry_max
      retry_delay (Entry name path is_dir) w
    = move_to_success isoformat _monitor success_folder path d w.
  Proof.
    intros Hsent Hjson.
    cbv [dispatch_entry move_to_success bind get_fs entry_path entry_is_dir
         is_dir_method].
    rewrite Hsent, Hjson, andb_false_r. cbn [andb negb ret].
    destruct (_move_sent_directory _ _ _ _ w) as [[[]|e] w1]; [|done].
    by rewrite send_series_event_run.
  Qed.


End sent_branch.

Section scan_moves_folder.
Variable isoformat : Z → string.
Variable is_ready_for_sending : node → string → option dict.
Variable has_been_send : node → string → bool.
Variable is_target_json_valid : node → string → option dict.
Variable _monitor : Monitor.

(** A claimed folder that the sent-check reports as sent is moved into the
    success folder by the scan, and its [.sending] sentinel is removed
    there. *)
Lemma scan_moves_sent_folder success_folder error_folder retry_max retry_delay
    name path w d listing c es :
  has_been_send (fs w) path = true →
  is_target_json_valid (fs w) path = Some d →
  PathOf path ≠ [] →
  lookup_path (PathOf path) (fs w) = Some (Dir listing) →
  assoc ".sending" listing = Some (File c) →
  lookup_path success_folder (fs w) = Some (Dir es) →
  ¬ PathOf path `prefix_of` success_folder →
  lookup_path (success_folder ++ [path_name (PathOf path)]) (fs w) = None →
  let w' := snd (dispatch_entry isoformat is_ready_for_sending has_been_send
                   is_target_json_valid _monitor success_folder error_folder
                   retry_max retry_delay (Entry name path true) w) in
  lookup_path (success_folder ++ [path_name (PathOf path)]) (fs w')
  = Some (Dir (assoc_del ".sending" listing))
  ∧ log w'
    = log w
      ++ [AMove (PathOf path) (success_folder ++ [path_name (PathOf path)]);
          AUnlink (success_folder ++ [path_name (PathOf path)] ++ [".sending"]);
          ASeries MOVE (dict_get d "series_uid" (VStr "series_uid-missing")) 0
            (VPath success_folder) (VStr "")].
Proof.
  set (src := PathOf path). set (dst := success_folder ++ [path_name src]).
  intros Hsent Hjson Hne Hsrc Hsending Hsucc Hnp Hfree.
  rewrite (sent_entry_takes_move_branch isoformat is_ready_for_sending
             has_been_send is_target_json_valid _monitor success_folder
             error_folder retry_max retry_delay name path true w d Hsent Hjson).
  destruct (exists_last Hne) as (f & a & Hfa).
  assert (is_Some (put src None (fs w))) as [t1 Ht1].
  { rewrite Hfa. eapply put_over_existing. by rewrite <- Hfa. }
  destruct (put_keeps_dirs _ _ _ _ _ _ Ht1 Hsucc Hnp) as [es' Hsucc1].
  assert (is_Some (put dst (Some (Dir listing)) t1)) as [t2 Ht2].
  { apply put_is_Some. split; [by destruct success_folder|].
    unfold dst. rewrite removelast_last. by eexists. }
  pose proof (lookup_put_eq _ _ _ _ Ht2) as Hdst2.
  assert (lookup_path (dst ++ [".sending"]) t2 = Some (File c)) as Hsent2.
  { rewrite lookup_path_app, Hdst2. simpl. by rewrite Hsending. }
  destruct (put_over_existing dst ".sending" None t2 _ Hsent2) as [t3 Ht3].
  pose proof (lookup_put_parent _ _ _ _ _ _ Ht3 Hdst2) as Hdst3.
  unfold dst in Hsent2, Ht3. rewrite <- app_assoc in Hsent2, Ht3.
  cbv [move_to_success _move_sent_directory bind try_except path_exists get_fs
       ret shutil_move rename update_fs unlink].
  fold src. fold dst.
  repeat first [ rewrite Hfree | rewrite Hsrc | rewrite Ht1 | rewrite Ht2
               | rewrite Hsent2 | rewrite Ht3
               | progress cbn [fst snd fs set_fs add_log] ].
  rewrite send_series_event_run. unfold isTerminated.
  cbn [fst snd fs set_fs add_log terminated log].
  destruct (terminated w); cbn [fst snd fs set_fs add_log log ret];
    (split; [exact Hdst3|]); by rewrite <- !app_assoc.
Qed.
End scan_moves_folder.

(** ** Staging of outgoing folders *)

Lemma staged_targets_app l1 l2 :
  staged_targets (l1 ++ l2) = staged_targets l1 ++ staged_targets l2.
Proof. apply omap_app. Qed.

#[global] Instance tolerant_unrouted : Tolerant unrouted.
Proof.
  split; unfold unrouted.
  - done.
  - intros t0 l1 l2 H1 H2. by rewrite staged_targets_app, H1, H2.
  - intros t0 a Ha. by destruct a as [| [] | | | | | | | | |].
Qed.









Section routing_facts.
Variable config : Config.
Variable C : Constants.
Variable uuid_of : nat → string.
Variable parse_rule : pyval → dict → outcome bool.
Variable generate_taskfile_route : string → pyval → string → dict → pyval → dict.







End routing_facts.



(** ** Evaluations *)

(** C3, at the failing input: the incoming folder holds the files of series ABC
    only and the router is asked for series XYZ, whose lock is free.  No tags
    file matches, and both [route_series] and [process_series] raise
    IndexError on the first element of the empty file list instead of
    returning; the lock sentinel they created is still in place. *)
Theorem series_without_files_raises_IndexError :
  let r := RouteSeries.route_series (config []) constants uuid_of parse_rule
             generate_taskfile_route generate_taskfile_process "XYZ"
             (world_of series_ABC) in
  let p := ProcessSeries.process_series (config []) uuid_of parse_rule monitor "XYZ"
             (world_of series_ABC) in
  RouteSeries.series_stems constants "XYZ"
    [Entry "ABC#1.dcm" "incoming/ABC#1.dcm" false;
     Entry "ABC#1.tags" "incoming/ABC#1.tags" false] = []
  ∧ fst r = Raise IndexError
  ∧ lookup_path ["incoming"; "XYZ.lock"] (fs (snd r)) = Some (File CEmpty)
  ∧ fst p = Raise IndexError
  ∧ lookup_path ["incoming"; "XYZ.lock"] (fs (snd p)) = Some (File CEmpty).
Proof. vm_compute. done. Qed.

(** The same at the point of the failure, for any world: with no matching
    tags file the indexing of the empty list raises. *)
Lemma route_series_locked_raises_without_files cfg C uuid_of parse_rule gtr gtp
    series_UID lock w es :
  lookup_path (PathOf (cfg_incoming_folder cfg)) (fs w) = Some (Dir es) →
  RouteSeries.series_stems C series_UID
    (map (λ '(name, n),
            Entry name (cfg_incoming_folder cfg +:+ "/" +:+ name) (is_dir_node n)) es)
  = [] →
  RouteSeries.route_series_locked cfg C uuid_of parse_rule gtr gtp series_UID lock w
  = (Raise IndexError, w).
Proof.
  intros Hdir Hnone.
  cbv [RouteSeries.route_series_locked bind scandir get_fs ret].
  rewrite Hdir. cbv beta iota. by rewrite Hnone.
Qed.

Lemma process_series_locked_raises_without_files cfg uuid_of parse_rule monitor
    series_UID lock w es :
  lookup_path (PathOf (cfg_incoming_folder cfg)) (fs w) = Some (Dir es) →
  ProcessSeries.series_stems series_UID
    (map (λ '(name, n),
            Entry name (cfg_incoming_folder cfg +:+ "/" +:+ name) (is_dir_node n)) es)
  = [] →
  ProcessSeries.process_series_locked cfg uuid_of parse_rule monitor series_UID lock w
  = (Raise IndexError, w).
Proof.
  intros Hdir Hnone.
  cbv [ProcessSeries.process_series_locked bind scandir get_fs ret].
  rewrite Hdir. cbv beta iota. by rewrite Hnone.
Qed.

(** C4, at the failing input: one triggered rule, a series-level NOTIFICATION
    rule.  The pass fires the reception webhook and then raises TypeError on
    [len(triggered_rules==1)]; the series files stay in the incoming folder. *)
Theorem notification_pass_raises_TypeError :
  let r := RouteSeries.push_serieslevel_notification (config [("n1", notify_rule)])
             constants [("n1", "n1")] ["ABC#1"] "ABC" ∅ (world_of series_ABC) in
  fst r = Raise TypeError
  ∧ log (snd r) = [AWebhook (VStr "http://hook") (VStr "") "RECEPTION"]
  ∧ fs (snd r) = fs (world_of series_ABC)
  ∧ lookup_path ["incoming"; "ABC#1.dcm"] (fs (snd r)) = Some (File (CData "pixels")).
Proof. vm_compute. done. Qed.

(** The pass raises as soon as it meets a series-level NOTIFICATION rule,
    whatever the configuration. *)
Lemma notification_pass_raises cfg C triggered_rules file_list series_UID tags_list w :
  Forall (λ r, is_Some (assoc r (cfg_rules cfg))) (keys triggered_rules) →
  Exists (λ r, ∃ rule, assoc r (cfg_rules cfg) = Some rule
                       ∧ RouteSeries.rule_trigger C rule = options_SERIES C
                       ∧ RouteSeries.rule_action C rule = actions_NOTIFICATION C)
    (keys triggered_rules) →
  fst (RouteSeries.push_serieslevel_notification cfg C triggered_rules file_list
         series_UID tags_list w) = Raise TypeError.
Proof.
  unfold RouteSeries.push_serieslevel_notification.
  generalize (keys triggered_rules). intros rs Hall Hex.
  revert w. induction Hex as [r rs (rule & Hr & Htrig & Hact)|r rs Hex IH]; intros w.
  - cbv [for_loop bind RouteSeries.rule_of ret
         RouteSeries.trigger_serieslevel_notification_reception
         RouteSeries.send_webhook emit lift py_len].
    rewrite Hr. cbv beta iota.
    rewrite (bool_decide_eq_true_2 _ Htrig), (bool_decide_eq_true_2 _ Hact).
    cbv beta iota. reflexivity.
  - apply Forall_cons in Hall as [[rule Hr] Hall].
    specialize (IH Hall).
    cbn [for_loop]. unfold bind at 1 2. unfold bind at 1.
    unfold RouteSeries.rule_of at 1. rewrite Hr. unfold ret at 1.
    destruct (bool_decide (RouteSeries.rule_trigger C rule = options_SERIES C)).
    + destruct (bool_decide (RouteSeries.rule_action C rule = actions_NOTIFICATION C)).
      * cbv [bind RouteSeries.rule_of ret
             RouteSeries.trigger_serieslevel_notification_reception
             RouteSeries.send_webhook emit lift py_len].
        by rewrite Hr.
      * cbv [ret]. unfold bind in IH. specialize (IH w).
        destruct (for_loop rs _ _ w) as [[[[] ?]|?] ?]; simpl in *; done.
    + cbv [ret]. unfold bind in IH. specialize (IH w).
      destruct (for_loop rs _ _ w) as [[[[] ?]|?] ?]; simpl in *; done.
Qed.

(** C7, at the failing input: the incoming folder holds a payload file and its
    error marker.  [route_error_files] raises TypeError while forming the lock
    path of the marker and leaves the world as it found it: nothing is locked,
    moved or reported. *)
Theorem route_error_files_raises_TypeError :
  RouteSeries.route_error_files (config []) constants SampleErrors.w0
  = (Raise TypeError, SampleErrors.w0).
Proof. vm_compute. reflexivity. Qed.

(** The lock path of an error file cannot be formed, whatever the name. *)
Lemma error_lock_path_is_ill_typed (incoming name lock_suffix : string) :
  match py_truediv (VStr incoming) (VStr name) with
  | Ret joined => py_add joined (VStr lock_suffix)
  | Raise e => Raise e
  end = Raise TypeError
  ∧ ∀ p, match py_truediv (VPath p) (VStr name) with
         | Ret joined => py_add joined (VStr lock_suffix)
         | Raise e => Raise e
         end = Raise TypeError.
Proof. split; [reflexivity | intros p; reflexivity]. Qed.

(** The sibling implementation of process_series.py quarantines the same
    folder as described. *)
Lemma process_error_files_quarantines :
  let r := ProcessSeries.process_error_files (config []) monitor SampleErrors.w0 in
  fst r = Ret tt
  ∧ log (snd r)
    = [ATouch ["incoming"; "ABC#1.dcm.error.lock"];
       AMove ["incoming"; "ABC#1.dcm.error"] ["error"; "ABC#1.dcm.error"];
       AMove ["incoming"; "ABC#1.dcm"] ["error"; "ABC#1.dcm"];
       AUnlink ["incoming"; "ABC#1.dcm.error.lock"];
       AEvent PROCESSING SEV_ERROR "Error parsing 1 incoming files"]
  ∧ lookup_path ["incoming"] (fs (snd r)) = Some (Dir [])
  ∧ lookup_path ["error"] (fs (snd r))
    = Some (Dir [("ABC#1.dcm.error", File (CData "unreadable header"));
                 ("ABC#1.dcm", File (CData "pixels"))]).
Proof. vm_compute. done. Qed.

(** A loop whose body raises, leaving the world alone, at the first element
    that satisfies [P], and passes over the others, raises likewise. *)
Lemma for_loop_raises_at_first {A S} (P : A → bool) (l : list A) (s : S)
    (body : S → A → M (flow * S)) (e : exn) w :
  Exists (λ x, P x = true) l →
  (∀ x, P x = true → body s x w = (Raise e, w)) →
  (∀ x, P x = false → body s x w = (Ret (Continue, s), w)) →
  for_loop l s body w = (Raise e, w).
Proof.
  intros Hex Hhit Hskip.
  induction Hex as [x l Hx|x l Hex IH]; cbn [for_loop]; unfold bind.
  - by rewrite (Hhit x Hx).
  - destruct (P x) eqn:Hx; [by rewrite (Hhit x Hx)|].
    by rewrite (Hskip x Hx).
Qed.

(** Whenever the scan meets an error file, [route_error_files] raises before
    anything is locked, moved or reported. *)
Lemma route_error_files_raises cfg C w es :
  lookup_path (PathOf (cfg_incoming_folder cfg)) (fs w) = Some (Dir es) →
  Exists (λ '(name, n), endswith name ".error" && negb (is_dir_node n) = true) es →
  RouteSeries.route_error_files cfg C w = (Raise TypeError, w).
Proof.
  intros Hdir Hex.
  unfold RouteSeries.route_error_files, bind at 1, scandir, bind at 1, get_fs.
  rewrite Hdir. unfold ret at 1. unfold bind at 1.
  rewrite (for_loop_raises_at_first
             (λ entry, endswith (entry_name entry) ".error"
                       && negb (entry_is_dir entry))
             _ _ _ TypeError); [done | | |].
  - apply Exists_fmap. eapply Exists_impl; [exact Hex|]. by intros [name n].
  - intros entry Hentry. unfold RouteSeries.route_error_files_entry.
    by rewrite Hentry.
  - intros entry Hentry. unfold RouteSeries.route_error_files_entry.
    by rewrite Hentry.
Qed.


(** A second scan of the claimed folder submits nothing. *)
Example claimed_folder_is_not_resubmitted :
  let w1 := snd (sample_dispatch SampleDispatch.w_ready) in
  lookup_path ["outgoing"; "f1"; ".sending"] (fs w1) = Some (File CEmpty)
  ∧ new_log w1 (snd (sample_dispatch w1)) = []
  ∧ queue (snd (sample_dispatch w1)) = [SampleDispatch.the_job].
Proof. vm_compute. done. Qed.


(** Two triggered ROUTE rules that select the same target stage one folder. *)
Example two_rules_one_target_one_folder :
  let r := RouteSeries.push_serieslevel_routing
             (config [("r1", route_rule "t1"); ("r2", route_rule "t1")])
             constants uuid_of generate_taskfile_route
             [("r1", "r1"); ("r2", "r2")] ["ABC#1"] "ABC" ∅ (world_of series_ABC) in
  fst r = Ret tt
  ∧ staged_targets (log (snd r)) = [VStr "t1"]
  ∧ lookup_path ["outgoing"] (fs (snd r))
    = Some (Dir [("uuid-0",
                  Dir [("task.json",
                        File (CJson (generate_taskfile_route "ABC" (VStr "series")
                                       "r2" ∅ (VStr "t1"))));
                       ("ABC#1.dcm", File (CData "pixels"));
                       ("ABC#1.tags", File (CJson ∅))])]).
Proof. vm_compute. done. Qed.

(** * Further properties of the code *)

(** ** The event sink and the transfer command *)

(** X1: The bookkeeper address of a [Monitor] is the text http:// followed
    by the configured address, so it is never empty: the guard on an empty
    address at the head of [send_event], [send_series_event] and
    [send_register_seriese] is never taken, and each call returns normally
    after posting exactly one payload. *)
Theorem bookkeeper_guard_is_never_taken m :
  bookkeeper_address m ≠ ""
  ∧ (∀ e sev d w, send_event m e sev d w = (Ret tt, add_log (AEvent e sev d) w))
  ∧ (∀ e uid n target info w,
       send_series_event m e uid n target info w
       = (Ret tt, add_log (ASeries e uid n target info) w))
  ∧ (∀ tags w, send_register_seriese m tags w = (Ret tt, add_log (ARegister tags) w)).
Proof. split_and!; [done | reflexivity..]. Qed.

(** X2: When the task descriptor lacks [target_ip], [target_port] or
    [target_aet_target], [execute] raises KeyError while composing the
    command, before the transfer tool is run: the world is left as it was,
    so nothing is logged and the claimed folder keeps its [.sending]
    sentinel. *)
Theorem execute_rejects_incomplete_descriptor run_process isoformat target_info
    folder success_folder error_folder retry_max retry_delay monitor w :
  target_info !! "target_ip" = None
  ∨ target_info !! "target_port" = None
  ∨ target_info !! "target_aet_target" = None →
  execute run_process isoformat target_info folder success_folder error_folder
    retry_max retry_delay monitor w
  = (Raise KeyError, w).
Proof.
  intros Hmiss. unfold execute, bind, lift, _create_command, dict_item.
  destruct Hmiss as [H|[H|H]]; rewrite H; by repeat case_match; simplify_eq.
Qed.

(** X2, witness: the sample descriptor without its port. *)
Lemma execute_rejects_incomplete_descriptor_witness :
  (delete "target_port" Sample.task : dict) !! "target_port" = None
  ∧ execute (Sample.tool 0) Sample.isoformat (delete "target_port" Sample.task)
      Sample.folder ["success"] ["error"] 3 60 Sample.monitor Sample.w0
    = (Raise KeyError, Sample.w0).
Proof.
  assert ((delete "target_port" Sample.task : dict) !! "target_port" = None) as Hmiss
    by apply lookup_delete_eq.
  split; [exact Hmiss|].
  exact (execute_rejects_incomplete_descriptor (Sample.tool 0) Sample.isoformat
           (delete "target_port" Sample.task) Sample.folder ["success"] ["error"] 3 60
           Sample.monitor Sample.w0 (or_intror (or_introl Hmiss))).
Defined.

(** ** Loops, ordered dictionaries and the directory tree *)

Lemma prefix_snoc_inv {A} (p q : list A) x :
  p `prefix_of` q ++ [x] → p `prefix_of` q ∨ p = q ++ [x].
Proof.
  intros [k Hk]. destruct k as [|y k _] using rev_ind.
  - right. by rewrite app_nil_r in Hk.
  - left. rewrite app_assoc in Hk. apply app_inj_tail in Hk as [-> _].
    by exists k.
Qed.

Lemma lookup_prefix_is_Some p q t n :
  lookup_path q t = Some n → p `prefix_of` q → is_Some (lookup_path p t).
Proof.
  intros Hq [k ->]. rewrite lookup_path_app in Hq.
  destruct (lookup_path p t); [by eexists | done].
Qed.

Section odict_more.
Context {K A : Type} `{EqDecision K}.
Implicit Types (k : K) (v : A) (l : list (K * A)).

Lemma assoc_del_eq k l : NoDup (keys l) → assoc k (assoc_del k l) = None.
  Proof.
    induction l as [|[k0 v0] l IH]; simpl; [done|].
    intros Hnd. apply NoDup_cons in Hnd as [Hk0 Hnd].
    destruct (bool_decide (k = k0)) eqn:E.
    - apply bool_decide_eq_true_1 in E. subst k0.
      destruct (assoc k l) eqn:El; [|done].
      by apply assoc_Some_keys in El.
    - simpl. rewrite E. by apply IH.
  Qed.

Lemma assoc_del_set_fresh k v l : assoc k l = None → assoc_del k (assoc_set k v l) = l.
  Proof.
    induction l as [|[k0 v0] l IH]; simpl.
    - by rewrite bool_decide_eq_true_2.
    - destruct (bool_decide (k = k0)) eqn:E; [done|].
      intros Hl. simpl. rewrite E. by rewrite IH.
  Qed.

Lemma assoc_set_set k v v' l : assoc_set k v (assoc_set k v' l) = assoc_set k v l.
  Proof.
    induction l as [|[k0 v0] l IH]; simpl.
    - by rewrite bool_decide_eq_true_2.
    - destruct (bool_decide (k = k0)) eqn:E; simpl; rewrite E; [done|].
      by rewrite IH.
  Qed.

Lemma assoc_set_same k v l : assoc k l = Some v → assoc_set k v l = l.
  Proof.
    induction l as [|[k0 v0] l IH]; simpl; [done|].
    destruct (bool_decide (k = k0)) eqn:E.
    - by intros [= ->].
    - intros Hl. by rewrite IH.
  Qed.

Lemma elem_of_assoc_set k v l k' v' :
    (k', v') ∈ assoc_set k v l → (k', v') = (k, v) ∨ (k', v') ∈ l.
  Proof.
    induction l as [|[k0 v0] l IH]; simpl.
    - intros Hin. apply list_elem_of_singleton in Hin. by left.
    - destruct (bool_decide (k = k0)) eqn:E.
      + apply bool_decide_eq_true_1 in E. subst k0.
        intros Hin. apply elem_of_cons in Hin as [Hin|Hin]; [by left|].
        right. by apply list_elem_of_further.
      + intros Hin. apply elem_of_cons in Hin as [Hin|Hin].
        * right. rewrite Hin. apply list_elem_of_here.
        * destruct (IH Hin) as [?|?]; [by left|]. right. by apply list_elem_of_further.
  Qed.
End odict_more.


(** A loop whose body never raises from states in [I], keeps [I] while it goes
    on and establishes [J] when it stops, ends normally in [J]. *)
Lemma for_loop_invariant {A S} (I J : S → world → Prop) (l : list A) (s : S)
    (body : S → A → M (flow * S)) w :
  I s w →
  (∀ s w, I s w → J s w) →
  (∀ s x w, I s w →
     ∃ f s' w', body s x w = (Ret (f, s'), w')
                ∧ match f with Continue => I s' w' | _ => J s' w' end) →
  ∃ f s' w', for_loop l s body w = (Ret (f, s'), w') ∧ J s' w'.
Proof.
  intros Hs HIJ Hbody. revert s w Hs.
  induction l as [|x l IH]; intros s w Hs; cbn [for_loop].
  - exists Continue, s, w. split; [done | by apply HIJ].
  - destruct (Hbody s x w Hs) as (f & s1 & w1 & Hrun & Hafter).
    unfold bind. rewrite Hrun.
    destruct f; [by apply IH | |]; eexists _, _, _; (split; [reflexivity | exact Hafter]).
Qed.

(** A loop whose body passes over every element leaves everything as it is. *)
Lemma for_loop_passes_over {A S} (l : list A) (s : S) (body : S → A → M (flow * S)) w :
  Forall (λ x, body s x w = (Ret (Continue, s), w)) l →
  for_loop l s body w = (Ret (Continue, s), w).
Proof.
  induction 1 as [|x l Hx _ IH]; cbn [for_loop]; [done|].
  unfold bind. by rewrite Hx.
Qed.

(** Removing an entry of a directory whose names are distinct leaves nothing
    under that name. *)
Lemma lookup_put_removed f a t t1 siblings :
  put (f ++ [a]) None t = Some t1 →
  lookup_path f t = Some (Dir siblings) →
  NoDup (keys siblings) →
  lookup_path (f ++ [a]) t1 = None.
Proof.
  intros Hput Hf Hnd.
  rewrite lookup_path_app, (lookup_put_parent _ _ _ _ _ _ Hput Hf). simpl.
  by rewrite assoc_del_eq.
Qed.

(** [shutil.move] of an existing entry to a free name in an existing directory
    that does not lie under the entry. *)
Lemma shutil_move_to_free_name src dst name w n es :
  lookup_path src (fs w) = Some n →
  lookup_path dst (fs w) = Some (Dir es) →
  ¬ src `prefix_of` dst →
  lookup_path (dst ++ [name]) (fs w) = None →
  ∃ t1 t2,
    put src None (fs w) = Some t1
    ∧ put (dst ++ [name]) (Some n) t1 = Some t2
    ∧ shutil_move src (dst ++ [name]) w
      = (Ret tt, add_log (AMove src (dst ++ [name])) (set_fs t2 w)).
Proof.
  intros Hsrc Hdst Hnp Hfree.
  assert (src ≠ []) as Hne by (intros ->; apply Hnp, prefix_nil).
  destruct (exists_last Hne) as (f & a & Hfa).
  assert (is_Some (put src None (fs w))) as [t1 Ht1].
  { rewrite Hfa. eapply put_over_existing. by rewrite <- Hfa. }
  destruct (put_keeps_dirs _ _ _ _ _ _ Ht1 Hdst Hnp) as [es' Hdst1].
  assert (is_Some (put (dst ++ [name]) (Some n) t1)) as [t2 Ht2].
  { apply put_is_Some. split; [by destruct dst|].
    rewrite removelast_last. by eexists. }
  exists t1, t2. split_and!; [done..|].
  cbv [shutil_move rename bind get_fs update_fs ret raise].
  by rewrite Hfree, Hsrc, Hfree, Ht1, Ht2.
Qed.

Lemma _move_sent_directory_run isoformat src dst monitor w :
  _move_sent_directory isoformat src dst monitor w
  = try_except
      (shutil_move src (dst ++ [landing_name isoformat src dst w]);;
       unlink (dst ++ [landing_name isoformat src dst w] ++ [".sending"]))
      (λ _, send_event monitor PROCESSING SEV_ERROR
              ("Error moving " +:+ path_str src +:+ " to " +:+ path_str dst)) w.
Proof.
  unfold _move_sent_directory, landing_name, try_except, bind at 1, path_exists,
    bind at 1, get_fs, ret.
  destruct (lookup_path (dst ++ [path_name src]) (fs w)); [|done].
  unfold bind at 1, time_time. by rewrite <- app_assoc.
Qed.

Lemma _move_sent_directory_returns isoformat src dst monitor w :
  fst (_move_sent_directory isoformat src dst monitor w) = Ret tt.
Proof.
  unfold _move_sent_directory, try_except.
  match goal with |- context [match ?c w with _ => _ end] => destruct (c w) as [[[]|e] w1] end;
    [done|].
  by rewrite send_event_run.
Qed.

(** The move itself, for a folder that holds a [.sending] sentinel. *)
Lemma _move_sent_directory_moves isoformat src dst monitor w listing c es :
  lookup_path src (fs w) = Some (Dir listing) →
  assoc ".sending" listing = Some (File c) →
  lookup_path dst (fs w) = Some (Dir es) →
  ¬ src `prefix_of` dst → ¬ dst `prefix_of` src →
  lookup_path (dst ++ [landing_name isoformat src dst w]) (fs w) = None →
  let target := dst ++ [landing_name isoformat src dst w] in
  ∃ t1 t2 t3,
    put src None (fs w) = Some t1
    ∧ put target (Some (Dir listing)) t1 = Some t2
    ∧ put (target ++ [".sending"]) None t2 = Some t3
    ∧ _move_sent_directory isoformat src dst monitor w
      = (Ret tt,
         add_log (AUnlink (target ++ [".sending"]))
           (set_fs t3 (add_log (AMove src target) (set_fs t2 w))))
    ∧ lookup_path target t3 = Some (Dir (assoc_del ".sending" listing)).
Proof.
  intros Hsrc Hsending Hdst Hnp Hnp' Hfree target.
  destruct (shutil_move_to_free_name src dst _ w _ _ Hsrc Hdst Hnp Hfree)
    as (t1 & t2 & Ht1 & Ht2 & Hmove).
  fold target in Ht2, Hmove.
  pose proof (lookup_put_eq _ _ _ _ Ht2) as Htarget2.
  assert (lookup_path (target ++ [".sending"]) t2 = Some (File c)) as Hsent2.
  { rewrite lookup_path_app, Htarget2. simpl. by rewrite Hsending. }
  destruct (put_over_existing target ".sending" None t2 _ Hsent2) as [t3 Ht3].
  exists t1, t2, t3. split_and!; [done..| |].
  - rewrite _move_sent_directory_run. fold target.
    unfold try_except, bind at 1. rewrite Hmove.
    replace (dst ++ [landing_name isoformat src dst w] ++ [".sending"])
      with (target ++ [".sending"]) by (unfold target; by rewrite <- app_assoc).
    cbv [unlink bind get_fs update_fs]. cbn [fs add_log set_fs].
    by rewrite Hsent2, Ht3.
  - by rewrite (lookup_put_parent _ _ _ _ _ _ Ht3 Htarget2).
Qed.

(** ** Filing a folder *)

(** X3: [_move_sent_directory] never raises: every error of the move and of
    the removal of the sentinel is caught. When the source folder does not
    exist it sends the PROCESSING/ERROR event that names the source and the
    destination, and changes nothing else. *)
Theorem _move_sent_directory_never_raises isoformat source_folder
    destination_folder monitor w :
  fst (_move_sent_directory isoformat source_folder destination_folder monitor w)
  = Ret tt
  ∧ (lookup_path source_folder (fs w) = None →
     _move_sent_directory isoformat source_folder destination_folder monitor w
     = (Ret tt,
        add_log (AEvent PROCESSING SEV_ERROR
                   ("Error moving " +:+ path_str source_folder +:+ " to "
                    +:+ path_str destination_folder)) w)).
Proof.
  split; [apply _move_sent_directory_returns|].
  intros Hgone. rewrite _move_sent_directory_run.
  cbv [try_except bind shutil_move rename get_fs raise].
  by repeat case_match; simplify_eq.
Qed.

Lemma _move_sent_directory_lands isoformat source_folder
    destination_folder monitor w listing c es siblings :
  lookup_path source_folder (fs w) = Some (Dir listing) →
  assoc ".sending" listing = Some (File c) →
  lookup_path (path_parent source_folder) (fs w) = Some (Dir siblings) →
  NoDup (keys siblings) →
  lookup_path destination_folder (fs w) = Some (Dir es) →
  ¬ source_folder `prefix_of` destination_folder →
  ¬ destination_folder `prefix_of` source_folder →
  lookup_path
    (destination_folder
     ++ [landing_name isoformat source_folder destination_folder w]) (fs w)
  = None →
  let landing := landing_name isoformat source_folder destination_folder w in
  let w' := snd (_move_sent_directory isoformat source_folder destination_folder
                   monitor w) in
  lookup_path (destination_folder ++ [landing]) (fs w')
  = Some (Dir (assoc_del ".sending" listing))
  ∧ lookup_path source_folder (fs w') = None
  ∧ (∀ other rest, other ≠ landing →
       lookup_path (destination_folder ++ other :: rest) (fs w')
       = lookup_path (destination_folder ++ other :: rest) (fs w))
  ∧ log w'
    = log w ++ [AMove source_folder (destination_folder ++ [landing]);
                AUnlink (destination_folder ++ [landing] ++ [".sending"])].
Proof.
  intros Hsrc Hsending Hparent Hnd Hdst Hnp Hnp' Hfree landing w'.
  destruct (_move_sent_directory_moves isoformat _ _ monitor _ _ _ _
              Hsrc Hsending Hdst Hnp Hnp' Hfree)
    as (t1 & t2 & t3 & Ht1 & Ht2 & Ht3 & Hrun & Hlanded).
  fold landing in Ht2, Ht3, Hrun, Hlanded, Hfree.
  set (target := destination_folder ++ [landing]) in *.
  assert (¬ target `prefix_of` source_folder) as Hts.
  { intros Hpre. apply Hnp'. by eapply prefix_app_l. }
  assert (¬ source_folder `prefix_of` target) as Hst.
  { intros Hpre. apply prefix_snoc_inv in Hpre as [?|Heq]; [done|].
    rewrite Heq in Hsrc. fold target in Hsrc. congruence. }
  subst w'. rewrite Hrun. cbn [snd fs add_log set_fs log].
  split_and!.
  - exact Hlanded.
  - rewrite (lookup_put_other _ _ _ _ source_folder Ht3),
      (lookup_put_other _ _ _ _ source_folder Ht2); [|done..| |].
    + assert (source_folder ≠ []) as Hne by (intros ->; apply Hnp, prefix_nil).
      destruct (exists_last Hne) as (f & a & Hfa).
      rewrite Hfa in Ht1, Hparent |- *.
      unfold path_parent in Hparent. rewrite removelast_last in Hparent.
      by eapply lookup_put_removed.
    + intros Hpre. apply Hts. by eapply prefix_app_l.
    + intros Hpre. apply prefix_snoc_inv in Hpre as [?|Heq]; [done|].
      apply Hts. rewrite Heq. by apply prefix_app_r.
  - intros other rest Hother.
    set (p := destination_folder ++ other :: rest).
    assert (¬ target `prefix_of` p) as Htp.
    { intros Hpre. apply prefix_app_inv in Hpre as [k Hk]. simpl in Hk. congruence. }
    assert (¬ p `prefix_of` target) as Hpt.
    { intros Hpre. apply prefix_app_inv in Hpre as [k Hk]. simpl in Hk. congruence. }
    rewrite (lookup_put_other _ _ _ _ p Ht3), (lookup_put_other _ _ _ _ p Ht2),
      (lookup_put_other _ _ _ _ p Ht1); [done | | |done|done| |].
    + intros Hpre.
      destruct (prefix_weak_total source_folder destination_folder p Hpre);
        [by apply prefix_app_r | done | done].
    + intros Hpre. apply Hnp'. by eapply prefix_app_l.
    + intros Hpre. apply Htp. by eapply prefix_app_l.
    + intros Hpre. apply prefix_snoc_inv in Hpre as [?|Heq]; [done|].
      apply Htp. rewrite Heq. by apply prefix_app_r.
  - unfold target. by rewrite <- !app_assoc.
Qed.

(** X4: When the folder holds a [.sending] sentinel, the destination is an
    existing directory, neither lies under the other, and the landing name
    (the folder's own name, or the name with the timestamp appended when the
    name is taken in the destination) is free, [_move_sent_directory] files
    the folder under the landing name with its contents minus the sentinel,
    removes it from its old place, leaves every other entry of the
    destination as it was, and logs exactly the move and the removal of the
    sentinel. *)
Theorem sent_folder_lands_under_a_free_name isoformat source_folder
    destination_folder monitor w listing c es siblings :
  lookup_path source_folder (fs w) = Some (Dir listing) →
  assoc ".sending" listing = Some (File c) →
  lookup_path (path_parent source_folder) (fs w) = Some (Dir siblings) →
  NoDup (keys siblings) →
  lookup_path destination_folder (fs w) = Some (Dir es) →
  ¬ source_folder `prefix_of` destination_folder →
  ¬ destination_folder `prefix_of` source_folder →
  lookup_path
    (destination_folder
     ++ [landing_name isoformat source_folder destination_folder w]) (fs w)
  = None →
  let landing := landing_name isoformat source_folder destination_folder w in
  let w' := snd (_move_sent_directory isoformat source_folder destination_folder
                   monitor w) in
  lookup_path (destination_folder ++ [landing]) (fs w')
  = Some (Dir (assoc_del ".sending" listing))
  ∧ lookup_path source_folder (fs w') = None
  ∧ (∀ other rest, other ≠ landing →
       lookup_path (destination_folder ++ other :: rest) (fs w')
       = lookup_path (destination_folder ++ other :: rest) (fs w))
  ∧ log w'
    = log w ++ [AMove source_folder (destination_folder ++ [landing]);
                AUnlink (destination_folder ++ [landing] ++ [".sending"])].
Proof. apply _move_sent_directory_lands. Qed.

(** X4, witness: the success folder already holds a folder f1; the claimed
    folder f1 lands beside it as f1_1000 and the earlier folder is
    untouched. *)
Lemma sent_folder_lands_under_a_free_name_witness :
  let w := SampleCollision.w0 in
  let w' := snd (_move_sent_directory Sample.isoformat ["outgoing"; "f1"] ["success"]
                   Sample.monitor w) in
  landing_name Sample.isoformat ["outgoing"; "f1"] ["success"] w = "f1_1000"
  ∧ lookup_path ["outgoing"; "f1"] (fs w) = Some Sample.claimed_folder
  ∧ lookup_path ["success"; "f1_1000"] (fs w')
    = Some (Dir (assoc_del ".sending"
                   [("ABC#1.dcm", File (CData "pixels"));
                    ("ABC#1.tags", File (CJson ∅));
                    ("target.json", File (CJson Sample.task));
                    (".sending", File CEmpty)]))
  ∧ lookup_path ["outgoing"; "f1"] (fs w') = None
  ∧ lookup_path (["success"] ++ "f1" :: []) (fs w')
    = Some SampleCollision.earlier_folder.
Proof.
  intros w w'.
  assert (landing_name Sample.isoformat ["outgoing"; "f1"] ["success"] w = "f1_1000")
    as Hname by (vm_compute; reflexivity).
  assert (lookup_path ["outgoing"; "f1"] (fs w) = Some Sample.claimed_folder)
    as Hsrc by reflexivity.
  assert (¬ ["outgoing"; "f1"] `prefix_of` ["success"]) as Hnp
    by (intros [k Hk]; discriminate).
  assert (¬ ["success"] `prefix_of` ["outgoing"; "f1"]) as Hnp'
    by (intros [k Hk]; discriminate).
  assert ("f1" ≠ landing_name Sample.isoformat ["outgoing"; "f1"] ["success"] w)
    as Hother by (rewrite Hname; discriminate).
  pose proof (sent_folder_lands_under_a_free_name Sample.isoformat
                ["outgoing"; "f1"] ["success"] Sample.monitor w _ CEmpty
                [("f1", SampleCollision.earlier_folder)]
                [("f1", Sample.claimed_folder)]
                Hsrc eq_refl eq_refl (NoDup_singleton _) eq_refl Hnp Hnp'
                ltac:(vm_compute; reflexivity)) as H.
  cbv zeta in H. rewrite Hname in H. destruct H as (Hland & Hgone & Hrest & _).
  split_and!; [exact Hname | exact Hsrc | exact Hland | exact Hgone |].
  rewrite Hname in Hother. exact (Hrest "f1" [] Hother).
Defined.

(** ** Failed transfers *)

Lemma execute_failure_from run_process isoformat target_info folder success_folder
    error_folder retry_max retry_delay monitor w command returncode w1 :
  _create_command target_info folder = Ret command →
  run_process command w = (returncode, w1) →
  returncode ≠ 0 →
  execute run_process isoformat target_info folder success_folder error_folder
    retry_max retry_delay monitor w
  = after_failure_reports isoformat target_info folder error_folder retry_max
      retry_delay monitor
      (World (fs w1) (log w1 ++ failure_reports target_info returncode) (now w1)
         (queue w1) (uuid_ctr w1) (terminated w1)).
Proof.
  intros Hcmd Hrun Hrc.
  rewrite (execute_failure _ _ _ _ _ _ _ _ _ _ _ _ _ Hcmd Hrun Hrc).
  f_equal. unfold add_log, failure_reports. cbn [fs log now queue uuid_ctr terminated].
  by rewrite <- app_assoc.
Qed.



(** X6: When the tool fails and the retry count [r] read from [target.json]
    satisfies [r + 1 < retry_max], [execute] returns normally and releases
    the folder for the next scan: the [.sending] sentinel is removed,
    [target.json] holds [retries = r + 1] and [next_retry_at = now +
    retry_delay], every other entry of the folder is as before, and the log
    receives the two failure reports, the write of the descriptor and the
    removal of the sentinel, in this order. *)
Theorem failed_transfer_below_max_releases_folder run_process isoformat
    target_info folder success_folder error_folder retry_max retry_delay monitor
    w command returncode w1 listing d c r :
  _create_command target_info folder = Ret command →
  run_process command w = (returncode, w1) →
  returncode ≠ 0 →
  lookup_path folder (fs w1) = Some (Dir listing) →
  assoc "target.json" listing = Some (File (CJson d)) →
  assoc ".sending" listing = Some (File c) →
  dict_get d "retries" (VInt 0) = VInt r →
  r + 1 < retry_max →
  let d' := <["next_retry_at" := VInt (now w1 + retry_delay)]>
              (<["retries" := VInt (r + 1)]> d) in
  let res := execute run_process isoformat target_info folder success_folder
               error_folder retry_max retry_delay monitor w in
  fst res = Ret tt
  ∧ lookup_path folder (fs (snd res))
    = Some (Dir (assoc_del ".sending"
                   (assoc_set "target.json" (File (CJson d')) listing)))
  ∧ log (snd res)
    = log w1 ++ failure_reports target_info returncode
      ++ [AWrite (folder ++ ["target.json"]) (CJson d');
          AUnlink (folder ++ [".sending"])].
Proof.
  intros Hcmd Hrun Hrc Hfolder Hjson Hsending Hr Hlt d' res. subst res.
  rewrite (execute_failure_from _ _ _ _ _ _ _ _ _ _ _ _ _ Hcmd Hrun Hrc).
  assert (lookup_path (folder ++ ["target.json"]) (fs w1) = Some (File (CJson d)))
    as Hfile.
  { rewrite lookup_path_app, Hfolder. simpl. by rewrite Hjson. }
  destruct (put_over_existing folder "target.json" (Some (File (CJson d')))
              (fs w1) _ Hfile) as [t1 Ht1].
  pose proof (lookup_put_parent _ _ _ _ _ _ Ht1 Hfolder) as Hfolder1.
  assert (lookup_path (folder ++ [".sending"]) t1 = Some (File c)) as Hsent1.
  { rewrite lookup_path_app, Hfolder1. simpl.
    rewrite assoc_set_ne by discriminate. by rewrite Hsending. }
  destruct (put_over_existing folder ".sending" None t1 _ Hsent1) as [t2 Ht2].
  pose proof (lookup_put_parent _ _ _ _ _ _ Ht2 Hfolder1) as Hfolder2.
  apply Z.leb_gt in Hlt.
  cbv [after_failure_reports _increase_retry bind read_json get_fs lift time_time
       write_json update_fs ret raise unlink].
  cbn [fs now]. rewrite Hfile, Hr. cbn [py_add_int]. rewrite Hlt.
  cbn [fs now]. fold d'. rewrite Hfile, Ht1. cbn [fs add_log set_fs].
  rewrite Hsent1, Ht2. cbn [fst snd fs log add_log set_fs].
  split_and!; [done | exact Hfolder2 | by rewrite <- !app_assoc].
Qed.

(** X6, witness: exit code 62 on the sample folder, whose counter is at 1,
    with [retry_max = 3]. *)
Lemma failed_transfer_below_max_releases_folder_witness :
  let res := execute (Sample.tool 62) Sample.isoformat Sample.task Sample.folder
               ["success"] ["error"] 3 60 Sample.monitor Sample.w0 in
  let d' := <["next_retry_at" := VInt (now Sample.w0 + 60)]>
              (<["retries" := VInt (1 + 1)]> Sample.task) in
  lookup_path Sample.folder (fs Sample.w0) = Some Sample.claimed_folder
  ∧ dict_get Sample.task "retries" (VInt 0) = VInt 1
  ∧ 1 + 1 < 3
  ∧ fst res = Ret tt
  ∧ lookup_path Sample.folder (fs (snd res))
    = Some (Dir (assoc_del ".sending"
                   (assoc_set "target.json" (File (CJson d'))
                      [("ABC#1.dcm", File (CData "pixels"));
                       ("ABC#1.tags", File (CJson ∅));
                       ("target.json", File (CJson Sample.task));
                       (".sending", File CEmpty)])))
  ∧ log (snd res)
    = log Sample.w0 ++ failure_reports Sample.task 62
      ++ [AWrite (Sample.folder ++ ["target.json"]) (CJson d');
          AUnlink (Sample.folder ++ [".sending"])].
Proof.
  intros res d'.
  assert (1 + 1 < 3) as Hlt by lia.
  split_and!; [reflexivity | reflexivity | exact Hlt |..];
    apply (failed_transfer_below_max_releases_folder (Sample.tool 62)
             Sample.isoformat Sample.task Sample.folder ["success"] ["error"] 3 60
             Sample.monitor Sample.w0 Sample.command 62 Sample.w0 _ Sample.task
             CEmpty 1 eq_refl eq_refl ltac:(lia) eq_refl eq_refl eq_refl eq_refl Hlt).
Defined.

Lemma path_name_snoc p a : path_name (p ++ [a]) = a.
Proof. unfold path_name. by rewrite last_last. Qed.

Lemma path_name_snoc2 p a b : path_name (p ++ [a; b]) = b.
Proof. change [a; b] with ([a] ++ [b]). rewrite app_assoc. apply path_name_snoc. Qed.

Lemma _move_sent_directory_trace isoformat src dst monitor w :
  ∃ moving,
    log (snd (_move_sent_directory isoformat src dst monitor w)) = log w ++ moving
    ∧ Forall (move_step src dst) moving.
Proof.
  rewrite _move_sent_directory_run.
  replace (dst ++ [landing_name isoformat src dst w] ++ [".sending"])
    with ((dst ++ [landing_name isoformat src dst w]) ++ [".sending"])
    by (by rewrite <- app_assoc).
  cbv [try_except bind shutil_move rename get_fs update_fs raise unlink ret].
  repeat case_match; simplify_eq;
    rewrite ?send_event_run; cbn [snd log add_log set_fs fs];
    rewrite <- ?app_assoc; cbn [app];
    (eexists; split; [reflexivity|]);
    repeat (apply Forall_cons; split; [first [done | apply path_name_snoc | apply path_name_snoc2]|]);
    apply Forall_nil_2.
Qed.

(** X7: When the tool fails and the retry count [r] of [target.json]
    satisfies [retry_max <= r + 1], [execute] returns normally and logs, in
    this order: the two failure reports, the SUSPEND series event with the
    reason Max retries reached, the steps of filing the folder in the error
    folder (the move and the removal of the sentinel, or the report of a
    failed move), the MOVE series event naming the error folder, and the
    PROCESSING/ERROR event Series suspended after reaching max retries. The
    MOVE event is sent whether or not the move succeeded. *)
Theorem give_up_reports_suspension_and_move run_process isoformat target_info
    folder success_folder error_folder retry_max retry_delay monitor w command
    returncode w1 d r :
  _create_command target_info folder = Ret command →
  run_process command w = (returncode, w1) →
  returncode ≠ 0 →
  persisted_descriptor (fs w1) folder = Some d →
  dict_get d "retries" (VInt 0) = VInt r →
  retry_max ≤ r + 1 →
  let series_uid := dict_get target_info "series_uid" (VStr "series_uid-missing") in
  let target_name := dict_get target_info "target_name" (VStr "target_name-missing") in
  let res := execute run_process isoformat target_info folder success_folder
               error_folder retry_max retry_delay monitor w in
  fst res = Ret tt
  ∧ ∃ moving,
      log (snd res)
      = log w1 ++ failure_reports target_info returncode
        ++ [ASeries SUSPEND series_uid 0 target_name (VStr "Max retries reached")]
        ++ moving
        ++ [ASeries MOVE series_uid 0 (VPath error_folder) (VStr "");
            AEvent PROCESSING SEV_ERROR "Series suspended after reaching max retries"]
      ∧ Forall (move_step folder error_folder) moving.
Proof.
  intros Hcmd Hrun Hrc Hd Hr Hle series_uid target_name res. subst res.
  rewrite (execute_failure_from _ _ _ _ _ _ _ _ _ _ _ _ _ Hcmd Hrun Hrc).
  set (w2 := World _ _ _ _ _ _).
  set (w3 := add_log (ASeries SUSPEND series_uid 0 target_name
                        (VStr "Max retries reached")) w2).
  destruct (_move_sent_directory_trace isoformat folder error_folder monitor w3)
    as (moving & Hlog & Hshape).
  assert (after_failure_reports isoformat target_info folder error_folder retry_max
            retry_delay monitor w2
          = (Ret tt,
             add_log (AEvent PROCESSING SEV_ERROR
                        "Series suspended after reaching max retries")
               (add_log (ASeries MOVE series_uid 0 (VPath error_folder) (VStr ""))
                  (snd (_move_sent_directory isoformat folder error_folder monitor
                          w3))))) as ->.
  { unfold after_failure_reports. unfold bind at 1.
    rewrite (_increase_retry_at_max folder retry_max retry_delay w2 d r Hd Hr Hle).
    unfold bind at 1. rewrite send_series_event_run. fold series_uid target_name w3.
    unfold bind at 1.
    pose proof (_move_sent_directory_returns isoformat folder error_folder monitor w3)
      as Hret.
    destruct (_move_sent_directory isoformat folder error_folder monitor w3)
      as [o w4].
    simpl in Hret. subst o.
    unfold bind at 1. by rewrite send_series_event_run, send_event_run. }
  cbn [fst snd]. split; [done|].
  exists moving. split; [|done].
  cbn [log add_log]. rewrite Hlog. subst w3 w2. cbn [log add_log].
  by rewrite <- !app_assoc.
Qed.

(** X7, witness: exit code 61 on the sample folder, whose counter is at 1,
    with [retry_max = 2]. *)
Lemma give_up_reports_suspension_and_move_witness :
  let res := execute (Sample.tool 61) Sample.isoformat Sample.task Sample.folder
               ["success"] ["error"] 2 60 Sample.monitor Sample.w0 in
  persisted_descriptor (fs Sample.w0) Sample.folder = Some Sample.task
  ∧ dict_get Sample.task "retries" (VInt 0) = VInt 1
  ∧ 2 ≤ 1 + 1
  ∧ fst res = Ret tt
  ∧ ∃ moving,
      log (snd res)
      = log Sample.w0 ++ failure_reports Sample.task 61
        ++ [ASeries SUSPEND (VStr "ABC") 0 (VStr "t1") (VStr "Max retries reached")]
        ++ moving
        ++ [ASeries MOVE (VStr "ABC") 0 (VPath ["error"]) (VStr "");
            AEvent PROCESSING SEV_ERROR "Series suspended after reaching max retries"]
      ∧ Forall (move_step Sample.folder ["error"]) moving.
Proof.
  intros res.
  assert (2 ≤ 1 + 1) as Hle by lia.
  split_and!; [reflexivity | reflexivity | exact Hle |..];
    apply (give_up_reports_suspension_and_move (Sample.tool 61) Sample.isoformat
             Sample.task Sample.folder ["success"] ["error"] 2 60 Sample.monitor
             Sample.w0 Sample.command 61 Sample.w0 Sample.task 1
             eq_refl eq_refl ltac:(lia) eq_refl eq_refl Hle).
Defined.

(** X8: When the tool fails at the last allowed attempt ([retry_max <= r +
    1]) and the error folder is an existing directory, apart from the
    claimed folder, in which the landing name is free, [execute] returns
    normally with the folder filed in the error folder under the landing
    name without its [.sending] sentinel and gone from its old place;
    [target.json] is filed unchanged (the counter on disk stays at [r]), and
    the log is exactly: the two failure reports, SUSPEND, the move, the
    removal of the sentinel, MOVE, and the suspension report. *)
Theorem give_up_quarantines_folder run_process isoformat target_info folder
    success_folder error_folder retry_max retry_delay monitor w command
    returncode w1 listing d c r es siblings :
  _create_command target_info folder = Ret command →
  run_process command w = (returncode, w1) →
  returncode ≠ 0 →
  lookup_path folder (fs w1) = Some (Dir listing) →
  assoc "target.json" listing = Some (File (CJson d)) →
  assoc ".sending" listing = Some (File c) →
  dict_get d "retries" (VInt 0) = VInt r →
  retry_max ≤ r + 1 →
  lookup_path (path_parent folder) (fs w1) = Some (Dir siblings) →
  NoDup (keys siblings) →
  lookup_path error_folder (fs w1) = Some (Dir es) →
  ¬ folder `prefix_of` error_folder →
  ¬ error_folder `prefix_of` folder →
  lookup_path (error_folder ++ [landing_name isoformat folder error_folder w1])
    (fs w1) = None →
  let landing := landing_name isoformat folder error_folder w1 in
  let series_uid := dict_get target_info "series_uid" (VStr "series_uid-missing") in
  let target_name := dict_get target_info "target_name" (VStr "target_name-missing") in
  let res := execute run_process isoformat target_info folder success_folder
               error_folder retry_max retry_delay monitor w in
  fst res = Ret tt
  ∧ lookup_path (error_folder ++ [landing]) (fs (snd res))
    = Some (Dir (assoc_del ".sending" listing))
  ∧ persisted_descriptor (fs (snd res)) (error_folder ++ [landing]) = Some d
  ∧ lookup_path folder (fs (snd res)) = None
  ∧ log (snd res)
    = log w1 ++ failure_reports target_info returncode
      ++ [ASeries SUSPEND series_uid 0 target_name (VStr "Max retries reached");
          AMove folder (error_folder ++ [landing]);
          AUnlink (error_folder ++ [landing] ++ [".sending"]);
          ASeries MOVE series_uid 0 (VPath error_folder) (VStr "");
          AEvent PROCESSING SEV_ERROR "Series suspended after reaching max retries"].
Proof.
  intros Hcmd Hrun Hrc Hfolder Hjson Hsending Hr Hle Hparent Hnd Herr Hnp Hnp' Hfree
    landing series_uid target_name res. subst res.
  rewrite (execute_failure_from _ _ _ _ _ _ _ _ _ _ _ _ _ Hcmd Hrun Hrc).
  set (w2 := World _ _ _ _ _ _).
  set (w3 := add_log (ASeries SUSPEND series_uid 0 target_name
                        (VStr "Max retries reached")) w2).
  assert (persisted_descriptor (fs w2) folder = Some d) as Hd.
  { unfold persisted_descriptor. cbn [fs w2].
    rewrite lookup_path_app, Hfolder. cbn [lookup_path]. by rewrite Hjson. }
  destruct (_move_sent_directory_lands isoformat folder error_folder monitor w3
              listing c es siblings Hfolder Hsending Hparent Hnd Herr Hnp Hnp' Hfree)
    as (Hland & Hgone & _ & Hlog).
  change (landing_name isoformat folder error_folder w3) with landing in *.
  assert (after_failure_reports isoformat target_info folder error_folder retry_max
            retry_delay monitor w2
          = (Ret tt,
             add_log (AEvent PROCESSING SEV_ERROR
                        "Series suspended after reaching max retries")
               (add_log (ASeries MOVE series_uid 0 (VPath error_folder) (VStr ""))
                  (snd (_move_sent_directory isoformat folder error_folder monitor
                          w3))))) as ->.
  { unfold after_failure_reports. unfold bind at 1.
    rewrite (_increase_retry_at_max folder retry_max retry_delay w2 d r Hd Hr Hle).
    unfold bind at 1. rewrite send_series_event_run. fold series_uid target_name w3.
    unfold bind at 1.
    pose proof (_move_sent_directory_returns isoformat folder error_folder monitor w3)
      as Hret.
    destruct (_move_sent_directory isoformat folder error_folder monitor w3)
      as [o w4].
    simpl in Hret. subst o.
    unfold bind at 1. by rewrite send_series_event_run, send_event_run. }
  cbn [fst snd fs log add_log].
  split_and!; [done | exact Hland | | exact Hgone |].
  - unfold persisted_descriptor. rewrite lookup_path_app, Hland. cbn [lookup_path].
    rewrite assoc_del_ne by discriminate. by rewrite Hjson.
  - rewrite Hlog. subst w3 w2. cbn [log add_log]. by rewrite <- !app_assoc.
Qed.

(** X8, witness: exit code 61 on the sample folder with [retry_max = 2]; the
    folder ends as error/f1 with the descriptor it had. *)
Lemma give_up_quarantines_folder_witness :
  let res := execute (Sample.tool 61) Sample.isoformat Sample.task Sample.folder
               ["success"] ["error"] 2 60 Sample.monitor Sample.w0 in
  lookup_path Sample.folder (fs Sample.w0) = Some Sample.claimed_folder
  ∧ dict_get Sample.task "retries" (VInt 0) = VInt 1
  ∧ 2 ≤ 1 + 1
  ∧ landing_name Sample.isoformat Sample.folder ["error"] Sample.w0 = "f1"
  ∧ fst res = Ret tt
  ∧ persisted_descriptor (fs (snd res)) (["error"] ++ ["f1"]) = Some Sample.task
  ∧ lookup_path Sample.folder (fs (snd res)) = None.
Proof.
  intros res.
  assert (2 ≤ 1 + 1) as Hle by lia.
  assert (¬ Sample.folder `prefix_of` ["error"]) as Hnp
    by (intros [k Hk]; discriminate).
  assert (¬ ["error"] `prefix_of` Sample.folder) as Hnp'
    by (intros [k Hk]; discriminate).
  pose proof (give_up_quarantines_folder (Sample.tool 61) Sample.isoformat
                Sample.task Sample.folder ["success"] ["error"] 2 60 Sample.monitor
                Sample.w0 Sample.command 61 Sample.w0 _ Sample.task CEmpty 1 []
                [("f1", Sample.claimed_folder)]
                eq_refl eq_refl ltac:(lia) eq_refl eq_refl eq_refl eq_refl Hle
                eq_refl (NoDup_singleton _) eq_refl Hnp Hnp' eq_refl) as H.
  cbv zeta in H. destruct H as (Hret & _ & Hdesc & Hgone & _).
  split_and!; [reflexivity | reflexivity | exact Hle | reflexivity
              | exact Hret | exact Hdesc | exact Hgone].
Defined.

(** ** Entries of the outgoing folder *)

Section scan_entry_facts.
Variable isoformat : Z → string.
Variable read_config : outcome Config.
Variable is_ready_for_sending : node → string → option dict.
Variable has_been_send : node → string → bool.
Variable is_target_json_valid : node → string → option dict.
Variable _monitor : Monitor.

(** X9: A directory entry of the outgoing folder that is ready for sending,
    carries no sent marker and whose [next_retry_at] is an integer later
    than the clock is passed over by the scan: the world is left as it is
    (nothing logged, no sentinel, no job), and the loop goes on unless
    termination has been requested. *)
Theorem folder_not_due_is_left_alone success_folder error_folder retry_max
    retry_delay entry w d z :
  entry_is_dir entry = true →
  has_been_send (fs w) (entry_path entry) = false →
  is_ready_for_sending (fs w) (entry_path entry) = Some d →
  dict_get d "next_retry_at" (VInt 0) = VInt z →
  now w < z →
  dispatch_entry isoformat is_ready_for_sending has_been_send
    is_target_json_valid _monitor success_folder error_folder retry_max
    retry_delay entry w
  = (Ret (next_step w), w).
  Proof.
    intros Hdir Hsent Hready Hdelay Hlater.
    cbv [dispatch_entry bind get_fs time_time lift isTerminated ret is_dir_method
         next_step].
    rewrite Hdir, Hsent, Hready, Hdelay. cbn [negb andb py_time_ge].
    apply Z.leb_gt in Hlater.
    destruct (info_truthy (Some d)); cbv beta; rewrite ?Hlater;
      by destruct (terminated w).
  Qed.

(** X10: A directory entry that is ready for sending with a non-empty
    descriptor, carries no sent marker and whose [next_retry_at] (0 when
    absent) is not later than the clock is claimed and submitted: the scan
    first sends the Missing information warning when [series_uid] or
    [target_name] is absent, then creates the [.sending] sentinel of the
    folder, then appends to the queue one job holding the descriptor, the
    folder, the success and error folders, the retry settings and the
    monitor; afterwards the sentinel exists. *)
Theorem due_folder_is_claimed_and_submitted success_folder error_folder
    retry_max retry_delay entry w d listing :
  entry_is_dir entry = true →
  has_been_send (fs w) (entry_path entry) = false →
  is_ready_for_sending (fs w) (entry_path entry) = Some d →
  d ≠ ∅ →
  py_time_ge (now w) (dict_get d "next_retry_at" (VInt 0)) = Ret true →
  lookup_path (PathOf (entry_path entry)) (fs w) = Some (Dir listing) →
  let j := Job d (PathOf (entry_path entry)) success_folder error_folder retry_max
             retry_delay _monitor in
  let sentinel := PathOf (entry_path entry) ++ [".sending"] in
  let r := dispatch_entry isoformat is_ready_for_sending has_been_send
    is_target_json_valid _monitor success_folder error_folder retry_max
    retry_delay entry w in
  fst r = Ret (next_step w)
  ∧ log (snd r)
    = log w ++ missing_information_warning d (entry_path entry)
      ++ [ATouch sentinel; AEnqueue j]
  ∧ queue (snd r) = queue w ++ [j]
  ∧ is_Some (lookup_path sentinel (fs (snd r))).
  Proof.
    intros Hdir Hsent Hready Hne Hdue Hfolder j sentinel r. subst r.
    assert (info_truthy (Some d) = true) as Htruthy.
    { simpl. by rewrite bool_decide_eq_false_2. }
    cbv [dispatch_entry bind get_fs time_time lift].
    rewrite Hdir, Hsent, Hready, Htruthy. cbn [negb andb]. cbv beta.
    rewrite Hdue. cbv beta iota.
    fold sentinel j. unfold missing_information_warning.
    assert (∀ w0 : world, fs w0 = fs w →
              ∃ t', touch sentinel w0 = (Ret tt, add_log (ATouch sentinel) (set_fs t' w0))
                    ∧ is_Some (lookup_path sentinel t')) as Htouch.
    { intros w0 Hfs. cbv [touch bind get_fs emit update_fs raise]. rewrite Hfs.
      destruct (lookup_path sentinel (fs w)) as [n|] eqn:Hthere.
      - exists (fs w). split; [|by eexists].
        unfold set_fs. rewrite <- Hfs. by destruct w0.
      - assert (is_Some (put sentinel (Some (File CEmpty)) (fs w))) as [t' Ht'].
        { apply put_is_Some. split; [by destruct (PathOf (entry_path entry))|].
          unfold sentinel. rewrite removelast_last. by eexists. }
        rewrite Ht'. exists t'. split; [done|].
        rewrite (lookup_put_eq _ _ _ _ Ht'). by eexists. }
    destruct (bool_decide _ || bool_decide _); rewrite ?send_event_run;
      cbv [ret];
      [destruct (Htouch (add_log (AEvent PROCESSING WARNING
                                    ("Missing information for folder "
                                     +:+ entry_path entry)) w) eq_refl)
         as (t' & -> & Hthere)
      |destruct (Htouch w eq_refl) as (t' & -> & Hthere)];
      cbv [enqueue isTerminated next_step];
      cbn [fst snd fs log queue terminated add_log set_fs];
      (split_and!; [by destruct (terminated w) | | |]);
      destruct (terminated w); cbn [fst snd fs log queue add_log set_fs];
      rewrite <- ?app_assoc; done.
  Qed.


(** X12: When [has_been_send] holds of an entry for which
    [is_target_json_valid] returns [None], the scan raises AttributeError at
    the read of the series name, before it moves anything: the world is left
    as it was. *)
Theorem sent_entry_without_descriptor_aborts_scan success_folder error_folder
    retry_max retry_delay entry w :
  has_been_send (fs w) (entry_path entry) = true →
  is_target_json_valid (fs w) (entry_path entry) = None →
  dispatch_entry isoformat is_ready_for_sending has_been_send
    is_target_json_valid _monitor success_folder error_folder retry_max
    retry_delay entry w
  = (Raise AttributeError, w).
  Proof.
    intros Hsent Hjson.
    cbv [dispatch_entry bind get_fs is_dir_method raise].
    by rewrite Hsent, Hjson, andb_false_r.
  Qed.

Lemma entry_neither_ready_nor_sent_is_skipped success_folder error_folder
    retry_max retry_delay entry w :
  has_been_send (fs w) (entry_path entry) = false →
  entry_is_dir entry = false
  ∨ info_truthy (is_ready_for_sending (fs w) (entry_path entry)) = false →
  dispatch_entry isoformat is_ready_for_sending has_been_send
    is_target_json_valid _monitor success_folder error_folder retry_max
    retry_delay entry w
  = (Ret (next_step w), w).
  Proof.
    intros Hsent Hskip.
    cbv [dispatch_entry bind get_fs is_dir_method isTerminated ret next_step].
    rewrite Hsent. cbn [negb andb].
    destruct Hskip as [->| ->]; rewrite ?andb_false_r; cbn [andb];
      by destruct (terminated w).
  Qed.

(** X13: When termination has not been requested, the configuration is
    readable, and no entry of the outgoing folder carries a sent marker
    while each entry is either not a directory or not ready for sending, a
    whole scan returns normally and leaves the world as it is: no event, no
    sentinel, no job. *)
Theorem scan_without_ready_or_sent_entries_is_idle config w es :
  terminated w = false →
  read_config = Ret config →
  lookup_path (PathOf (cfg_outgoing_folder config)) (fs w) = Some (Dir es) →
  Forall (λ '(name, n),
            has_been_send (fs w) (cfg_outgoing_folder config +:+ "/" +:+ name) = false
            ∧ (is_dir_node n = false
               ∨ info_truthy (is_ready_for_sending (fs w)
                                (cfg_outgoing_folder config +:+ "/" +:+ name))
                 = false)) es →
  dispatch isoformat read_config is_ready_for_sending has_been_send
    is_target_json_valid _monitor w
  = (Ret tt, w).
  Proof.
    intros Hrun Hcfg Hdir Hidle.
    unfold dispatch, bind at 1, isTerminated. rewrite Hrun, Hcfg.
    unfold bind at 1, scandir, bind at 1, get_fs. rewrite Hdir. unfold ret at 1.
    unfold bind at 1. rewrite for_loop_passes_over; [done|].
    apply Forall_fmap. eapply Forall_impl; [exact Hidle|].
    intros [name n] [Hsent Hskip]. unfold compose, bind.
    rewrite entry_neither_ready_nor_sent_is_skipped; [|done..].
    unfold next_step. by rewrite Hrun.
  Qed.

(** X14: When the configuration cannot be read, a scan only sends the
    CONFIG_UPDATE/WARNING event Unable to read configuration (possibly
    locked) and returns normally without looking at the outgoing folder. *)
Theorem unreadable_configuration_skips_scan w e :
  terminated w = false →
  read_config = Raise e →
  dispatch isoformat read_config is_ready_for_sending has_been_send
    is_target_json_valid _monitor w
  = (Ret tt,
     add_log (AEvent CONFIG_UPDATE WARNING
                "Unable to read configuration (possibly locked)") w).
  Proof.
    intros Hrun Hcfg. cbv [dispatch bind isTerminated]. by rewrite Hrun, Hcfg.
  Qed.

(** X15: [terminateProcess] sends the SHUTDOWN_REQUEST/INFO event with an
    empty description and raises the termination flag, without touching the
    directory tree or the queue; a scan started afterwards returns at once
    and changes nothing. *)
Theorem no_scan_after_shutdown_request w :
  let w1 := snd (terminateProcess _monitor w) in
  fst (terminateProcess _monitor w) = Ret tt
  ∧ log w1 = log w ++ [AEvent SHUTDOWN_REQUEST INFO ""]
  ∧ fs w1 = fs w
  ∧ queue w1 = queue w
  ∧ dispatch isoformat read_config is_ready_for_sending has_been_send
      is_target_json_valid _monitor w1
    = (Ret tt, w1).
  Proof. by split_and!. Qed.
End scan_entry_facts.

(** X9, witness: a staged folder due at 2000, scanned at 1000. *)
Lemma folder_not_due_is_left_alone_witness :
  let w := SampleWaiting.world_with SampleWaiting.task_due_later in
  Status.is_ready_for_sending (fs w) "outgoing/f1" = Some SampleWaiting.task_due_later
  ∧ dict_get SampleWaiting.task_due_later "next_retry_at" (VInt 0) = VInt 2000
  ∧ now w < 2000
  ∧ dispatch_entry Sample.isoformat Status.is_ready_for_sending Status.has_been_send
      Status.is_target_json_valid Sample.monitor ["success"] ["error"] 3 60
      SampleWaiting.entry w
    = (Ret (next_step w), w).
Proof.
  intros w.
  assert (Status.is_ready_for_sending (fs w) "outgoing/f1"
          = Some SampleWaiting.task_due_later) as Hready by reflexivity.
  assert (dict_get SampleWaiting.task_due_later "next_retry_at" (VInt 0) = VInt 2000)
    as Hdelay by reflexivity.
  assert (now w < 2000) as Hlater by (simpl; lia).
  split_and!; [exact Hready | exact Hdelay | exact Hlater |].
  exact (folder_not_due_is_left_alone Sample.isoformat Status.is_ready_for_sending
           Status.has_been_send Status.is_target_json_valid Sample.monitor
           ["success"] ["error"] 3 60 SampleWaiting.entry w _ 2000
           eq_refl eq_refl Hready Hdelay Hlater).
Defined.

(** X10, witness: the staged sample folder; its descriptor names series and
    target, so no warning is sent. *)
Lemma due_folder_is_claimed_and_submitted_witness :
  let w := SampleDispatch.w_ready in
  let r := dispatch_entry Sample.isoformat Status.is_ready_for_sending
             Status.has_been_send Status.is_target_json_valid Sample.monitor
             ["success"] ["error"] 3 60 SampleWaiting.entry w in
  Status.is_ready_for_sending (fs w) "outgoing/f1" = Some Sample.task
  ∧ py_time_ge (now w) (dict_get Sample.task "next_retry_at" (VInt 0)) = Ret true
  ∧ log (snd r)
    = log w ++ missing_information_warning Sample.task "outgoing/f1"
      ++ [ATouch (PathOf "outgoing/f1" ++ [".sending"]);
          AEnqueue (Job Sample.task (PathOf "outgoing/f1") ["success"] ["error"] 3 60
                      Sample.monitor)]
  ∧ missing_information_warning Sample.task "outgoing/f1" = [].
Proof.
  intros w r.
  assert (Status.is_ready_for_sending (fs w) "outgoing/f1" = Some Sample.task)
    as Hready by reflexivity.
  assert (py_time_ge (now w) (dict_get Sample.task "next_retry_at" (VInt 0))
          = Ret true) as Hdue by reflexivity.
  assert (Sample.task ≠ ∅) as Hne.
  { intros Heq. apply (f_equal (λ d : dict, d !! "target_ip")) in Heq.
    vm_compute in Heq. discriminate. }
  split_and!; [exact Hready | exact Hdue | | by vm_compute].
  apply (due_folder_is_claimed_and_submitted Sample.isoformat
           Status.is_ready_for_sending Status.has_been_send
           Status.is_target_json_valid Sample.monitor ["success"] ["error"] 3 60
           SampleWaiting.entry w Sample.task _
           eq_refl eq_refl Hready Hne Hdue eq_refl).
Defined.


(** X12, witness: a regular file reported as sent. *)
Lemma sent_entry_without_descriptor_aborts_scan_witness :
  let w := SampleDispatch.w_stray in
  Status.is_target_json_valid (fs w) "outgoing/stray" = None
  ∧ dispatch_entry Sample.isoformat Status.is_ready_for_sending (λ _ _, true)
      Status.is_target_json_valid Sample.monitor ["success"] ["error"] 3 60
      (Entry "stray" "outgoing/stray" false) w
    = (Raise AttributeError, w).
Proof.
  intros w.
  assert (Status.is_target_json_valid (fs w) "outgoing/stray" = None) as Hjson
    by reflexivity.
  split; [exact Hjson|].
  exact (sent_entry_without_descriptor_aborts_scan Sample.isoformat
           Status.is_ready_for_sending (λ _ _, true) Status.is_target_json_valid
           Sample.monitor ["success"] ["error"] 3 60
           (Entry "stray" "outgoing/stray" false) w eq_refl Hjson).
Defined.

(** X13, witness: an outgoing folder that holds one stray regular file. *)
Lemma scan_without_ready_or_sent_entries_is_idle_witness :
  let w := SampleDispatch.w_stray in
  terminated w = false
  ∧ lookup_path (PathOf "outgoing") (fs w) = Some (Dir [("stray", File (CData "x"))])
  ∧ sample_dispatch w = (Ret tt, w).
Proof.
  intros w.
  assert (terminated w = false) as Hrun by reflexivity.
  assert (lookup_path (PathOf "outgoing") (fs w)
          = Some (Dir [("stray", File (CData "x"))])) as Hdir by reflexivity.
  split_and!; [exact Hrun | exact Hdir |].
  refine (scan_without_ready_or_sent_entries_is_idle Sample.isoformat
            (Ret (SampleRouter.config [])) Status.is_ready_for_sending
            Status.has_been_send Status.is_target_json_valid Sample.monitor
            (SampleRouter.config []) w _ Hrun eq_refl Hdir _).
  repeat constructor.
Defined.

(** X14, witness: a configuration reader that raises, on the staged sample
    world. *)
Lemma unreadable_configuration_skips_scan_witness :
  terminated SampleDispatch.w_ready = false
  ∧ dispatch Sample.isoformat (Raise ConfigError) Status.is_ready_for_sending
      Status.has_been_send Status.is_target_json_valid Sample.monitor
      SampleDispatch.w_ready
    = (Ret tt,
       add_log (AEvent CONFIG_UPDATE WARNING
                  "Unable to read configuration (possibly locked)")
         SampleDispatch.w_ready).
Proof.
  split; [reflexivity|].
  exact (unreadable_configuration_skips_scan Sample.isoformat (Raise ConfigError)
           Status.is_ready_for_sending Status.has_been_send
           Status.is_target_json_valid Sample.monitor SampleDispatch.w_ready
           ConfigError eq_refl eq_refl).
Defined.

(** ** Locks *)

(** Creating an entry under a free name and removing it again gives back the
    tree. *)
Lemma put_then_remove p c t t1 :
  lookup_path p t = None →
  put p (Some c) t = Some t1 →
  put p None t1 = Some t.
Proof.
  revert t t1. induction p as [|x p IH]; intros t t1; [done|].
  destruct t as [?|es]; [done|].
  destruct p as [|y p].
  - cbn [lookup_path put]. intros Hfree [= <-].
    destruct (assoc x es) eqn:E; [done|]. by rewrite assoc_del_set_fresh.
  - rewrite !put_cons2. cbn [lookup_path].
    destruct (assoc x es) as [child|] eqn:E; [|done].
    intros Hfree Hput.
    destruct (put (y :: p) (Some c) child) as [child'|] eqn:E'; [|done].
    injection Hput as <-. rewrite put_cons2, assoc_set_eq.
    rewrite (IH _ _ Hfree E'). by rewrite assoc_set_set, assoc_set_same.
Qed.

(** X16: Once [free] has returned, the lock object records that it no longer
    holds its file: a second [free] and the destructor return normally and
    leave the world as it is, so they neither fail on the missing file nor
    remove a lock file created by someone else in between. *)
Theorem released_lock_is_not_released_twice lock w lock' w' :
  free lock w = (Ret lock', w') →
  lockCreated lock' = false
  ∧ free lock' w' = (Ret lock', w')
  ∧ FileLock_del (Some lock') w' = (Ret tt, w').
Proof.
  unfold free at 1. destruct (lockCreated lock) eqn:Hcreated.
  - unfold bind. destruct (unlink (lockfile lock) w) as [[[]|e] w1]; [|done].
    unfold ret. by intros [= <- <-].
  - unfold ret. intros [= <- <-].
    unfold FileLock_del, try_except, bind, free. by rewrite Hcreated.
Qed.

(** X16, witness: the lock of the sample series; after the release its file
    is gone. *)
Lemma released_lock_is_not_released_twice_witness :
  let lock := {| lockCreated := true; lockfile := SampleLock.sentinel |} in
  let lock' := {| lockCreated := false; lockfile := SampleLock.sentinel |} in
  let w' := snd (free lock SampleLock.w0) in
  free lock SampleLock.w0 = (Ret lock', w')
  ∧ lookup_path SampleLock.sentinel (fs w') = None
  ∧ free lock' w' = (Ret lock', w')
  ∧ FileLock_del (Some lock') w' = (Ret tt, w').
Proof.
  intros lock lock' w'.
  assert (free lock SampleLock.w0 = (Ret lock', w')) as Hfree by reflexivity.
  split_and!; [exact Hfree | reflexivity |..];
    apply (released_lock_is_not_released_twice lock SampleLock.w0 lock' w' Hfree).
Defined.

(** X17: Taking a lock on a free path in an existing directory and releasing
    it gives back the directory tree exactly as it was; the log holds the
    creation and the removal of the lock file. *)
Theorem lock_then_free_restores_tree p w es :
  lookup_path p (fs w) = None →
  p ≠ [] →
  lookup_path (path_parent p) (fs w) = Some (Dir es) →
  let r := (let* lock := FileLock_init p in free lock) w in
  fst r = Ret {| lockCreated := false; lockfile := p |}
  ∧ fs (snd r) = fs w
  ∧ log (snd r) = log w ++ [ATouch p; AUnlink p].
Proof.
  intros Hfree Hne Hparent r. subst r.
  assert (is_Some (put p (Some (File CEmpty)) (fs w))) as [t1 Ht1].
  { apply put_is_Some. split; [done|]. by eexists. }
  pose proof (lookup_put_eq _ _ _ _ Ht1) as Hthere.
  pose proof (put_then_remove _ _ _ _ Hfree Ht1) as Hback.
  cbv [FileLock_init free bind touch unlink get_fs update_fs ret lockCreated lockfile].
  rewrite Hfree, Ht1. cbn [fs add_log set_fs]. rewrite Hthere, Hback.
  cbn [fst snd fs log add_log set_fs]. by rewrite <- app_assoc.
Qed.

(** X17, witness: a lock for a series that is not locked. *)
Lemma lock_then_free_restores_tree_witness :
  let p := ["incoming"; "XYZ.lock"] in
  let r := (let* lock := FileLock_init p in free lock) SampleLock.w0 in
  lookup_path p (fs SampleLock.w0) = None
  ∧ fst r = Ret {| lockCreated := false; lockfile := p |}
  ∧ fs (snd r) = fs SampleLock.w0
  ∧ log (snd r) = log SampleLock.w0 ++ [ATouch p; AUnlink p].
Proof.
  intros p r.
  assert (lookup_path p (fs SampleLock.w0) = None) as Hfree by reflexivity.
  assert (p ≠ []) as Hne by done.
  split; [exact Hfree|].
  exact (lock_then_free_restores_tree p SampleLock.w0 _ Hfree Hne eq_refl).
Defined.

(** X18: When the lock file of the series exists in the incoming folder,
    [process_series] and [route_series] (with [.lock] as its lock suffix)
    return at once and leave the world as it is: nothing is read, moved or
    logged, and the lock file of the other worker stays. *)
Theorem locked_series_is_left_alone cfg C uuid_of parse_rule
    generate_taskfile_route generate_taskfile_process monitor series_UID w :
  is_Some (lookup_path
             (PathOf (cfg_incoming_folder cfg +:+ "/" +:+ series_UID +:+ ".lock"))
             (fs w)) →
  names_LOCK C = ".lock" →
  ProcessSeries.process_series cfg uuid_of parse_rule monitor series_UID w
  = (Ret tt, w)
  ∧ RouteSeries.route_series cfg C uuid_of parse_rule generate_taskfile_route
      generate_taskfile_process series_UID w
    = (Ret tt, w).
Proof.
  intros [n Hlocked] HLOCK.
  cbv [ProcessSeries.process_series RouteSeries.route_series bind path_exists
       get_fs ret].
  by rewrite HLOCK, Hlocked.
Qed.

(** X18, witness: the sample series with its lock file in place. *)
Lemma locked_series_is_left_alone_witness :
  is_Some (lookup_path (PathOf ("incoming" +:+ "/" +:+ "ABC" +:+ ".lock"))
             (fs SampleLock.w0))
  ∧ ProcessSeries.process_series (config []) uuid_of parse_rule monitor "ABC"
      SampleLock.w0
    = (Ret tt, SampleLock.w0)
  ∧ RouteSeries.route_series (config []) constants uuid_of parse_rule
      generate_taskfile_route generate_taskfile_process "ABC" SampleLock.w0
    = (Ret tt, SampleLock.w0).
Proof.
  assert (is_Some (lookup_path (PathOf ("incoming" +:+ "/" +:+ "ABC" +:+ ".lock"))
                     (fs SampleLock.w0))) as Hlocked by (by eexists).
  split; [exact Hlocked|].
  exact (locked_series_is_left_alone (config []) constants uuid_of parse_rule
           generate_taskfile_route generate_taskfile_process monitor "ABC"
           SampleLock.w0 Hlocked eq_refl).
Defined.

(** ** Reading a series and selecting rules *)

(** X19: Once it holds the lock, [process_series] never gets as far as
    routing: from every world it either returns early (tags file missing or
    unreadable) or raises, the directory tree is left exactly as it was, and
    only complaints (PROCESSING/ERROR events and ERROR series events) are
    logged. *)
Theorem process_series_stops_before_routing cfg uuid_of parse_rule monitor
    series_UID lock w :
  let r := ProcessSeries.process_series_locked cfg uuid_of parse_rule monitor
             series_UID lock w in
  fs (snd r) = fs w
  ∧ (∃ reports, log (snd r) = log w ++ reports ∧ Forall is_complaint reports)
  ∧ (fst r = Ret lock ∨ ∃ e, fst r = Raise e).
Proof.
  intros r. subst r.
  cbv [ProcessSeries.process_series_locked bind scandir get_fs ret raise path_exists
       try_except read_json Monitor_send_register_series].
  repeat first [ rewrite send_series_event_run | rewrite send_event_run
               | case_match ];
    repeat match goal with
           | H : send_event _ _ _ _ _ = _ |- _ => rewrite send_event_run in H
           | H : send_series_event _ _ _ _ _ _ _ = _ |- _ =>
               rewrite send_series_event_run in H
           end;
    simplify_eq; cbn [fst snd fs log add_log];
    (split_and!;
     [ done
     | first [ by (exists []; rewrite app_nil_r)
             | by (eexists [_]; split; [done | repeat constructor])
             | by (eexists [_; _]; split;
                     [by rewrite <- app_assoc | repeat constructor]) ]
     | first [ by left | by (right; eexists) ] ]).
Qed.

(** X20: When the incoming folder holds tags files of the series and the
    first of them reads as a JSON object, [process_series] raises
    AttributeError at the registration of the series (the class [Monitor]
    spells the method [send_register_seriese]); the world is left as it was. *)
Theorem readable_series_raises_at_registration cfg uuid_of parse_rule monitor
    series_UID lock w es first rest tags :
  lookup_path (PathOf (cfg_incoming_folder cfg)) (fs w) = Some (Dir es) →
  ProcessSeries.series_stems series_UID
    (map (λ '(name, n),
            Entry name (cfg_incoming_folder cfg +:+ "/" +:+ name) (is_dir_node n)) es)
  = first :: rest →
  lookup_path (PathOf (cfg_incoming_folder cfg +:+ "/" +:+ first +:+ ".tags")) (fs w)
  = Some (File (CJson tags)) →
  ProcessSeries.process_series_locked cfg uuid_of parse_rule monitor series_UID lock w
  = (Raise AttributeError, w).
Proof.
  intros Hdir Hstems Htags.
  cbv [ProcessSeries.process_series_locked bind scandir get_fs ret].
  rewrite Hdir. cbv beta iota. rewrite Hstems.
  cbv [path_exists bind get_fs ret try_except read_json]. rewrite Htags.
  cbn [negb]. cbv beta iota. by rewrite Htags.
Qed.

(** X20, witness: the sample series ABC with one slice. *)
Lemma readable_series_raises_at_registration_witness :
  let w := world_of series_ABC in
  let lock := {| lockCreated := true; lockfile := ["incoming"; "ABC.lock"] |} in
  ProcessSeries.series_stems "ABC"
    (map (λ '(name, n), Entry name ("incoming" +:+ "/" +:+ name) (is_dir_node n))
       series_ABC)
  = ["ABC#1"]
  ∧ ProcessSeries.process_series_locked (config []) uuid_of parse_rule monitor "ABC"
      lock w
    = (Raise AttributeError, w).
Proof.
  intros w lock.
  assert (ProcessSeries.series_stems "ABC"
            (map (λ '(name, n), Entry name ("incoming" +:+ "/" +:+ name) (is_dir_node n))
               series_ABC)
          = ["ABC#1"]) as Hstems by (vm_compute; reflexivity).
  split; [exact Hstems|].
  exact (readable_series_raises_at_registration (config []) uuid_of parse_rule
           monitor "ABC" lock w series_ABC "ABC#1" [] ∅ eq_refl Hstems eq_refl).
Defined.

(** X21: [get_routing_targets] never raises and never changes the directory
    tree: a rule whose evaluation fails is reported and skipped, and nothing
    but such reports is logged. Every target it selects comes with a
    configured rule that is not disabled, whose expression holds of the tags
    and whose target is that non-empty value. *)
Theorem get_routing_targets_never_raises_and_is_sound cfg parse_rule monitor
    tagList w :
  ∃ selected_targets w',
    ProcessSeries.get_routing_targets cfg parse_rule monitor tagList w
    = (Ret selected_targets, w')
    ∧ fs w' = fs w
    ∧ (∃ reports, log w' = log w ++ reports ∧ Forall is_complaint reports)
    ∧ ∀ target rule_name,
        (target, rule_name) ∈ selected_targets →
        selects cfg parse_rule tagList target rule_name.
Proof.
  unfold ProcessSeries.get_routing_targets.
  set (good := λ (s : list (pyval * string)) (w' : world),
         fs w' = fs w
         ∧ (∃ reports, log w' = log w ++ reports ∧ Forall is_complaint reports)
         ∧ ∀ target rule_name, (target, rule_name) ∈ s →
             selects cfg parse_rule tagList target rule_name).
  match goal with |- context [for_loop ?l ?s ?body] =>
    destruct (for_loop_invariant good good l s body w) as (f & s' & w' & Hrun & Hgood)
  end.
  - split_and!; [done | by (exists []; rewrite app_nil_r) |].
    intros ? ? Hin. by apply elem_of_nil in Hin.
  - done.
  - intros s x w0 (Hfs & (reports & Hlog & Hreports) & Hs).
    assert (∃ reports', log (add_log (AEvent PROCESSING SEV_ERROR
                                        ("Invalid rule: " +:+ x)) w0)
                        = log w ++ reports' ∧ Forall is_complaint reports')
      as Hreported.
    { exists (reports ++ [AEvent PROCESSING SEV_ERROR ("Invalid rule: " +:+ x)]).
      cbn [log add_log]. rewrite Hlog, <- app_assoc. split; [done|].
      apply Forall_app. split; [done|]. by repeat constructor. }
    cbv [try_except bind ret raise lift].
    repeat first [rewrite send_event_run | case_match];
      repeat match goal with
             | H : send_event _ _ _ _ _ = _ |- _ => rewrite send_event_run in H
             end;
      simplify_eq; (eexists _, _, _; split; [reflexivity|]); cbn [fs add_log];
      (split_and!; [done | first [exact Hreported | by exists reports] |]);
      try done.
    intros target rule_name Hin.
    apply elem_of_assoc_set in Hin as [[= -> ->]|Hin]; [|by apply Hs].
    eexists. split_and!; [done | | done | done | done].
    match goal with H : bool_decide _ = false |- _ =>
      by apply bool_decide_eq_false_1 in H end.
  - unfold bind at 1. rewrite Hrun. by exists s', w'.
Qed.


(** ** Tags files, error files and discarding *)

Lemma substring_whole s : String.substring 0 (String.length s) s = s.
Proof. induction s as [|c s IH]; simpl; [done | by rewrite IH]. Qed.

Lemma substring_split a s :
  (a ≤ String.length s)%nat →
  String.substring 0 a s +:+ String.substring a (String.length s - a) s = s.
Proof.
  revert s. induction a as [|a IH]; intros s Hle.
  - rewrite Nat.sub_0_r, substring_whole. by destruct s.
  - destruct s as [|c s]; [simpl in Hle; lia|].
    change (String c (String.substring 0 a s
                      +:+ String.substring a (String.length s - a) s)
            = String c s).
    rewrite IH; [done|]. simpl in Hle. lia.
Qed.

(** Cutting a suffix off a string that ends with it, and putting it back. *)
Lemma endswith_drop_last s suffix :
  endswith s suffix = true →
  drop_last (String.length suffix) s +:+ suffix = s.
Proof.
  unfold endswith, drop_last. intros Hends.
  apply andb_true_iff in Hends as [Hle Heq].
  apply Nat.leb_le in Hle. apply String.eqb_eq in Heq.
  set (a := (String.length s - String.length suffix)%nat) in *.
  assert (String.length suffix = String.length s - a)%nat as Hm by lia.
  rewrite <- Heq, Hm. apply substring_split. lia.
Qed.

(** X23: Every stem that the routers collect for a series comes from an
    entry of the incoming folder that is not a directory, whose name starts
    with the series name followed by # and equals the stem followed by the
    tags suffix: cutting five characters removes exactly the suffix. For
    [route_series] this needs the configured tags suffix to be five
    characters long. *)
Theorem stems_name_the_tags_files C series_UID entries :
  String.length (names_TAGS C) = 5%nat →
  (∀ stem, stem ∈ ProcessSeries.series_stems series_UID entries →
     ∃ entry, entry ∈ entries ∧ tags_file_of series_UID ".tags" stem entry)
  ∧ (∀ stem, stem ∈ RouteSeries.series_stems C series_UID entries →
       ∃ entry, entry ∈ entries
                ∧ tags_file_of series_UID (names_TAGS C) stem entry).
Proof.
  intros Hlen.
  split; intros stem Hin;
    apply list_elem_of_fmap in Hin as (entry & -> & Hentry);
    apply list_elem_of_filter in Hentry as [Hcond Hentry];
    apply andb_true_iff in Hcond as [Hcond Hfile];
    apply andb_true_iff in Hcond as [Hends Hstarts];
    apply negb_true_iff in Hfile;
    (exists entry; split; [done|]); (split_and!; [|done..]).
  - exact (eq_sym (endswith_drop_last _ ".tags" Hends)).
  - pose proof (endswith_drop_last _ _ Hends) as Hback.
    rewrite Hlen in Hback. done.
Qed.

(** X23, witness: of three entries only the tags file of series ABC yields a
    stem; the payload file and the tags file of series ABCD do not. *)
Lemma stems_name_the_tags_files_witness :
  String.length (names_TAGS constants) = 5%nat
  ∧ RouteSeries.series_stems constants "ABC"
      [Entry "ABC#1.dcm" "incoming/ABC#1.dcm" false;
       Entry "ABC#1.tags" "incoming/ABC#1.tags" false;
       Entry "ABCD#1.tags" "incoming/ABCD#1.tags" false]
    = ["ABC#1"]
  ∧ ∃ entry,
      entry ∈ [Entry "ABC#1.dcm" "incoming/ABC#1.dcm" false;
               Entry "ABC#1.tags" "incoming/ABC#1.tags" false;
               Entry "ABCD#1.tags" "incoming/ABCD#1.tags" false]
      ∧ tags_file_of "ABC" (names_TAGS constants) "ABC#1" entry.
Proof.
  assert (String.length (names_TAGS constants) = 5%nat) as Hlen by reflexivity.
  split_and!; [exact Hlen | by vm_compute |].
  apply (proj2 (stems_name_the_tags_files constants "ABC" _ Hlen)).
  vm_compute. apply list_elem_of_here.
Defined.

(** X24: When the incoming folder is a directory without any regular file
    whose name ends in [.error], [process_error_files] and
    [route_error_files] return normally and leave the world as it is: no
    lock file, no move and no event. *)
Theorem error_scan_without_error_files_is_idle cfg C monitor w es :
  lookup_path (PathOf (cfg_incoming_folder cfg)) (fs w) = Some (Dir es) →
  Forall (λ '(name, n), is_error_file name n = false) es →
  ProcessSeries.process_error_files cfg monitor w = (Ret tt, w)
  ∧ RouteSeries.route_error_files cfg C w = (Ret tt, w).
Proof.
  intros Hdir Hnone. split.
  - unfold ProcessSeries.process_error_files.
    unfold bind at 1, scandir, bind at 1, get_fs. rewrite Hdir. unfold ret at 1.
    unfold bind at 1. rewrite for_loop_passes_over; [done|].
    apply Forall_fmap. eapply Forall_impl; [exact Hnone|].
    intros [name n] Hskip. unfold is_error_file in Hskip.
    unfold compose, ProcessSeries.process_error_files_entry.
    cbn [entry_name entry_is_dir]. by rewrite Hskip.
  - unfold RouteSeries.route_error_files.
    unfold bind at 1, scandir, bind at 1, get_fs. rewrite Hdir. unfold ret at 1.
    unfold bind at 1. rewrite for_loop_passes_over; [done|].
    apply Forall_fmap. eapply Forall_impl; [exact Hnone|].
    intros [name n] Hskip. unfold is_error_file in Hskip.
    unfold compose, RouteSeries.route_error_files_entry.
    cbn [entry_name entry_is_dir]. by rewrite Hskip.
Qed.

(** X24, witness: the incoming folder of the sample series. *)
Lemma error_scan_without_error_files_is_idle_witness :
  let w := world_of series_ABC in
  Forall (λ '(name, n), is_error_file name n = false) series_ABC
  ∧ ProcessSeries.process_error_files (config []) monitor w = (Ret tt, w)
  ∧ RouteSeries.route_error_files (config []) constants w = (Ret tt, w).
Proof.
  intros w.
  assert (Forall (λ '(name, n), is_error_file name n = false) series_ABC) as Hnone
    by (repeat constructor).
  split; [exact Hnone|].
  exact (error_scan_without_error_files_is_idle (config []) constants monitor w
           series_ABC eq_refl Hnone).
Defined.


(** ** Bounds on what a computation logs *)

Section logs_only_facts.
Context (P : action → Prop).

Lemma logs_only_silent {A} (c : M A) :
    (∀ w, log (snd (c w)) = log w) → logs_only P c.
  Proof. intros Hc w. exists []. by rewrite Hc, app_nil_r. Qed.

Lemma logs_only_ret {A} (a : A) : logs_only P (ret a).
  Proof. by apply logs_only_silent. Qed.

Lemma logs_only_raise {A} e : logs_only P (raise e : M A).
  Proof. by apply logs_only_silent. Qed.

Lemma logs_only_lift {A} (o : outcome A) : logs_only P (lift o).
  Proof. by apply logs_only_silent. Qed.

Lemma logs_only_get_fs : logs_only P get_fs.
  Proof. by apply logs_only_silent. Qed.

Lemma logs_only_time_time : logs_only P time_time.
  Proof. by apply logs_only_silent. Qed.

Lemma logs_only_isTerminated : logs_only P isTerminated.
  Proof. by apply logs_only_silent. Qed.

Lemma logs_only_uuid1 uuid_of : logs_only P (uuid1 uuid_of).
  Proof. by apply logs_only_silent. Qed.

Lemma logs_only_emit a : P a → logs_only P (emit a).
  Proof. intros Ha w. exists [a]. split; [done | by repeat constructor]. Qed.

Lemma logs_only_update_fs n a : P a → logs_only P (update_fs n a).
  Proof. intros Ha w. exists [a]. split; [done | by repeat constructor]. Qed.

Lemma logs_only_enqueue j : P (AEnqueue j) → logs_only P (enqueue j).
  Proof. intros Ha w. exists [AEnqueue j]. split; [done | by repeat constructor]. Qed.

Lemma logs_only_bind {A B} (c : M A) (k : A → M B) :
    logs_only P c → (∀ a, logs_only P (k a)) → logs_only P (bind c k).
  Proof.
    intros Hc Hk w. destruct (Hc w) as (l1 & Hl1 & HP1). unfold bind.
    destruct (c w) as [[a|e] w1]; simpl in *; [|by exists l1].
    destruct (Hk a w1) as (l2 & Hl2 & HP2). exists (l1 ++ l2).
    rewrite Hl2, Hl1, <- app_assoc. split; [done | by apply Forall_app].
  Qed.


Lemma logs_only_try {A} (c : M A) (h : exn → M A) :
    logs_only P c → (∀ e, logs_only P (h e)) → logs_only P (try_except c h).
  Proof.
    intros Hc Hh w. destruct (Hc w) as (l1 & Hl1 & HP1). unfold try_except.
    destruct (c w) as [[a|e] w1]; simpl in *; [by exists l1|].
    destruct (Hh e w1) as (l2 & Hl2 & HP2). exists (l1 ++ l2).
    rewrite Hl2, Hl1, <- app_assoc. split; [done | by apply Forall_app].
  Qed.

  (** A loop whose body keeps an invariant [I] of the loop-carried state. *)
Lemma logs_only_for_loop {A S} (I : S → Prop) (l : list A) (s : S)
      (body : S → A → M (flow * S)) :
    I s →
    (∀ s x, I s → logs_only P (body s x)) →
    (∀ s x w f s' w', I s → body s x w = (Ret (f, s'), w') → I s') →
    ∀ w, ∃ l', log (snd (for_loop l s body w)) = log w ++ l' ∧ Forall P l'
               ∧ ∀ f s' w', for_loop l s body w = (Ret (f, s'), w') → I s'.
  Proof.
    intros Hs Hbody Hkeep. revert s Hs.
    induction l as [|x l IH]; intros s Hs w; cbn [for_loop].
    - exists []. rewrite app_nil_r. split_and!; [done..|].
      unfold ret. by intros ? ? ? [= <- <- <-].
    - destruct (Hbody s x Hs w) as (l1 & Hl1 & HP1). unfold bind.
      pose proof (Hkeep s x w) as Hnext.
      destruct (body s x w) as [[[f s1]|e] w1]; simpl in *;
        [|by exists l1].
      specialize (Hnext f s1 w1 Hs eq_refl).
      destruct f.
      + destruct (IH s1 Hnext w1) as (l2 & Hl2 & HP2 & Hend).
        exists (l1 ++ l2). rewrite Hl2, Hl1, <- app_assoc.
        split_and!; [done | by apply Forall_app | done].
      + exists l1. split_and!; [done..|]. unfold ret. by intros ? ? ? [= <- <- <-].
      + exists l1. split_and!; [done..|]. unfold ret. by intros ? ? ? [= <- <- <-].
  Qed.

Lemma logs_only_bind_for_loop {A S B} (I : S → Prop) (l : list A) (s : S)
      (body : S → A → M (flow * S)) (k : flow * S → M B) :
    I s →
    (∀ s x, I s → logs_only P (body s x)) →
    (∀ s x w f s' w', I s → body s x w = (Ret (f, s'), w') → I s') →
    (∀ f s', I s' → logs_only P (k (f, s'))) →
    logs_only P (bind (for_loop l s body) k).
  Proof.
    intros Hs Hbody Hkeep Hk w.
    destruct (logs_only_for_loop I l s body Hs Hbody Hkeep w) as (l1 & Hl1 & HP1 & Hend).
    unfold bind. destruct (for_loop l s body w) as [[[f s1]|e] w1]; simpl in *;
      [|by exists l1].
    destruct (Hk f s1 (Hend f s1 w1 eq_refl) w1) as (l2 & Hl2 & HP2).
    exists (l1 ++ l2). rewrite Hl2, Hl1, <- app_assoc.
    split; [done | by apply Forall_app].
  Qed.

Lemma logs_only_path_exists p : logs_only P (path_exists p).
  Proof. by apply logs_only_silent. Qed.

Lemma logs_only_scandir folder : logs_only P (scandir folder).
  Proof.
    apply logs_only_silent. intros w. cbv [scandir bind get_fs ret raise].
    by repeat case_match.
  Qed.

Lemma logs_only_glob_dcm p : logs_only P (glob_dcm p).
  Proof. by apply logs_only_silent. Qed.

Lemma logs_only_read_json p : logs_only P (read_json p).
  Proof.
    apply logs_only_silent. intros w. cbv [read_json bind get_fs ret raise].
    by repeat case_match.
  Qed.
End logs_only_facts.

Ltac logs_only_core :=
  first
    [ apply logs_only_ret | apply logs_only_raise | apply logs_only_lift
    | apply logs_only_get_fs | apply logs_only_time_time
    | apply logs_only_isTerminated | apply logs_only_uuid1
    | apply logs_only_path_exists | apply logs_only_scandir
    | apply logs_only_glob_dcm | apply logs_only_read_json
    | apply logs_only_emit | apply logs_only_update_fs | apply logs_only_enqueue
    | apply logs_only_bind; [|intros ?]
    | apply logs_only_try; [|intros ?]
    | case_match ].

Section logs_only_primitives.
Context (P : action → Prop).

Lemma logs_only_touch p : P (ATouch p) → logs_only P (touch p).
  Proof. intros Hp. unfold touch. repeat logs_only_core; done. Qed.

Lemma logs_only_unlink p : P (AUnlink p) → logs_only P (unlink p).
  Proof. intros Hp. unfold unlink. repeat logs_only_core; done. Qed.

Lemma logs_only_mkdir p : P (AMkdir p) → logs_only P (mkdir p).
  Proof. intros Hp. unfold mkdir. repeat logs_only_core; done. Qed.

Lemma logs_only_write_json p d : P (AWrite p (CJson d)) → logs_only P (write_json p d).
  Proof. intros Hp. unfold write_json. repeat logs_only_core; done. Qed.

Lemma logs_only_rename src dst : P (AMove src dst) → logs_only P (rename src dst).
  Proof. intros Hp. unfold rename. repeat logs_only_core; done. Qed.

Lemma logs_only_shutil_move src dst :
    (∀ dst', P (AMove src dst')) → logs_only P (shutil_move src dst).
  Proof.
    intros Hp. unfold shutil_move.
    repeat first [apply logs_only_rename | logs_only_core]; done.
  Qed.

Lemma logs_only_shutil_copy src dst :
    (∀ dst', P (ACopy src dst')) → logs_only P (shutil_copy src dst).
  Proof. intros Hp. unfold shutil_copy. repeat logs_only_core; done. Qed.

Lemma logs_only_send_event m e sev d :
    P (AEvent e sev d) → logs_only P (send_event m e sev d).
  Proof. intros Hp. unfold send_event. repeat logs_only_core; done. Qed.

Lemma logs_only_send_series_event m e uid n target info :
    P (ASeries e uid n target info) →
    logs_only P (send_series_event m e uid n target info).
  Proof. intros Hp. unfold send_series_event. repeat logs_only_core; done. Qed.

Lemma logs_only_FileLock_init p : P (ATouch p) → logs_only P (FileLock_init p).
  Proof.
    intros Hp. unfold FileLock_init.
    repeat first [apply logs_only_touch | logs_only_core]; done.
  Qed.

Lemma logs_only_free lock : P (AUnlink (lockfile lock)) → logs_only P (free lock).
  Proof.
    intros Hp. unfold free.
    repeat first [apply logs_only_unlink | logs_only_core]; done.
  Qed.

Lemma logs_only_FileLock_del lock :
    (∀ l, lock = Some l → P (AUnlink (lockfile l))) →
    logs_only P (FileLock_del lock).
  Proof.
    intros Hp. unfold FileLock_del. destruct lock as [l|]; [|apply logs_only_ret].
    repeat first [apply logs_only_free | logs_only_core]. by apply Hp.
  Qed.
End logs_only_primitives.




(** ** What the scan, the worker and the staging passes can do *)

(** One step of a proof that a computation logs only what [P] allows; the
    conditions on single actions are left to the caller. *)
Ltac logs_only_step :=
  first
    [ apply logs_only_touch | apply logs_only_unlink | apply logs_only_mkdir
    | apply logs_only_write_json | apply logs_only_shutil_move; intros ?
    | apply logs_only_shutil_copy; intros ?
    | apply logs_only_send_event | apply logs_only_send_series_event
    | apply logs_only_FileLock_init | apply logs_only_free
    | apply logs_only_FileLock_del; intros ? ?
    | logs_only_core ].

Section scan_safety.
Variable isoformat : Z → string.
Variable read_config : outcome Config.
Variable is_ready_for_sending : node → string → option dict.
Variable has_been_send : node → string → bool.
Variable is_target_json_valid : node → string → option dict.
Variable _monitor : Monitor.

End scan_safety.



Section route_passes.
Variable cfg : Config.
Variable C : Constants.
Variable uuid_of : nat → string.
Variable generate_taskfile_process : string → pyval → string → dict → dict.

Lemma lock_in_folder_of_string folder complaint w :
  RouteSeries.lock_in_folder C (VStr folder) complaint w = (Raise UnboundLocalError, w).
  Proof. reflexivity. Qed.


End route_passes.

Lemma staged_descriptor_is_dispatchable series_UID applied_rule target
    aet_source aet_target port ip :
  dispatchable
    (CJson (<["series_uid" := VStr series_UID]>
            (<["applied_rule" := applied_rule]>
            (<["target_name" := target]>
            (<["target_aet_source" := aet_source]>
            (<["target_aet_target" := aet_target]>
            (<["target_port" := port]>
            (<["target_ip" := ip]> ∅)))))))).
Proof.
  split_and!.
  - intros folder. unfold _create_command, dict_item.
    repeat (rewrite lookup_insert_ne by done). rewrite lookup_insert_eq.
    repeat (rewrite lookup_insert_ne by done). rewrite lookup_insert_eq.
    repeat (rewrite lookup_insert_ne by done). rewrite lookup_insert_eq.
    by eexists.
  - rewrite lookup_insert_eq. by eexists.
  - repeat (rewrite lookup_insert_ne by done). rewrite lookup_insert_eq. by eexists.
Qed.

(** X29: Every descriptor that [push_series_outgoing] writes holds
    [target_ip], [target_port] and [target_aet_target], so that
    [_create_command] accepts it, and names its [series_uid] and
    [target_name]; the pass writes no other file content, submits no job,
    registers no series and calls no webhook. *)
Theorem staged_descriptors_are_dispatchable cfg uuid_of monitor fileList series_UID
    transfer_targets :
  logs_only staging_step
    (ProcessSeries.push_series_outgoing cfg uuid_of monitor fileList series_UID
       transfer_targets).
Proof.
  unfold ProcessSeries.push_series_outgoing.
  apply (logs_only_bind_for_loop _ (λ _, True)); [done | | done |].
  - intros [current_target lock] target _. unfold ProcessSeries.transfer_files.
    repeat first
      [ apply logs_only_write_json; apply staged_descriptor_is_dispatchable
      | apply (logs_only_bind_for_loop _ (λ _, True)); [done | intros [] ? _ | done | intros ? ? _]
      | logs_only_step; try done ].
  - intros f s _. by apply logs_only_FileLock_del.
Qed.

(** ** The error scan of process_series.py *)

Lemma split_slash_nonempty s : split_slash s ≠ [].
Proof.
  destruct s as [|c s]; simpl; [done|].
  destruct (Ascii.eqb c _); [done|]. by destruct (split_slash s).
Qed.

Lemma split_slash_join a b :
  split_slash (a +:+ "/" +:+ b) = split_slash a ++ split_slash b.
Proof.
  induction a as [|c a IH]; [done|].
  change (String c a +:+ "/" +:+ b) with (String c (a +:+ "/" +:+ b)).
  cbn [split_slash]. rewrite IH.
  destruct (Ascii.eqb c _); [done|].
  pose proof (split_slash_nonempty a) as Hne.
  by destruct (split_slash a).
Qed.

(** Joining two path strings with a separator joins the paths. *)
Lemma PathOf_join a b : PathOf (a +:+ "/" +:+ b) = PathOf a ++ PathOf b.
Proof. unfold PathOf. by rewrite split_slash_join, filter_app. Qed.

Lemma string_length_app a b :
  String.length (a +:+ b) = (String.length a + String.length b)%nat.
Proof. induction a as [|c a IH]; simpl; [done | by rewrite IH]. Qed.

Lemma lookup_entry p x t es :
  lookup_path p t = Some (Dir es) → lookup_path (p ++ [x]) t = assoc x es.
Proof.
  intros Hp. rewrite lookup_path_app, Hp. cbn [lookup_path].
  by destruct (assoc x es).
Qed.

Section odict_del.
Context {K A : Type} `{EqDecision K}.
Implicit Types (k : K) (v : A) (l : list (K * A)).

Lemma assoc_del_comm k k' l : assoc_del k (assoc_del k' l) = assoc_del k' (assoc_del k l).
  Proof.
    destruct (decide (k = k')) as [->|Hne]; [done|].
    induction l as [|[k0 v0] l IH]; simpl; [done|].
    destruct (bool_decide (k' = k0)) eqn:E'; destruct (bool_decide (k = k0)) eqn:E;
      simpl; rewrite ?E, ?E'; try done.
    - apply bool_decide_eq_true_1 in E, E'. congruence.
    - by rewrite IH.
  Qed.
End odict_del.

(** Writing an entry of one of two directories that do not contain each other:
    the listing of the one changes, the other stays. *)
Lemma put_entry_beside p q x v t es es' :
  lookup_path p t = Some (Dir es) →
  lookup_path q t = Some (Dir es') →
  ¬ p `prefix_of` q → ¬ q `prefix_of` p →
  ∃ t', put (p ++ [x]) v t = Some t'
        ∧ lookup_path p t'
          = Some (Dir (match v with
                       | Some c => assoc_set x c es
                       | None => assoc_del x es
                       end))
        ∧ lookup_path q t' = Some (Dir es').
Proof.
  intros Hp Hq Hpq Hqp.
  assert (is_Some (put (p ++ [x]) v t)) as [t' Ht'].
  { apply put_is_Some. split; [by destruct p|]. rewrite removelast_last. by eexists. }
  exists t'. split_and!; [done | by eapply lookup_put_parent |].
  rewrite (lookup_put_other _ _ _ _ q Ht'); [done | |].
  - intros Hpre. apply Hpq. by eapply prefix_app_l.
  - intros Hpre. apply prefix_snoc_inv in Hpre as [?|Heq]; [done|].
    apply Hpq. rewrite Heq. by apply prefix_app_r.
Qed.

Section quarantine.
Variable cfg : Config.

(** X30: When the error scan of process_series.py meets a regular file with
    the suffix [.error] that is not locked, with its payload file (the name
    without the suffix) beside it, and the error folder is a separate
    existing directory holding neither name, both files are moved to the
    error folder under their names with their contents, the lock file taken
    for the move is removed again, every other entry of both folders is as
    before, the count of error files found grows by one, and the log is
    exactly: lock, move of the error file, move of the payload, unlock. *)
Theorem error_file_is_quarantined_with_its_payload found lock entry w es ers
    marker payload :
  let incoming := PathOf (cfg_incoming_folder cfg) in
  let errors := PathOf (cfg_error_folder cfg) in
  let name := entry_name entry in
  let base := drop_last 6 name in
  let sentinel := incoming ++ [name +:+ ".lock"] in
  endswith name ".error" = true →
  entry_is_dir entry = false →
  simple_name name → simple_name base → simple_name (name +:+ ".lock") →
  (∀ l, lock = Some l → lockCreated l = false) →
  lookup_path incoming (fs w) = Some (Dir es) →
  lookup_path errors (fs w) = Some (Dir ers) →
  ¬ incoming `prefix_of` errors → ¬ errors `prefix_of` incoming →
  assoc name es = Some (File marker) →
  assoc base es = Some (File payload) →
  assoc (name +:+ ".lock") es = None →
  assoc name ers = None →
  assoc base ers = None →
  let r := ProcessSeries.process_error_files_entry cfg (found, lock) entry w in
  fst r = Ret (Continue,
               (found + 1, Some {| lockCreated := false; lockfile := sentinel |}))
  ∧ lookup_path incoming (fs (snd r))
    = Some (Dir (assoc_del base (assoc_del name es)))
  ∧ lookup_path errors (fs (snd r))
    = Some (Dir (assoc_set base (File payload) (assoc_set name (File marker) ers)))
  ∧ log (snd r)
    = log w ++ [ATouch sentinel;
                AMove (incoming ++ [name]) (errors ++ [name]);
                AMove (incoming ++ [base]) (errors ++ [base]);
                AUnlink sentinel].
  Proof.
    intros incoming errors name base sentinel Herror Hfile Hname Hbase Hlockname Hlock Hin Herr
      Hie Hei Hmarker Hpayload Hfree Hfree1 Hfree2 r. subst r.
    (* the names involved are different *)
    assert (base +:+ ".error" = name) as Hsplit
      by exact (endswith_drop_last _ ".error" Herror).
    assert (name ≠ base) as Hnb.
    { intros Heq. apply (f_equal String.length) in Hsplit.
      rewrite string_length_app, <- Heq in Hsplit. simpl in Hsplit. lia. }
    assert (name +:+ ".lock" ≠ name) as Hln.
    { intros Heq. apply (f_equal String.length) in Heq.
      rewrite string_length_app in Heq. simpl in Heq. lia. }
    assert (name +:+ ".lock" ≠ base) as Hlb.
    { intros Heq. apply (f_equal String.length) in Heq, Hsplit.
      rewrite string_length_app in Heq, Hsplit. simpl in Heq, Hsplit. lia. }
    (* the paths *)
    assert (PathOf (cfg_incoming_folder cfg +:+ "/" +:+ name +:+ ".lock") = sentinel)
      as Epl by (by rewrite PathOf_join, Hlockname).
    assert (PathOf (cfg_incoming_folder cfg +:+ "/" +:+ name) = incoming ++ [name])
      as Eps by (by rewrite PathOf_join, Hname).
    assert (PathOf (cfg_error_folder cfg +:+ "/" +:+ name) = errors ++ [name])
      as Epd by (by rewrite PathOf_join, Hname).
    assert (PathOf (cfg_incoming_folder cfg +:+ "/" +:+ base) = incoming ++ [base])
      as Eqs by (by rewrite PathOf_join, Hbase).
    assert (PathOf (cfg_error_folder cfg +:+ "/" +:+ base) = errors ++ [base])
      as Eqd by (by rewrite PathOf_join, Hbase).
    (* the six writes *)
    destruct (put_entry_beside incoming errors (name +:+ ".lock")
                (Some (File CEmpty)) (fs w) _ _ Hin Herr Hie Hei)
      as (t1 & Ht1 & Hin1 & Herr1).
    destruct (put_entry_beside incoming errors name None t1 _ _ Hin1 Herr1 Hie Hei)
      as (t2 & Ht2 & Hin2 & Herr2).
    destruct (put_entry_beside errors incoming name (Some (File marker)) t2 _ _
                Herr2 Hin2 Hei Hie) as (t3 & Ht3 & Herr3 & Hin3).
    destruct (put_entry_beside incoming errors base None t3 _ _ Hin3 Herr3 Hie Hei)
      as (t4 & Ht4 & Hin4 & Herr4).
    destruct (put_entry_beside errors incoming base (Some (File payload)) t4 _ _
                Herr4 Hin4 Hei Hie) as (t5 & Ht5 & Herr5 & Hin5).
    destruct (put_entry_beside incoming errors (name +:+ ".lock") None t5 _ _
                Hin5 Herr5 Hie Hei) as (t6 & Ht6 & Hin6 & Herr6).
    fold sentinel in Ht1, Ht6.
    (* what is found on the way *)
    assert (lookup_path sentinel (fs w) = None) as L0
      by (unfold sentinel; by rewrite (lookup_entry _ _ _ _ Hin)).
    assert (lookup_path (errors ++ [name]) t1 = None) as L1
      by (by rewrite (lookup_entry _ _ _ _ Herr1)).
    assert (lookup_path (incoming ++ [name]) t1 = Some (File marker)) as L2.
    { rewrite (lookup_entry _ _ _ _ Hin1). by rewrite assoc_set_ne. }
    assert (lookup_path (incoming ++ [base]) t3 = Some (File payload)) as L3.
    { rewrite (lookup_entry _ _ _ _ Hin3).
      rewrite assoc_del_ne, assoc_set_ne; done. }
    assert (lookup_path (errors ++ [base]) t3 = None) as L4.
    { rewrite (lookup_entry _ _ _ _ Herr3). by rewrite assoc_set_ne. }
    assert (lookup_path sentinel t5 = Some (File CEmpty)) as L5.
    { unfold sentinel. rewrite (lookup_entry _ _ _ _ Hin5).
      rewrite !assoc_del_ne by done. apply assoc_set_eq. }
    (* the run *)
    assert (FileLock_del lock = ret tt) as Hdel.
    { destruct lock as [l|]; [|done]. unfold FileLock_del, free.
      by rewrite (Hlock l eq_refl). }
    unfold ProcessSeries.process_error_files_entry.
    fold name. rewrite Herror, Hfile. cbn [andb negb].
    fold base. rewrite Epl, Eps, Epd, Eqs, Eqd, Hdel.
    cbv [bind path_exists get_fs ret try_except FileLock_init touch update_fs
         shutil_move rename free unlink lockCreated lockfile].
    repeat first [ rewrite L0 | rewrite Ht1 | rewrite L1 | rewrite L2 | rewrite Ht2
                 | rewrite Ht3 | rewrite L3 | rewrite L4 | rewrite Ht4 | rewrite Ht5
                 | rewrite L5 | rewrite Ht6
                 | progress cbn [fst snd fs log add_log set_fs]
                 | progress cbv beta iota ].
    split_and!; [done | | done | by rewrite <- !app_assoc].
    rewrite Hin6. do 2 f_equal.
    rewrite (assoc_del_comm (name +:+ ".lock") base),
      (assoc_del_comm (name +:+ ".lock") name).
    by rewrite assoc_del_set_fresh.
  Qed.
End quarantine.

(** X30, witness: the error-marked payload of the sample incoming folder. *)
Lemma error_file_is_quarantined_with_its_payload_witness :
  let entry := Entry "ABC#1.dcm.error" "incoming/ABC#1.dcm.error" false in
  let r := ProcessSeries.process_error_files_entry (config []) (0, None) entry
             SampleErrors.w0 in
  drop_last 6 (entry_name entry) = "ABC#1.dcm"
  ∧ lookup_path ["incoming"] (fs (snd r))
    = Some (Dir (assoc_del "ABC#1.dcm" (assoc_del "ABC#1.dcm.error" SampleErrors.incoming)))
  ∧ lookup_path ["error"] (fs (snd r))
    = Some (Dir (assoc_set "ABC#1.dcm" (File (CData "pixels"))
                   (assoc_set "ABC#1.dcm.error" (File (CData "unreadable header")) []))).
Proof.
  intros entry r.
  assert (¬ ["incoming"] `prefix_of` ["error"]) as Hie
    by (intros [k Hk]; discriminate).
  assert (¬ ["error"] `prefix_of` ["incoming"]) as Hei
    by (intros [k Hk]; discriminate).
  pose proof (error_file_is_quarantined_with_its_payload (config []) 0 None entry
                SampleErrors.w0 SampleErrors.incoming [] (CData "unreadable header")
                (CData "pixels") eq_refl eq_refl eq_refl eq_refl eq_refl
                ltac:(by intros) eq_refl eq_refl Hie Hei eq_refl eq_refl eq_refl
                eq_refl eq_refl) as H.
  cbv zeta in H. destruct H as (_ & Hin & Herr & _).
  split_and!; [reflexivity | exact Hin | exact Herr].
Defined.
